(** * trail_forge_metrics: the metrics collector and the employee routes

    A shallow embedding of [employee_metrics_app/github_api.py],
    [employee_metrics_app/models.py] and the employee views of
    [employee_metrics_app/routes.py].

    Modelling conventions.
    - Python [str] values are [string]s; a character is a code point
      below 256.
    - A decoded JSON document is a [json] value.  Number literals are
      integers ([JInt]); literals with a fraction or an exponent, which
      Python decodes to [float], are outside the model.  [JObj] carries
      the items of the decoded dict; a key is looked up at its first
      item.
    - Code that can raise runs in [M], a state monad over [World] whose
      results are [Normal v] or [Raised e].  The state survives a raise:
      a committed row stays committed.
    - The GitHub server is a function from the number of GETs issued so
      far and the request to what that GET receives. *)

From Stdlib Require Import ZArith List String Ascii Bool Lia.
Import ListNotations.

Set Warnings "-register-all".
Local Open Scope string_scope.
Local Open Scope Z_scope.

(** ** Python strings *)

Module PyStr.

(** [str.isspace] on one character (code points below 256). *)
Definition is_space (c : ascii) : bool :=
  let n := nat_of_ascii c in
  ((9 <=? n) && (n <=? 13) || (28 <=? n) && (n <=? 32)
   || (n =? 133) || (n =? 160))%nat.

Fixpoint lstrip (s : string) : string :=
  match s with
  | EmptyString => EmptyString
  | String c s' => if is_space c then lstrip s' else s
  end.

Fixpoint rstrip (s : string) : string :=
  match s with
  | EmptyString => EmptyString
  | String c s' =>
      match rstrip s' with
      | EmptyString => if is_space c then EmptyString else String c EmptyString
      | r => String c r
      end
  end.

(** [s.strip()] *)
Definition strip (s : string) : string := rstrip (lstrip s).

(** [not s] for a [str]. *)
Definition is_empty (s : string) : bool :=
  match s with EmptyString => true | _ => false end.

(** [sep.join(parts)] *)
Fixpoint join (sep : string) (parts : list string) : string :=
  match parts with
  | [] => ""
  | [p] => p
  | p :: rest => p ++ sep ++ join sep rest
  end.

Definition is_digit (c : ascii) : bool :=
  let n := nat_of_ascii c in ((48 <=? n) && (n <=? 57))%nat.

Definition digit_value (c : ascii) : Z := Z.of_nat (nat_of_ascii c) - 48.

(** The digits of a decimal literal; single underscores may separate
    digits. *)
Fixpoint digits (acc : Z) (after_digit : bool) (s : string) : option Z :=
  match s with
  | EmptyString => if after_digit then Some acc else None
  | String c s' =>
      if is_digit c then digits (10 * acc + digit_value c) true s'
      else if Ascii.eqb c "_"%char && after_digit then digits acc false s'
      else None
  end.

(** [int(s)] for a [str]: surrounding whitespace, an optional sign, a
    decimal literal.  [None] stands for [ValueError]. *)
Definition to_int (s : string) : option Z :=
  match strip s with
  | String "-"%char d => option_map Z.opp (digits 0 false d)
  | String "+"%char d => digits 0 false d
  | d => digits 0 false d
  end.

End PyStr.

(** ** Decoded JSON and the Python operations the collector applies to it *)

Inductive json : Type :=
| JNull
| JBool (b : bool)
| JInt (n : Z)
| JStr (s : string)
| JArr (items : list json)
| JObj (fields : list (string * json)).

Inductive exn : Type :=
| ValueError
| TypeError
| AttributeError
| RequestException.

Definition exn_eqb (a b : exn) : bool :=
  match a, b with
  | ValueError, ValueError
  | TypeError, TypeError
  | AttributeError, AttributeError
  | RequestException, RequestException => true
  | _, _ => false
  end.

Inductive result (A : Type) : Type :=
| Normal (v : A)
| Raised (e : exn).
Arguments Normal {A} v.
Arguments Raised {A} e.

Module Py.

(** Truth value of a decoded JSON value. *)
Definition truthy (v : json) : bool :=
  match v with
  | JNull => false
  | JBool b => b
  | JInt n => negb (n =? 0)
  | JStr s => negb (PyStr.is_empty s)
  | JArr l => match l with [] => false | _ => true end
  | JObj f => match f with [] => false | _ => true end
  end.

(** First binding of [key] in a list of items. *)
Fixpoint lookup {A : Type} (key : string) (items : list (string * A)) : option A :=
  match items with
  | [] => None
  | (k, v) :: rest => if String.eqb k key then Some v else lookup key rest
  end.

(** [v.get(key, default)]: only a dict has the method. *)
Definition get (v : json) (key : string) (default : json) : result json :=
  match v with
  | JObj fields =>
      Normal (match lookup key fields with Some x => x | None => default end)
  | _ => Raised AttributeError
  end.

Fixpoint chars (s : string) : list json :=
  match s with
  | EmptyString => []
  | String c s' => JStr (String c EmptyString) :: chars s'
  end.

(** The items [for x in v] visits. *)
Definition iter (v : json) : result (list json) :=
  match v with
  | JArr l => Normal l
  | JObj fields => Normal (map (fun kv => JStr (fst kv)) fields)
  | JStr s => Normal (chars s)
  | JNull | JBool _ | JInt _ => Raised TypeError
  end.

(** [acc + v] for an [int] accumulator. *)
Definition add_int (acc : Z) (v : json) : result Z :=
  match v with
  | JInt n => Normal (acc + n)
  | JBool b => Normal (acc + (if b then 1 else 0))
  | JNull | JStr _ | JArr _ | JObj _ => Raised TypeError
  end.

(** [int(v)] *)
Definition int (v : json) : result Z :=
  match v with
  | JInt n => Normal n
  | JBool b => Normal (if b then 1 else 0)
  | JStr s =>
      match PyStr.to_int s with
      | Some n => Normal n
      | None => Raised ValueError
      end
  | JNull | JArr _ | JObj _ => Raised TypeError
  end.

(** [x or None] style truth value of an optional configuration string. *)
Definition configured (v : option string) : bool :=
  match v with
  | Some s => negb (PyStr.is_empty s)
  | None => false
  end.

End Py.

(** Sequencing of pure computations that may raise. *)
Definition rbind {A B} (r : result A) (k : A -> result B) : result B :=
  match r with
  | Normal v => k v
  | Raised e => Raised e
  end.

Notation "'let!' x ':=' r 'in' k" := (rbind r (fun x => k))
  (at level 10, x name, r at level 100, k at level 200).

(** ** Python dicts keyed by hashable values *)

(** Hashable keys: [True == 1] and [False == 0] are the same key as the
    integer. *)
Inductive key : Type :=
| KNone
| KInt (n : Z)
| KStr (s : string).

Definition key_eqb (a b : key) : bool :=
  match a, b with
  | KNone, KNone => true
  | KInt n, KInt m => n =? m
  | KStr s, KStr t => String.eqb s t
  | _, _ => false
  end.

(** [hash(v)]: lists and dicts are unhashable. *)
Definition hash_key (v : json) : result key :=
  match v with
  | JNull => Normal KNone
  | JBool b => Normal (KInt (if b then 1 else 0))
  | JInt n => Normal (KInt n)
  | JStr s => Normal (KStr s)
  | JArr _ | JObj _ => Raised TypeError
  end.

Definition dict (V : Type) : Type := list (key * V).

(** [d[k] = v]: replaces the value of an existing key, else appends. *)
Fixpoint dict_set {V} (k : key) (v : V) (d : dict V) : dict V :=
  match d with
  | [] => [(k, v)]
  | (k', v') :: rest =>
      if key_eqb k' k then (k', v) :: rest else (k', v') :: dict_set k v rest
  end.

(** [d.get(k, default)] *)
Fixpoint dict_get {V} (k : key) (default : V) (d : dict V) : V :=
  match d with
  | [] => default
  | (k', v') :: rest => if key_eqb k' k then v' else dict_get k default rest
  end.

(** ** The store: [models.py] *)

Module Employee.
Record t : Type := mk {
  id : Z;
  name : string;
  github_username : string;
  active : bool
}.
End Employee.

Module Metric.
(** The four counters are nullable [Integer] columns. *)
Record t : Type := mk {
  id : Z;
  employee_id : Z;
  timestamp : Z;
  commits : option Z;
  prs_opened : option Z;
  prs_merged : option Z;
  reviews : option Z
}.
End Metric.

(** ** Configuration: [config.py] *)

Record Config : Type := mkConfig {
  GITHUB_TOKEN : option string;
  REPO_OWNER : option string;
  REPO_NAME : option string
}.

(** ** HTTP *)

Record Request : Type := mkRequest {
  url : string;
  headers : list (string * string);
  params : option (list (string * string))
}.

(** [json_body = None]: the body is not a JSON document and
    [resp.json()] raises [ValueError]. *)
Record Response : Type := mkResponse {
  status_code : Z;
  json_body : option json
}.

(** What one GET receives: a response, or a network failure
    ([requests.RequestException]). *)
Inductive received : Type :=
| Got (r : Response)
| NetworkFailure.

Definition Server : Type := nat -> Request -> received.

(** ** The world and the monad of effects *)

Inductive level : Type := INFO | WARNING | ERROR.

Inductive event : Type :=
| EvGet (r : Request)
| EvSleep (seconds : Z)
| EvLog (lvl : level) (msg : string).

Record World : Type := mkWorld {
  employees : list Employee.t;
  metrics : list Metric.t;
  clock : Z;
  gets : nat;
  events : list event
}.

Definition M (A : Type) : Type := World -> result A * World.

Definition ret {A} (v : A) : M A := fun w => (Normal v, w).

Definition bind {A B} (m : M A) (k : A -> M B) : M B :=
  fun w =>
    match m w with
    | (Normal v, w') => k v w'
    | (Raised e, w') => (Raised e, w')
    end.

Notation "x <- m ;; k" := (bind m (fun x => k))
  (at level 61, m at next level, right associativity).
Notation "m ;; k" := (bind m (fun _ => k))
  (at level 61, right associativity).

(** [try: m  except e: handler] *)
Definition try_except {A} (m : M A) (e : exn) (handler : M A) : M A :=
  fun w =>
    match m w with
    | (Normal v, w') => (Normal v, w')
    | (Raised e', w') => if exn_eqb e' e then handler w' else (Raised e', w')
    end.

(** A pure computation that may raise. *)
Definition lift {A} (r : result A) : M A := fun w => (r, w).

Definition emit (e : event) : M unit :=
  fun w => (Normal tt,
            mkWorld (employees w) (metrics w) (clock w) (gets w) (events w ++ [e])).

Definition logger (lvl : level) (msg : string) : M unit := emit (EvLog lvl msg).

(** [time.sleep(seconds)] *)
Definition sleep (seconds : Z) : M unit :=
  fun w => (Normal tt,
            mkWorld (employees w) (metrics w) (clock w + seconds) (gets w)
                    (events w ++ [EvSleep seconds])).

(** [requests.get(url, headers=headers, params=params, timeout=30)]: the
    server answers the GET numbered [gets w]. *)
Definition requests_get (server : Server) (u : string)
    (h : list (string * string)) (p : option (list (string * string)))
    : M Response :=
  fun w =>
    let req := mkRequest u h p in
    let w' := mkWorld (employees w) (metrics w) (clock w) (S (gets w))
                      (events w ++ [EvGet req]) in
    match server (gets w) req with
    | Got r => (Normal r, w')
    | NetworkFailure => (Raised RequestException, w')
    end.

(** [bool(resp)] is [resp.ok]: false for a status in 400..599. *)
Definition response_ok (r : Response) : bool :=
  negb ((400 <=? status_code r) && (status_code r <? 600)).

(** [not resp] for the optional response [_request] returns. *)
Definition not_resp (r : option Response) : bool :=
  match r with
  | None => true
  | Some r => negb (response_ok r)
  end.

(** [resp.json()] *)
Definition resp_json (r : Response) : result json :=
  match json_body r with
  | Some j => Normal j
  | None => Raised ValueError
  end.

(** ** The collector: [github_api.py] *)

Definition API_BASE : string := "https://api.github.com".

Section GitHubApi.

Variable cfg : Config.
Variable server : Server.

Definition request_headers (token : string) : list (string * string) :=
  [("Accept", "application/vnd.github+json");
   ("Authorization", "token " ++ token);
   ("User-Agent", "TrailForge-Metrics-App")].

(** The polling loop of [_request]:
    [while resp.status_code == 202 and retries < 5].  The loop runs at
    most five times, so [budget = 5] never runs out
    (see [poll_budget_irrelevant]). *)
Fixpoint poll (budget : nat) (u : string) (h : list (string * string))
    (p : option (list (string * string))) (retries : Z) (resp : Response)
    : M Response :=
  match budget with
  | O => ret resp
  | S budget' =>
      if (status_code resp =? 202) && (retries <? 5) then
        sleep (2 ^ retries) ;;
        resp' <- requests_get server u h p ;;
        poll budget' u h p (retries + 1) resp'
      else ret resp
  end.

Definition _request (u : string) (p : option (list (string * string)))
    : M (option Response) :=
  match GITHUB_TOKEN cfg with
  | Some token =>
      if PyStr.is_empty token then
        logger WARNING "GITHUB_TOKEN is not set; cannot query GitHub API." ;;
        ret None
      else
        let h := request_headers token in
        try_except
          (resp <- requests_get server u h p ;;
           resp <- poll 5 u h p 0 resp ;;
           if 400 <=? status_code resp then
             logger WARNING "GitHub API request to %s failed with status %s: %s" ;;
             ret None
           else ret (Some resp))
          RequestException
          (logger ERROR "Error while requesting %s: %s" ;;
           ret None)
  | None =>
      logger WARNING "GITHUB_TOKEN is not set; cannot query GitHub API." ;;
      ret None
  end.

Definition fetch_contributor_stats (owner repo : string) : M json :=
  let u := API_BASE ++ "/repos/" ++ owner ++ "/" ++ repo ++ "/stats/contributors" in
  resp <- _request u None ;;
  if not_resp resp then ret (JArr [])
  else
    match resp with
    | Some r =>
        try_except (lift (resp_json r)) ValueError
          (logger ERROR "Failed to decode JSON from contributor stats response for %s/%s" ;;
           ret (JArr []))
    | None => ret (JArr [])
    end.

(** [sum(week.get('c', 0) for week in weeks)], from the accumulator
    [acc]. *)
Fixpoint sum_weeks (acc : Z) (weeks : list json) : result Z :=
  match weeks with
  | [] => Normal acc
  | week :: rest =>
      let! c := Py.get week "c" (JInt 0) in
      let! acc' := Py.add_int acc c in
      sum_weeks acc' rest
  end.

(** One turn of the loop of [_aggregate_contributor_totals]. *)
Definition aggregate_step (totals : dict (list (string * Z))) (contributor : json)
    : result (dict (list (string * Z))) :=
  let! a := Py.get contributor "author" JNull in
  let author := if Py.truthy a then a else JObj [] in
  let! login := Py.get author "login" JNull in
  if negb (Py.truthy login) then Normal totals
  else
    let! weeks := Py.get contributor "weeks" (JArr []) in
    let! items := Py.iter weeks in
    let! commits_sum := sum_weeks 0 items in
    let! k := hash_key login in
    Normal (dict_set k [("commits", commits_sum)] totals).

Fixpoint aggregate_loop (totals : dict (list (string * Z))) (contributors : list json)
    : result (dict (list (string * Z))) :=
  match contributors with
  | [] => Normal totals
  | contributor :: rest =>
      let! totals' := aggregate_step totals contributor in
      aggregate_loop totals' rest
  end.

Definition _aggregate_contributor_totals (stats : json)
    : result (dict (list (string * Z))) :=
  let! contributors := Py.iter stats in
  aggregate_loop [] contributors.

Definition _search_total_count (owner repo : string) (terms : list string) : M Z :=
  let query := PyStr.join " " (terms ++ ["repo:" ++ owner ++ "/" ++ repo]) in
  let u := API_BASE ++ "/search/issues" in
  resp <- _request u (Some [("q", query)]) ;;
  if not_resp resp then ret 0
  else
    match resp with
    | Some r =>
        try_except
          (lift (let! body := resp_json r in
                 let! total := Py.get body "total_count" (JInt 0) in
                 Py.int total))
          ValueError
          (logger ERROR "Failed to decode JSON from search for %s/%s: %s" ;;
           ret 0)
    | None => ret 0
    end.

Definition fetch_prs_opened (owner repo username : string) : M Z :=
  _search_total_count owner repo ["is:pr"; "author:" ++ username].

Definition fetch_prs_merged (owner repo username : string) : M Z :=
  _search_total_count owner repo ["is:pr"; "author:" ++ username; "is:merged"].

Definition fetch_reviews (owner repo username : string) : M Z :=
  _search_total_count owner repo ["is:pr"; "reviewed-by:" ++ username].

(** The primary key SQLite gives a new row: one more than the largest
    in the table. *)
Definition next_id (ids : list Z) : Z := 1 + fold_right Z.max 0 ids.

(** [db.session.add(Metric(...)); db.session.commit()]: the timestamp
    column defaults to the time of the insert. *)
Definition db_add_metric (employee_id : Z) (commits prs_opened prs_merged reviews : option Z)
    : M Metric.t :=
  fun w =>
    let m := Metric.mk (next_id (map Metric.id (metrics w))) employee_id (clock w)
                       commits prs_opened prs_merged reviews in
    (Normal m,
     mkWorld (employees w) (metrics w ++ [m]) (clock w) (gets w) (events w)).

(** The value of a configuration entry once it is known to be set. *)
Definition setting (v : option string) : string :=
  match v with Some s => s | None => "None" end.

Definition config_complete : bool :=
  Py.configured (REPO_OWNER cfg) && Py.configured (REPO_NAME cfg)
  && Py.configured (GITHUB_TOKEN cfg).

Definition update_metrics_for_employee (employee : Employee.t) : M (option Metric.t) :=
  let owner := setting (REPO_OWNER cfg) in
  let repo := setting (REPO_NAME cfg) in
  if negb config_complete then
    logger WARNING
      "Cannot update metrics because one of REPO_OWNER, REPO_NAME or GITHUB_TOKEN is unset." ;;
    ret None
  else
    stats <- fetch_contributor_stats owner repo ;;
    totals_map <- lift (_aggregate_contributor_totals stats) ;;
    let totals :=
      dict_get (KStr (Employee.github_username employee)) [("commits", 0)] totals_map in
    prs_opened <- fetch_prs_opened owner repo (Employee.github_username employee) ;;
    prs_merged <- fetch_prs_merged owner repo (Employee.github_username employee) ;;
    reviews <- fetch_reviews owner repo (Employee.github_username employee) ;;
    metric <- db_add_metric (Employee.id employee)
                (Some (match Py.lookup "commits" totals with Some c => c | None => 0 end))
                (Some prs_opened) (Some prs_merged) (Some reviews) ;;
    logger INFO
      "Recorded metrics for %s: commits=%s, prs_opened=%s, prs_merged=%s, reviews=%s" ;;
    ret (Some metric).

(** [Employee.query.filter_by(active=True).all()] *)
Definition query_active_employees : M (list Employee.t) :=
  fun w => (Normal (filter Employee.active (employees w)), w).

(** The loop of [update_metrics_for_all_employees]. *)
Fixpoint update_loop (emps : list Employee.t) (new_records : list Metric.t)
    : M (list Metric.t) :=
  match emps with
  | [] => ret new_records
  | emp :: rest =>
      record <- update_metrics_for_employee emp ;;
      match record with
      | Some r => update_loop rest (new_records ++ [r])
      | None => update_loop rest new_records
      end
  end.

Definition update_metrics_for_all_employees : M (list Metric.t) :=
  emps <- query_active_employees ;;
  update_loop emps [].

End GitHubApi.

(** ** The employee views: [routes.py] *)

Inductive http_method : Type := GET | POST.

Record FormRequest : Type := mkFormRequest {
  method : http_method;
  form : list (string * string)
}.

Inductive page : Type :=
| Template (template : string) (employee : option Employee.t)
| Redirect (endpoint : string)
| NotFound
| MethodNotAllowed.

(** A view's response with the messages it flashed, as
    (category, message). *)
Record View : Type := mkView {
  body : page;
  flashed : list (string * string)
}.

(** [request.form.get(field, '')] *)
Definition form_get (field : string) (f : list (string * string)) : string :=
  match Py.lookup field f with Some v => v | None => "" end.

(** [Employee.query.filter_by(github_username=username).first()] *)
Definition query_by_username (username : string) (w : World) : option Employee.t :=
  find (fun e => String.eqb (Employee.github_username e) username) (employees w).

(** [Employee.query.get_or_404(employee_id)]; [None] is the 404. *)
Definition get_or_404 (employee_id : Z) (w : World) : option Employee.t :=
  find (fun e => Employee.id e =? employee_id) (employees w).

Definition is_some {A} (o : option A) : bool :=
  match o with Some _ => true | None => false end.

(** [db.session.add(Employee(...)); db.session.commit()] *)
Definition db_add_employee (name username : string) (active : bool) (w : World) : World :=
  let e := Employee.mk (next_id (map Employee.id (employees w))) name username active in
  mkWorld (employees w ++ [e]) (metrics w) (clock w) (gets w) (events w).

(** What the UPDATE of the row with primary key [employee_id] does to
    a row of the table. *)
Definition updated_row (employee_id : Z) (name username : string) (active : bool)
    (e : Employee.t) : Employee.t :=
  if Employee.id e =? employee_id
  then Employee.mk (Employee.id e) name username active
  else e.

(** The three assignments of [edit_employee] and the commit: an UPDATE
    of the row with this primary key. *)
Definition db_update_employee (employee_id : Z) (name username : string) (active : bool)
    (w : World) : World :=
  mkWorld (map (updated_row employee_id name username active) (employees w))
          (metrics w) (clock w) (gets w) (events w).

(** [db.session.delete(employee); db.session.commit()]: the
    [metrics] relationship cascades the delete to the employee's
    snapshots. *)
Definition db_delete_employee (employee_id : Z) (w : World) : World :=
  mkWorld
    (filter (fun e => negb (Employee.id e =? employee_id)) (employees w))
    (filter (fun m => negb (Metric.employee_id m =? employee_id)) (metrics w))
    (clock w) (gets w) (events w).

Definition add_employee (req : FormRequest) (w : World) : View * World :=
  match method req with
  | POST =>
      let name := PyStr.strip (form_get "name" (form req)) in
      let username := PyStr.strip (form_get "github_username" (form req)) in
      let active := negb (PyStr.is_empty (form_get "active" (form req))) in
      if PyStr.is_empty name || PyStr.is_empty username then
        (mkView (Template "employee_form.html" None)
                [("danger", "Name and GitHub username are required.")], w)
      else if is_some (query_by_username username w) then
        (mkView (Template "employee_form.html" None)
                [("danger", "GitHub username already exists.")], w)
      else
        (mkView (Redirect "main.index")
                [("success", "Employee registered successfully.")],
         db_add_employee name username active w)
  | GET => (mkView (Template "employee_form.html" None) [], w)
  end.

Definition edit_employee (employee_id : Z) (req : FormRequest) (w : World)
    : View * World :=
  match get_or_404 employee_id w with
  | None => (mkView NotFound [], w)
  | Some employee =>
      match method req with
      | POST =>
          let name := PyStr.strip (form_get "name" (form req)) in
          let username := PyStr.strip (form_get "github_username" (form req)) in
          let active := negb (PyStr.is_empty (form_get "active" (form req))) in
          if PyStr.is_empty name || PyStr.is_empty username then
            (mkView (Template "employee_form.html" (Some employee))
                    [("danger", "Name and GitHub username are required.")], w)
          else if negb (String.eqb username (Employee.github_username employee))
                  && is_some (query_by_username username w) then
            (mkView (Template "employee_form.html" (Some employee))
                    [("danger", "GitHub username already exists.")], w)
          else
            (mkView (Redirect "main.employee_detail")
                    [("success", "Employee updated successfully.")],
             db_update_employee (Employee.id employee) name username active w)
      | GET => (mkView (Template "employee_form.html" (Some employee)) [], w)
      end
  end.

(** The route accepts POST only. *)
Definition delete_employee (employee_id : Z) (req : FormRequest) (w : World)
    : View * World :=
  match method req with
  | GET => (mkView MethodNotAllowed [], w)
  | POST =>
      match get_or_404 employee_id w with
      | None => (mkView NotFound [], w)
      | Some employee =>
          (mkView (Redirect "main.index")
                  [("success", "Employee deleted successfully.")],
           db_delete_employee (Employee.id employee) w)
      end
  end.

(** ** Traces, store predicates and scenario data used by the properties *)

(** What [n] further turns of the polling loop do, from [retries]. *)
Fixpoint backoff (req : Request) (retries : Z) (n : nat) : list event :=
  match n with
  | O => []
  | S n' => EvSleep (2 ^ retries) :: EvGet req :: backoff req (retries + 1) n'
  end.

Fixpoint backoff_seconds (retries : Z) (n : nat) : Z :=
  match n with
  | O => 0
  | S n' => 2 ^ retries + backoff_seconds (retries + 1) n'
  end.

Definition cfg0 : Config := mkConfig (Some "t0k3n") (Some "acme") (Some "trail").

Definition no_token : Config := mkConfig None (Some "acme") (Some "trail").

Definition processing : Response := mkResponse 202 (Some (JObj [])).

Definition always_202 : Server := fun _ _ => Got processing.

Definition alice : Employee.t := Employee.mk 1 "Alice" "alice" true.
Definition bob : Employee.t := Employee.mk 2 "Bob" "bob" true.
Definition carol : Employee.t := Employee.mk 3 "Carol" "carol" false.
Definition dave : Employee.t := Employee.mk 4 "Dave" "dave" true.

Definition w0 : World := mkWorld [alice; bob; carol; dave] [] 0 0 [].

Definition stats_url : string :=
  "https://api.github.com/repos/acme/trail/stats/contributors".

(** The warning [update_metrics_for_employee] logs when it skips. *)
Definition config_warning : event :=
  EvLog WARNING
    "Cannot update metrics because one of REPO_OWNER, REPO_NAME or GITHUB_TOKEN is unset.".

(** [m] leaves both tables as they are, whatever it returns. *)
Definition frames {A} (m : M A) : Prop :=
  forall w, employees (snd (m w)) = employees w /\ metrics (snd (m w)) = metrics w.

(** [r] is a response some GET can receive from [server]. *)
Definition from_server (server : Server) (r : Response) : Prop :=
  exists n req, server n req = Got r.

(** The GET of a search with query [query]. *)
Definition search_request (cfg : Config) (query : string) : Request :=
  mkRequest (API_BASE ++ "/search/issues")
            (request_headers (setting (GITHUB_TOKEN cfg)))
            (Some [("q", query)]).

(** The world after one GET of [req] and nothing else. *)
Definition after_get (req : Request) (w : World) : World :=
  mkWorld (employees w) (metrics w) (clock w) (S (gets w)) (events w ++ [EvGet req]).

(** What a search-based fetch does, for the query it is to issue. *)
Definition search_spec (cfg : Config) (server : Server) (fetch : M Z) (query : string)
    : Prop :=
  forall w,
    (* whatever the wrapper went through for this query *)
    (forall ro w1,
       _request cfg server (API_BASE ++ "/search/issues") (Some [("q", query)]) w
         = (Normal ro, w1) ->
       match ro with
       | None => fetch w = (Normal 0, w1)
       | Some r =>
           (json_body r = None -> fst (fetch w) = Normal 0)
           /\ (forall fields n,
                 json_body r = Some (JObj fields) ->
                 Py.lookup "total_count" fields = Some (JInt n) ->
                 fetch w = (Normal n, w1))
           /\ (forall fields,
                 json_body r = Some (JObj fields) ->
                 Py.lookup "total_count" fields = None ->
                 fetch w = (Normal 0, w1))
       end)
    (* the query is answered at once with a total count *)
    /\ (forall r fields n,
       Py.configured (GITHUB_TOKEN cfg) = true ->
       server (gets w) (search_request cfg query) = Got r ->
       status_code r <> 202 -> status_code r < 400 ->
       json_body r = Some (JObj fields) ->
       Py.lookup "total_count" fields = Some (JInt n) ->
       fetch w = (Normal n, after_get (search_request cfg query) w))
    (* the GET fails on the network *)
    /\ (Py.configured (GITHUB_TOKEN cfg) = true ->
        server (gets w) (search_request cfg query) = NetworkFailure ->
        fst (fetch w) = Normal 0)
    (* the GET is answered with an error status or an undecodable body *)
    /\ (forall r,
         Py.configured (GITHUB_TOKEN cfg) = true ->
         server (gets w) (search_request cfg query) = Got r ->
         status_code r <> 202 ->
         400 <= status_code r \/ json_body r = None ->
         fst (fetch w) = Normal 0)
    (* no token: no GET at all *)
    /\ (Py.configured (GITHUB_TOKEN cfg) = false ->
        fst (fetch w) = Normal 0 /\ gets (snd (fetch w)) = gets w).

Definition ok (body : json) : Response := mkResponse 200 (Some body).

Definition sample_stats : json :=
  JArr [JObj [("author", JObj [("login", JStr "alice")]);
              ("weeks", JArr [JObj [("c", JInt 3)]; JObj [("c", JInt 5)]])]].

Definition total_count (n : Z) : json := JObj [("total_count", JInt n)].

Definition query_of (req : Request) : string :=
  match params req with
  | Some p => form_get "q" p
  | None => ""
  end.

(** A server for the scenarios: the sample contributor statistics, 12
    pull requests opened by alice, 7 of them merged, 3 reviews by her,
    and nothing for anybody else. *)
Definition github : Server :=
  fun _ req =>
    if String.eqb (url req) stats_url then Got (ok sample_stats)
    else if String.eqb (query_of req) "is:pr author:alice repo:acme/trail"
    then Got (ok (total_count 12))
    else if String.eqb (query_of req) "is:pr author:alice is:merged repo:acme/trail"
    then Got (ok (total_count 7))
    else if String.eqb (query_of req) "is:pr reviewed-by:alice repo:acme/trail"
    then Got (ok (total_count 3))
    else Got (ok (total_count 0)).

(** The commit total a snapshot stores for [username], given the
    contributor statistics: lines 200, 201 and 210 of
    [update_metrics_for_employee]. *)
Definition commit_total (stats : json) (username : string) : result Z :=
  let! totals_map := _aggregate_contributor_totals stats in
  let totals := dict_get (KStr username) [("commits", 0)] totals_map in
  Normal (match Py.lookup "commits" totals with Some c => c | None => 0 end).

Definition sum_counts (counts : list Z) : Z := fold_right Z.add 0 counts.

(** [week] is a weekly entry of the statistics payload whose commit
    count is [c]; other fields may be present. *)
Definition is_week (c : Z) (week : json) : Prop :=
  exists fields, week = JObj fields /\ Py.lookup "c" fields = Some (JInt c).

(** [j] is an entry of the statistics payload for the author [login]
    with the weekly commit counts [counts]. *)
Definition is_contributor (login : string) (counts : list Z) (j : json) : Prop :=
  exists fields author weeks,
    j = JObj fields
    /\ Py.lookup "author" fields = Some (JObj author)
    /\ Py.lookup "login" author = Some (JStr login)
    /\ Py.lookup "weeks" fields = Some (JArr weeks)
    /\ Forall2 is_week counts weeks.

(** [items] is the statistics payload with the entries [entries], each
    a login with its weekly commit counts. *)
Definition is_stats (entries : list (string * list Z)) (items : list json) : Prop :=
  Forall2 (fun e j => is_contributor (fst e) (snd e) j) entries items.

(** The dict [_aggregate_contributor_totals] builds from well-formed
    entries. *)
Definition totals_of (entries : list (string * list Z))
    (totals : dict (list (string * Z))) : dict (list (string * Z)) :=
  fold_left
    (fun t e => dict_set (KStr (fst e)) [("commits", sum_counts (snd e))] t)
    entries totals.









(** A server that answers bob's PRs-opened search with
    [{"total_count": null}]. *)
Definition github_null_count : Server :=
  fun n req =>
    if String.eqb (query_of req) "is:pr author:bob repo:acme/trail"
    then Got (ok (JObj [("total_count", JNull)]))
    else github n req.

(** A server that answers bob's PRs-opened search with the JSON array
    [[]]. *)
Definition github_array_body : Server :=
  fun n req =>
    if String.eqb (query_of req) "is:pr author:bob repo:acme/trail"
    then Got (ok (JArr []))
    else github n req.

(** [name] and [github_username] as a create or edit request submits
    them. *)
Definition submitted_name (req : FormRequest) : string :=
  PyStr.strip (form_get "name" (form req)).

Definition submitted_username (req : FormRequest) : string :=
  PyStr.strip (form_get "github_username" (form req)).

(** The constraints of the employee table: [id] is the primary key and
    [github_username] is unique. *)
Definition store_ok (w : World) : Prop :=
  NoDup (map Employee.id (employees w))
  /\ NoDup (map Employee.github_username (employees w)).

(** No stored employee has a blank name or a blank username. *)
Definition no_blank_employee (w : World) : Prop :=
  Forall (fun e => PyStr.strip (Employee.name e) <> ""
                   /\ PyStr.strip (Employee.github_username e) <> "")
         (employees w).

(** No Metric row without its employee. *)
Definition no_orphan_metric (w : World) : Prop :=
  forall m, In m (metrics w) ->
            exists e, In e (employees w) /\ Employee.id e = Metric.employee_id m.

Definition post (fields : list (string * string)) : FormRequest :=
  mkFormRequest POST fields.

(** A store with two snapshots of alice and one of bob. *)
Definition w1 : World :=
  mkWorld [alice; bob; carol; dave]
          [Metric.mk 1 1 10 (Some 8) (Some 12) (Some 7) (Some 3);
           Metric.mk 2 2 10 (Some 0) (Some 0) (Some 0) (Some 0);
           Metric.mk 3 1 20 (Some 9) (Some 12) (Some 8) (Some 3)]
          20 0 [].

From Stdlib Require Import DecimalString Sorted Permutation.

(** ** Further predicates on the collector *)

(** [r] is what some GET of [req] received from [server]. *)
Definition answered_by (server : Server) (req : Request) (r : Response) : Prop :=
  exists n, server n req = Got r.

(** [m] issues at most [g] GETs and sleeps at most [s] seconds in all;
    it never turns the GET counter or the clock back. *)
Definition within {A} (g : nat) (s : Z) (m : M A) : Prop :=
  forall w,
    (gets w <= gets (snd (m w)) <= gets w + g)%nat
    /\ clock w <= clock (snd (m w)) <= clock w + s.

(** The GET of the contributor statistics. *)
Definition stats_request (cfg : Config) (owner repo : string) : Request :=
  mkRequest (API_BASE ++ "/repos/" ++ owner ++ "/" ++ repo ++ "/stats/contributors")
            (request_headers (setting (GITHUB_TOKEN cfg)))
            None.



(** *** Statistics payloads in general *)

Definition count_or_zero (c : option Z) : Z :=
  match c with Some n => n | None => 0 end.

Definition sum_opt_counts (counts : list (option Z)) : Z :=
  fold_right (fun c acc => count_or_zero c + acc) 0 counts.

(** [week] is a weekly entry whose commit count is [c]; [None] when the
    entry has no [c]. *)
Definition is_week_opt (c : option Z) (week : json) : Prop :=
  exists fields, week = JObj fields /\ Py.lookup "c" fields = option_map JInt c.

(** [j] is an entry without a usable login: no author, a null or empty
    author, or an author whose login is missing, null or empty. *)
Definition is_anonymous (j : json) : Prop :=
  exists fields,
    j = JObj fields
    /\ match Py.lookup "author" fields with
       | None => True
       | Some a =>
           Py.truthy a = false
           \/ exists author,
                a = JObj author
                /\ match Py.lookup "login" author with
                   | None => True
                   | Some l => Py.truthy l = false
                   end
       end.

(** [j] is an entry for the author [login] with the weekly counts
    [counts]; an entry without [weeks] has no counts. *)
Definition is_named (login : string) (counts : list (option Z)) (j : json) : Prop :=
  login <> ""
  /\ exists fields author,
       j = JObj fields
       /\ Py.lookup "author" fields = Some (JObj author)
       /\ Py.lookup "login" author = Some (JStr login)
       /\ match Py.lookup "weeks" fields with
          | Some (JArr weeks) => Forall2 is_week_opt counts weeks
          | Some _ => False
          | None => counts = []
          end.

Definition is_entry (e : option string * list (option Z)) (j : json) : Prop :=
  match fst e with
  | Some login => is_named login (snd e) j
  | None => is_anonymous j
  end.

(** The total of the last entry for [username], if any. *)
Fixpoint last_total (username : string) (entries : list (option string * list (option Z)))
    : option Z :=
  match entries with
  | [] => None
  | e :: rest =>
      match last_total username rest with
      | Some c => Some c
      | None =>
          match fst e with
          | Some login =>
              if String.eqb login username then Some (sum_opt_counts (snd e)) else None
          | None => None
          end
      end
  end.

(** A payload with an anonymous contributor and two entries for
    alice. *)
Definition mixed_stats : list json :=
  [JObj [("author", JObj [("login", JStr "alice")]);
         ("weeks", JArr [JObj [("c", JInt 3)]])];
   JObj [("author", JNull); ("weeks", JArr [JObj [("c", JInt 100)]])];
   JObj [("author", JObj [("login", JStr "alice")]);
         ("weeks", JArr [JObj [("c", JInt 4)]; JObj [("w", JInt 1700000000)]])]].





(** ** Further predicates on the store *)

(** The constraints of both tables: primary keys, unique usernames and
    the foreign key of [metric.employee_id]. *)
Definition db_ok (w : World) : Prop :=
  store_ok w
  /\ NoDup (map Metric.id (metrics w))
  /\ no_orphan_metric w.

(** The [active] flag a form submits: the checkbox is sent only when
    ticked. *)
Definition submitted_active (req : FormRequest) : bool :=
  negb (PyStr.is_empty (form_get "active" (form req))).

(** The Metric rows of one employee, in table order. *)
Definition metrics_of (employee_id : Z) (w : World) : list Metric.t :=
  filter (fun m => Metric.employee_id m =? employee_id) (metrics w).

(** ** The dashboards: the reading half of [routes.py] *)

Module Counts.
(** The dict of four totals used for the summary and for one date of
    the time series. *)
Record t : Type := mk {
  commits : Z;
  prs_opened : Z;
  prs_merged : Z;
  reviews : Z
}.
End Counts.

Definition zero_counts : Counts.t := Counts.mk 0 0 0 0.

(** [acc += column] for an [int] total and a nullable column: adding
    [None] raises [TypeError]. *)
Definition add_column (acc : Z) (column : option Z) : result Z :=
  match column with
  | Some n => Normal (acc + n)
  | None => Raised TypeError
  end.

(** The four [+=] of a Metric row into a dict of totals, in the order
    of the source. *)
Definition add_row (totals : Counts.t) (m : Metric.t) : result Counts.t :=
  let! c := add_column (Counts.commits totals) (Metric.commits m) in
  let! po := add_column (Counts.prs_opened totals) (Metric.prs_opened m) in
  let! pm := add_column (Counts.prs_merged totals) (Metric.prs_merged m) in
  let! rv := add_column (Counts.reviews totals) (Metric.reviews m) in
  Normal (Counts.mk c po pm rv).

(** [.order_by(Metric.timestamp.desc()).first()]: a row with the
    greatest timestamp.  Among rows with equal timestamps SQL leaves
    the choice open; the model takes the first in table order. *)
Fixpoint newest (rows : list Metric.t) : option Metric.t :=
  match rows with
  | [] => None
  | m :: rest =>
      match newest rest with
      | Some m' => if Metric.timestamp m <? Metric.timestamp m' then Some m' else Some m
      | None => Some m
      end
  end.

Definition _latest_metric (employee : Employee.t) (w : World) : option Metric.t :=
  newest (metrics_of (Employee.id employee) w).

Fixpoint insert_by_timestamp (m : Metric.t) (sorted : list Metric.t) : list Metric.t :=
  match sorted with
  | [] => [m]
  | x :: rest =>
      if Metric.timestamp m <=? Metric.timestamp x then m :: sorted
      else x :: insert_by_timestamp m rest
  end.

(** [.order_by(Metric.timestamp.asc()).all()]; rows with equal
    timestamps stay in table order. *)
Definition order_by_timestamp (rows : list Metric.t) : list Metric.t :=
  fold_right insert_by_timestamp [] rows.

Fixpoint insert_string (s : string) (sorted : list string) : list string :=
  match sorted with
  | [] => [s]
  | x :: rest =>
      if String.leb s x then s :: sorted else x :: insert_string s rest
  end.

(** [sorted(keys)] for [str] keys. *)
Definition sorted_strings (keys : list string) : list string :=
  fold_right insert_string [] keys.

Fixpoint insert_by_name (e : Employee.t) (sorted : list Employee.t) : list Employee.t :=
  match sorted with
  | [] => [e]
  | x :: rest =>
      if String.leb (Employee.name e) (Employee.name x) then e :: sorted
      else x :: insert_by_name e rest
  end.

(** [Employee.query.order_by(Employee.name.asc()).all()]; employees
    with equal names stay in table order. *)
Definition order_by_name (rows : list Employee.t) : list Employee.t :=
  fold_right insert_by_name [] rows.

(** [d[key] = v] for a dict with [str] keys: replaces the value of an
    existing key, else appends. *)
Fixpoint store {V} (key : string) (v : V) (items : list (string * V))
    : list (string * V) :=
  match items with
  | [] => [(key, v)]
  | (k, x) :: rest =>
      if String.eqb k key then (k, v) :: rest else (k, x) :: store key v rest
  end.

(** The [chart_data] dict: the labels and one list per counter. *)
Record Chart (V : Type) : Type := mkChart {
  labels : list string;
  chart_commits : list V;
  chart_prs_opened : list V;
  chart_prs_merged : list V;
  chart_reviews : list V
}.
Arguments mkChart {V}.
Arguments labels {V}.
Arguments chart_commits {V}.
Arguments chart_prs_opened {V}.
Arguments chart_prs_merged {V}.
Arguments chart_reviews {V}.

Section Dashboard.

(** [to_local(dt).date().isoformat()]: the date of a timestamp in
    America/Mexico_City.  The time zone rules come from the system's
    tz database, so the conversion is a parameter. *)
Variable local_date : Z -> string.

(** The first loop of [_aggregate_group_metrics]. *)
Fixpoint summary_loop (emps : list Employee.t) (summary : Counts.t) (w : World)
    : result Counts.t :=
  match emps with
  | [] => Normal summary
  | emp :: rest =>
      match _latest_metric emp w with
      | None => summary_loop rest summary w
      | Some latest =>
          let! summary' := add_row summary latest in
          summary_loop rest summary' w
      end
  end.

(** One turn of the second loop of [_aggregate_group_metrics]. *)
Definition series_step (series : list (string * Counts.t)) (m : Metric.t)
    : result (list (string * Counts.t)) :=
  let date_str := local_date (Metric.timestamp m) in
  let series1 :=
    match Py.lookup date_str series with
    | Some _ => series
    | None => store date_str zero_counts series
    end in
  let! totals :=
    add_row (match Py.lookup date_str series1 with
             | Some c => c
             | None => zero_counts
             end) m in
  Normal (store date_str totals series1).

Fixpoint series_loop (rows : list Metric.t) (series : list (string * Counts.t))
    : result (list (string * Counts.t)) :=
  match rows with
  | [] => Normal series
  | m :: rest =>
      let! series' := series_step series m in
      series_loop rest series'
  end.

(** [series[d]] for a date that is a key of [series]. *)
Definition series_at (series : list (string * Counts.t)) (d : string) : Counts.t :=
  match Py.lookup d series with
  | Some c => c
  | None => zero_counts
  end.

Definition _aggregate_group_metrics (w : World) : result (Counts.t * Chart Z) :=
  let! summary := summary_loop (employees w) zero_counts w in
  let! series := series_loop (order_by_timestamp (metrics w)) [] in
  let sorted_dates := sorted_strings (map fst series) in
  Normal
    (summary,
     mkChart sorted_dates
       (map (fun d => Counts.commits (series_at series d)) sorted_dates)
       (map (fun d => Counts.prs_opened (series_at series d)) sorted_dates)
       (map (fun d => Counts.prs_merged (series_at series d)) sorted_dates)
       (map (fun d => Counts.reviews (series_at series d)) sorted_dates)).

(** What [index] hands to its template. *)
Record IndexPage : Type := mkIndexPage {
  index_employees : list Employee.t;
  index_summary : Counts.t;
  index_chart : Chart Z
}.

Definition index (w : World) : result IndexPage :=
  let emps := order_by_name (employees w) in
  let! sc := _aggregate_group_metrics w in
  Normal (mkIndexPage emps (fst sc) (snd sc)).



End Dashboard.

(** [str(n)] for a count. *)
Definition str_of_nat (n : nat) : string :=
  NilZero.string_of_uint (Nat.to_uint n).

(** The [update] view: a GET shows the confirmation page, a POST runs
    the batch and flashes how many records it returned. *)
Definition update (cfg : Config) (server : Server) (req : FormRequest) : M View :=
  match method req with
  | POST =>
      records <- update_metrics_for_all_employees cfg server ;;
      let count := List.length records in
      ret (mkView (Redirect "main.index")
             [("success",
               "Metrics updated for " ++ str_of_nat count ++ " active employee(s).")])
  | GET => ret (mkView (Template "update_confirm.html" None) [])
  end.

(** [update_metrics.main], from the batch on: the line it prints. *)
Definition main (cfg : Config) (server : Server) : M string :=
  records <- update_metrics_for_all_employees cfg server ;;
  ret ("Updated metrics for " ++ str_of_nat (List.length records) ++ " employee(s).").

(** The totals of a row whose counters are all set; a null counter
    counts 0 here. *)
Definition counts_of (m : Metric.t) : Counts.t :=
  Counts.mk (count_or_zero (Metric.commits m)) (count_or_zero (Metric.prs_opened m))
            (count_or_zero (Metric.prs_merged m)) (count_or_zero (Metric.reviews m)).

Definition add_counts (a b : Counts.t) : Counts.t :=
  Counts.mk (Counts.commits a + Counts.commits b)
            (Counts.prs_opened a + Counts.prs_opened b)
            (Counts.prs_merged a + Counts.prs_merged b)
            (Counts.reviews a + Counts.reviews b).

(** The componentwise total of rows. *)
Definition total_of (rows : list Metric.t) : Counts.t :=
  fold_right (fun m acc => add_counts (counts_of m) acc) zero_counts rows.

(** No counter of the row is null. *)
Definition counted (m : Metric.t) : Prop :=
  Metric.commits m <> None /\ Metric.prs_opened m <> None
  /\ Metric.prs_merged m <> None /\ Metric.reviews m <> None.

Definition all_counted (w : World) : Prop := Forall counted (metrics w).

(** The latest rows of the employees that have one, in table order of
    the employees. *)
Definition latest_rows (w : World) : list Metric.t :=
  flat_map (fun e => match _latest_metric e w with Some m => [m] | None => [] end)
           (employees w).

(** The rows of [rows] dated [d]. *)
Definition rows_on (local_date : Z -> string) (d : string) (rows : list Metric.t)
    : list Metric.t :=
  filter (fun m => String.eqb (local_date (Metric.timestamp m)) d) rows.

(** A stand-in for the local date in the examples: the day number of a
    timestamp in seconds. *)
Definition day_number (timestamp : Z) : string :=
  str_of_nat (Z.to_nat (timestamp / 86400)).

(** The componentwise total of [f d] over the dates [dates]. *)
Definition total_over (f : string -> Counts.t) (dates : list string) : Counts.t :=
  fold_right (fun d acc => add_counts (f d) acc) zero_counts dates.

(** A store whose snapshots fall on two days. *)
Definition w2 : World :=
  mkWorld [alice; bob; carol; dave]
          [Metric.mk 1 1 86400 (Some 8) (Some 12) (Some 7) (Some 3);
           Metric.mk 2 2 86400 (Some 1) (Some 0) (Some 0) (Some 2);
           Metric.mk 3 1 172800 (Some 9) (Some 12) (Some 8) (Some 3)]
          172800 0 [].

(** The same store with a row whose [reviews] is null. *)
Definition w2_null : World :=
  mkWorld [alice; bob; carol; dave]
          [Metric.mk 1 1 86400 (Some 8) (Some 12) (Some 7) (Some 3);
           Metric.mk 2 2 86400 (Some 1) (Some 0) (Some 0) None]
          172800 0 [].

(** ** The requests the collector sends *)

(** [m] only appends to the event log, and every event it appends
    satisfies [P]. *)
Definition emits {A} (P : event -> Prop) (m : M A) : Prop :=
  forall w, exists new, events (snd (m w)) = (events w ++ new)%list /\ Forall P new.

(** An event of [_request]: a GET is the GET of [req] and is sent only
    with a configured token. *)
Definition request_event (cfg : Config) (req : Request) (ev : event) : Prop :=
  match ev with
  | EvGet r => Py.configured (GITHUB_TOKEN cfg) = true /\ r = req
  | EvSleep s => 1 <= s <= 16
  | EvLog _ _ => True
  end.

(** An event of the collector for the configured repository: a GET is
    the GET of the contributor statistics or of a search, with the
    token in its headers. *)
Definition collector_event (cfg : Config) (ev : event) : Prop :=
  match ev with
  | EvGet r =>
      Py.configured (GITHUB_TOKEN cfg) = true
      /\ (r = stats_request cfg (setting (REPO_OWNER cfg)) (setting (REPO_NAME cfg))
          \/ exists query, r = search_request cfg query)
  | EvSleep s => 1 <= s <= 16
  | EvLog _ _ => True
  end.

(** Names and usernames are stored stripped. *)
Definition stored_stripped (w : World) : Prop :=
  Forall (fun e => PyStr.strip (Employee.name e) = Employee.name e
                   /\ PyStr.strip (Employee.github_username e)
                      = Employee.github_username e)
         (employees w).

(** * Properties *)

(** ** The HTTP client wrapper *)

Lemma poll_budget_irrelevant server u h p :
  forall b1 b2 retries resp w,
    5 - retries <= Z.of_nat b1 -> 5 - retries <= Z.of_nat b2 ->
    poll server b1 u h p retries resp w = poll server b2 u h p retries resp w.
Proof.
  induction b1 as [|b1 IH]; intros b2 retries resp w H1 H2.
  - destruct b2 as [|b2]; simpl; [reflexivity|].
    replace (retries <? 5) with false by (symmetry; apply Z.ltb_ge; lia).
    rewrite andb_false_r. reflexivity.
  - destruct b2 as [|b2]; simpl.
    + replace (retries <? 5) with false by (symmetry; apply Z.ltb_ge; lia).
      rewrite andb_false_r. reflexivity.
    + destruct ((status_code resp =? 202) && (retries <? 5)); [|reflexivity].
      unfold bind, sleep, requests_get; simpl.
      destruct (server _ _); [|reflexivity].
      apply IH; lia.
Qed.





(** ** Effects on the store *)

Lemma frames_ret {A} (v : A) : frames (ret v).
Proof. intros w. split; reflexivity. Qed.

Lemma frames_lift {A} (r : result A) : frames (lift r).
Proof. intros w. split; reflexivity. Qed.

Lemma frames_logger lvl msg : frames (logger lvl msg).
Proof. intros w. split; reflexivity. Qed.

Lemma frames_sleep s : frames (sleep s).
Proof. intros w. split; reflexivity. Qed.

Lemma frames_requests_get server u h p : frames (requests_get server u h p).
Proof.
  intros w. unfold requests_get. destruct (server _ _); split; reflexivity.
Qed.

Lemma frames_bind {A B} (m : M A) (k : A -> M B) :
  frames m -> (forall v, frames (k v)) -> frames (bind m k).
Proof.
  intros Hm Hk w. unfold bind. specialize (Hm w).
  destruct (m w) as [[v|e] w1]; simpl in *.
  - destruct (Hk v w1) as [H1 H2]. destruct Hm as [H3 H4].
    split; congruence.
  - exact Hm.
Qed.

Lemma frames_try_except {A} (m : M A) e (h : M A) :
  frames m -> frames h -> frames (try_except m e h).
Proof.
  intros Hm Hh w. unfold try_except. specialize (Hm w).
  destruct (m w) as [[v|e'] w1]; simpl in *.
  - exact Hm.
  - destruct (exn_eqb e' e); simpl; [|exact Hm].
    destruct (Hh w1) as [H1 H2]. destruct Hm as [H3 H4]. split; congruence.
Qed.

Lemma frames_if {A} (b : bool) (m1 m2 : M A) :
  frames m1 -> frames m2 -> frames (if b then m1 else m2).
Proof. destruct b; auto. Qed.

Create HintDb frames.
#[local] Hint Resolve frames_ret frames_lift frames_logger frames_sleep
  frames_requests_get frames_bind frames_try_except frames_if : frames.

Lemma frames_poll server u h p :
  forall budget retries resp, frames (poll server budget u h p retries resp).
Proof.
  induction budget as [|b IH]; intros retries resp; simpl.
  - auto with frames.
  - apply frames_if; [|auto with frames].
    apply frames_bind; [auto with frames|]. intros _.
    apply frames_bind; [auto with frames|]. intros resp'. apply IH.
Qed.
#[local] Hint Resolve frames_poll : frames.

Lemma frames_request cfg server u p : frames (_request cfg server u p).
Proof.
  unfold _request. destruct (GITHUB_TOKEN cfg) as [token|].
  - apply frames_if; [auto with frames|].
    apply frames_try_except; [|auto with frames].
    apply frames_bind; [auto with frames|]. intros r0.
    apply frames_bind; [auto with frames|]. intros r1.
    auto with frames.
  - auto with frames.
Qed.
#[local] Hint Resolve frames_request : frames.

Lemma frames_fetch_contributor_stats cfg server owner repo :
  frames (fetch_contributor_stats cfg server owner repo).
Proof.
  unfold fetch_contributor_stats.
  apply frames_bind; [auto with frames|]. intros resp.
  apply frames_if; [auto with frames|].
  destruct resp; auto with frames.
Qed.

Lemma frames_search_total_count cfg server owner repo terms :
  frames (_search_total_count cfg server owner repo terms).
Proof.
  unfold _search_total_count.
  apply frames_bind; [auto with frames|]. intros resp.
  apply frames_if; [auto with frames|].
  destruct resp; auto with frames.
Qed.
#[local] Hint Resolve frames_fetch_contributor_stats frames_search_total_count : frames.

(** Run the next computation of a chain of [bind]s under the frame
    lemma [L], naming its result and the world it leaves. *)
Ltac run_framed L :=
  match goal with
  | |- context [bind ?m ?k ?w] =>
      let F := fresh "F" in
      assert (F : employees (snd (m w)) = employees w
                  /\ metrics (snd (m w)) = metrics w) by exact (L w);
      unfold bind at 1;
      destruct (m w) as [[?v|?e] ?w]; cbn [fst snd] in F; cbn iota beta
  end.

(** The single-employee update never touches the employee table, and
    the only way it changes the metric table is by appending the row it
    returns. *)
Lemma update_metrics_for_employee_store cfg server emp w res w' :
  update_metrics_for_employee cfg server emp w = (res, w') ->
  employees w' = employees w /\
  match res with
  | Normal (Some m) =>
      metrics w' = (metrics w ++ [m])%list
      /\ Metric.employee_id m = Employee.id emp
      /\ config_complete cfg = true
  | Normal None => metrics w' = metrics w /\ config_complete cfg = false
  | Raised _ => metrics w' = metrics w
  end.
Proof.
  unfold update_metrics_for_employee.
  destruct (config_complete cfg) eqn:Hc; cbn [negb].
  2:{ intros H; inversion H; subst. repeat split; reflexivity. }
  run_framed (frames_fetch_contributor_stats cfg server
                (setting (REPO_OWNER cfg)) (setting (REPO_NAME cfg))).
  2:{ intros H; inversion H; subst. exact F. }
  unfold bind at 1. unfold lift at 1.
  destruct (_aggregate_contributor_totals v) as [tm|e]; cbn iota beta.
  2:{ intros H; inversion H; subst. exact F. }
  run_framed (frames_search_total_count cfg server
                (setting (REPO_OWNER cfg)) (setting (REPO_NAME cfg))
                ["is:pr"; "author:" ++ Employee.github_username emp]).
  2:{ intros H; inversion H; subst. destruct F, F0. split; congruence. }
  run_framed (frames_search_total_count cfg server
                (setting (REPO_OWNER cfg)) (setting (REPO_NAME cfg))
                ["is:pr"; "author:" ++ Employee.github_username emp; "is:merged"]).
  2:{ intros H; inversion H; subst. destruct F, F0, F1. split; congruence. }
  run_framed (frames_search_total_count cfg server
                (setting (REPO_OWNER cfg)) (setting (REPO_NAME cfg))
                ["is:pr"; "reviewed-by:" ++ Employee.github_username emp]).
  2:{ intros H; inversion H; subst. destruct F, F0, F1, F2. split; congruence. }
  destruct F as [Fa Fb], F0 as [Fc Fd], F1 as [Fe Ff], F2 as [Fg Fh].
  unfold bind, db_add_metric, logger, emit, ret. simpl.
  intros Heq; inversion Heq; subst; simpl.
  repeat split; congruence.
Qed.

(** ** The snapshot writer: configuration and the batch *)

Lemma config_incomplete cfg :
  Py.configured (REPO_OWNER cfg) = false \/
  Py.configured (REPO_NAME cfg) = false \/
  Py.configured (GITHUB_TOKEN cfg) = false ->
  config_complete cfg = false.
Proof.
  unfold config_complete. intros [H|[H|H]]; rewrite H.
  - reflexivity.
  - rewrite andb_false_r. reflexivity.
  - rewrite andb_false_r. reflexivity.
Qed.

Lemma update_skipped cfg server emp w :
  config_complete cfg = false ->
  update_metrics_for_employee cfg server emp w =
    (Normal None,
     mkWorld (employees w) (metrics w) (clock w) (gets w)
             (events w ++ [config_warning])).
Proof.
  intros Hc. unfold update_metrics_for_employee. rewrite Hc. reflexivity.
Qed.

Lemma update_loop_skipped cfg server :
  config_complete cfg = false ->
  forall emps new_records w,
    update_loop cfg server emps new_records w =
      (Normal new_records,
       mkWorld (employees w) (metrics w) (clock w) (gets w)
               (events w ++ repeat config_warning (List.length emps))).
Proof.
  intros Hc. induction emps as [|emp rest IH]; intros new_records w.
  - simpl. unfold ret. rewrite app_nil_r. destruct w; reflexivity.
  - simpl update_loop. unfold bind. rewrite (update_skipped _ _ _ _ Hc).
    rewrite IH. cbn [employees metrics clock gets events].
    rewrite <- app_assoc. reflexivity.
Qed.

(** C4: when the repository owner, the repository name or the access
    token is unconfigured (unset or empty), the single-employee update
    is skipped: it returns [None], issues no GET, writes no row and only
    logs the configuration warning; and the batch returns the empty
    list, creates no row and logs that warning once per active
    employee. *)
Theorem unconfigured_update_is_skipped cfg server w :
  Py.configured (REPO_OWNER cfg) = false \/
  Py.configured (REPO_NAME cfg) = false \/
  Py.configured (GITHUB_TOKEN cfg) = false ->
  (forall emp,
     update_metrics_for_employee cfg server emp w =
       (Normal None,
        mkWorld (employees w) (metrics w) (clock w) (gets w)
                (events w ++ [config_warning])))
  /\ update_metrics_for_all_employees cfg server w =
       (Normal [],
        mkWorld (employees w) (metrics w) (clock w) (gets w)
                (events w ++
                 repeat config_warning
                        (List.length (filter Employee.active (employees w))))).
Proof.
  intros H. apply config_incomplete in H. split.
  - intros emp. apply update_skipped. exact H.
  - unfold update_metrics_for_all_employees, bind, query_active_employees.
    apply update_loop_skipped. exact H.
Qed.

Lemma unconfigured_update_is_skipped_witness :
  fst (update_metrics_for_employee no_token always_202 alice w0) = Normal None
  /\ fst (update_metrics_for_all_employees no_token always_202 w0) = Normal []
  /\ metrics (snd (update_metrics_for_all_employees no_token always_202 w0)) = [].
Proof.
  destruct (unconfigured_update_is_skipped no_token always_202 w0) as [H1 H2].
  - right. right. reflexivity.
  - rewrite (H1 alice), H2. repeat split; reflexivity.
Defined.

Lemma update_loop_store cfg server :
  forall emps new_records w res w',
    update_loop cfg server emps new_records w = (res, w') ->
    employees w' = employees w /\
    exists created,
      metrics w' = (metrics w ++ created)%list
      /\ Forall (fun m => In (Metric.employee_id m) (map Employee.id emps)) created
      /\ forall records,
           res = Normal records ->
           records = (new_records ++ created)%list
           /\ (config_complete cfg = true ->
               map Metric.employee_id created = map Employee.id emps).
Proof.
  induction emps as [|emp rest IH]; intros new_records w res w' H.
  - simpl in H. unfold ret in H. inversion H; subst.
    split; [reflexivity|]. exists []. rewrite !app_nil_r.
    repeat split; try constructor.
    + congruence.
  - simpl update_loop in H. unfold bind in H.
    destruct (update_metrics_for_employee cfg server emp w) as [[[m|]|e] w1] eqn:E;
      apply update_metrics_for_employee_store in E; destruct E as [E1 E2].
    + destruct E2 as (E2 & E3 & E4).
      apply IH in H. destruct H as (H1 & created & H2 & H3 & H4).
      split; [congruence|]. exists (m :: created).
      split; [rewrite H2, E2, <- app_assoc; reflexivity|].
      split.
      * constructor; [left; symmetry; exact E3|].
        eapply Forall_impl; [|exact H3]. intros a Ha. right. exact Ha.
      * intros records Hr. destruct (H4 records Hr) as [H5 H6].
        split; [rewrite H5, <- app_assoc; reflexivity|].
        intros Hc. simpl. rewrite E3, (H6 Hc). reflexivity.
    + destruct E2 as [E2 E3].
      apply IH in H. destruct H as (H1 & created & H2 & H3 & H4).
      split; [congruence|]. exists created.
      split; [congruence|].
      split.
      * eapply Forall_impl; [|exact H3]. intros a Ha. right. exact Ha.
      * intros records Hr. destruct (H4 records Hr) as [H5 H6].
        split; [exact H5|].
        intros Hc. congruence.
    + inversion H; subst. split; [exact E1|]. exists [].
      rewrite app_nil_r. split; [assumption|]. split; [constructor|].
      intros records Hr. discriminate.
Qed.

Lemma NoDup_map_injective {A B} (f : A -> B) (l : list A) :
  NoDup (map f l) ->
  forall x y, In x l -> In y l -> f x = f y -> x = y.
Proof.
  induction l as [|a l IH]; simpl; intros Hnd x y Hx Hy Hf; [contradiction|].
  inversion Hnd as [|? ? Hna Hnd']; subst.
  destruct Hx as [Hx|Hx], Hy as [Hy|Hy]; subst.
  - reflexivity.
  - exfalso. apply Hna. rewrite Hf. apply in_map. exact Hy.
  - exfalso. apply Hna. rewrite <- Hf. apply in_map. exact Hx.
  - apply IH; assumption.
Qed.

(** C7: a batch update leaves the employee table alone and only appends
    Metric rows; every appended row belongs to an employee whose active
    flag is true, so none belongs to an inactive employee; when the
    batch returns, it returns exactly the appended rows, and with a
    complete configuration these are one row per active employee, in
    the order of the query. *)
Theorem batch_updates_active_employees_only cfg server w res w' :
  NoDup (map Employee.id (employees w)) ->
  update_metrics_for_all_employees cfg server w = (res, w') ->
  employees w' = employees w /\
  exists created,
    metrics w' = (metrics w ++ created)%list
    /\ Forall (fun m => exists e, In e (employees w) /\ Employee.active e = true
                                  /\ Metric.employee_id m = Employee.id e) created
    /\ (forall e, In e (employees w) -> Employee.active e = false ->
                  Forall (fun m => Metric.employee_id m <> Employee.id e) created)
    /\ (forall records,
          res = Normal records ->
          records = created
          /\ (config_complete cfg = true ->
              map Metric.employee_id records =
              map Employee.id (filter Employee.active (employees w)))).
Proof.
  intros Hpk H.
  unfold update_metrics_for_all_employees, bind, query_active_employees in H.
  apply update_loop_store in H. destruct H as (H1 & created & H2 & H3 & H4).
  split; [exact H1|]. exists created. split; [exact H2|].
  assert (Hact : Forall (fun m => exists e, In e (employees w)
                                   /\ Employee.active e = true
                                   /\ Metric.employee_id m = Employee.id e) created).
  { eapply Forall_impl; [|exact H3]. intros m Hm.
    apply in_map_iff in Hm. destruct Hm as (e & He1 & He2).
    apply filter_In in He2. destruct He2 as [He2 He3].
    exists e. repeat split; [assumption|assumption|]. symmetry. exact He1. }
  split; [exact Hact|]. split.
  - intros e He Hina. eapply Forall_impl; [|exact Hact].
    intros m (e' & He' & Ha' & Hid) Heq.
    assert (e' = e).
    { apply (NoDup_map_injective Employee.id (employees w)); try assumption.
      congruence. }
    subst e'. congruence.
  - intros records Hr. destruct (H4 records Hr) as [H5 H6].
    simpl in H5. subst records. split; [reflexivity|]. exact H6.
Qed.

(** ** What the wrapper returns *)

Lemma poll_result server u h p :
  forall budget retries resp w res w',
    poll server budget u h p retries resp w = (res, w') ->
    match res with
    | Normal r => r = resp \/ from_server server r
    | Raised e => e = RequestException
    end.
Proof.
  induction budget as [|b IH]; intros retries resp w res w' H; simpl in H.
  - inversion H; subst. left. reflexivity.
  - destruct ((status_code resp =? 202) && (retries <? 5)).
    + unfold bind at 1 in H. unfold sleep at 1 in H.
      unfold bind at 1 in H. unfold requests_get at 1 in H.
      cbn [gets events clock employees metrics] in H.
      destruct (server (gets w) (mkRequest u h p)) as [r1|] eqn:E.
      * apply IH in H. destruct res as [r|e]; [|exact H].
        right. destruct H as [H|H]; [|exact H].
        subst r. exists (gets w), (mkRequest u h p). exact E.
      * inversion H; subst. reflexivity.
    + inversion H; subst. left. reflexivity.
Qed.

(** [_request] never raises; a response it returns was received from
    the server and has a status below 400. *)
Lemma request_result cfg server u p w :
  exists ro w',
    _request cfg server u p w = (Normal ro, w')
    /\ match ro with
       | Some r => from_server server r /\ status_code r < 400
       | None => True
       end.
Proof.
  unfold _request. destruct (GITHUB_TOKEN cfg) as [token|].
  2:{ eexists None, _. split; [reflexivity|exact I]. }
  destruct (PyStr.is_empty token).
  { eexists None, _. split; [reflexivity|exact I]. }
  unfold try_except. unfold bind at 1. unfold requests_get at 1.
  set (req := mkRequest u (request_headers token) p).
  destruct (server (gets w) req) as [r0|] eqn:E0.
  2:{ eexists None, _. split; [reflexivity|exact I]. }
  unfold bind at 1.
  match goal with |- context [poll ?s ?b ?u ?h ?p ?n ?r ?w] =>
    destruct (poll s b u h p n r w) as [[rp|ep] w2] eqn:Ep; apply poll_result in Ep
  end.
  - destruct (400 <=? status_code rp) eqn:Es.
    + eexists None, _. split; [reflexivity|exact I].
    + exists (Some rp), w2. split; [reflexivity|].
      apply Z.leb_gt in Es. split; [|exact Es].
      destruct Ep as [Ep|Ep]; [|exact Ep].
      subst rp. exists (gets w), req. exact E0.
  - subst ep. eexists None, _. split; [reflexivity|exact I].
Qed.

(** A first answer that is not 202 ends [_request] after one GET. *)
Lemma request_answered cfg server u p w r :
  Py.configured (GITHUB_TOKEN cfg) = true ->
  server (gets w) (mkRequest u (request_headers (setting (GITHUB_TOKEN cfg))) p) = Got r ->
  status_code r <> 202 ->
  _request cfg server u p w =
    (if 400 <=? status_code r
     then (Normal None,
           mkWorld (employees w) (metrics w) (clock w) (S (gets w))
             (events w
              ++ [EvGet (mkRequest u (request_headers (setting (GITHUB_TOKEN cfg))) p);
                  EvLog WARNING "GitHub API request to %s failed with status %s: %s"]))
     else (Normal (Some r),
           after_get (mkRequest u (request_headers (setting (GITHUB_TOKEN cfg))) p) w)).
Proof.
  intros Htok Hsrv Hst. unfold _request.
  destruct (GITHUB_TOKEN cfg) as [token|]; [|discriminate].
  destruct token as [|c t]; [discriminate|].
  cbn [PyStr.is_empty setting] in *.
  unfold try_except. unfold bind at 1. unfold requests_get at 1. rewrite Hsrv.
  unfold bind at 1. cbn [poll].
  replace (status_code r =? 202) with false by (symmetry; apply Z.eqb_neq; exact Hst).
  cbn [andb]. unfold ret at 1.
  destruct (400 <=? status_code r).
  - unfold bind, logger, emit, ret. cbn [employees metrics clock gets events].
    rewrite <- app_assoc. reflexivity.
  - reflexivity.
Qed.

Lemma request_network_failure cfg server u p w :
  Py.configured (GITHUB_TOKEN cfg) = true ->
  server (gets w) (mkRequest u (request_headers (setting (GITHUB_TOKEN cfg))) p)
    = NetworkFailure ->
  fst (_request cfg server u p w) = Normal None.
Proof.
  intros Htok Hsrv. unfold _request.
  destruct (GITHUB_TOKEN cfg) as [token|]; [|discriminate].
  destruct token as [|c t]; [discriminate|].
  cbn [PyStr.is_empty setting] in *.
  unfold try_except. unfold bind at 1. unfold requests_get at 1. rewrite Hsrv.
  reflexivity.
Qed.

Lemma request_without_token cfg server u p w :
  Py.configured (GITHUB_TOKEN cfg) = false ->
  _request cfg server u p w =
    (Normal None,
     mkWorld (employees w) (metrics w) (clock w) (gets w)
             (events w ++ [EvLog WARNING "GITHUB_TOKEN is not set; cannot query GitHub API."])).
Proof.
  intros Htok. unfold _request.
  destruct (GITHUB_TOKEN cfg) as [token|]; [|reflexivity].
  destruct token as [|c t]; [reflexivity|discriminate].
Qed.

(** ** Search-based counts *)

Lemma response_ok_below_400 r : status_code r < 400 -> response_ok r = true.
Proof.
  intros H. unfold response_ok.
  replace (400 <=? status_code r) with false by (symmetry; apply Z.leb_gt; exact H).
  reflexivity.
Qed.

(** The count [_search_total_count] returns once [_request] is done. *)
Lemma search_total_count_after_request cfg server owner repo terms w ro w1 :
  _request cfg server (API_BASE ++ "/search/issues")
           (Some [("q", PyStr.join " " (terms ++ ["repo:" ++ owner ++ "/" ++ repo]))]) w
    = (Normal ro, w1) ->
  match ro with
  | None => _search_total_count cfg server owner repo terms w = (Normal 0, w1)
  | Some r =>
      status_code r < 400 ->
      (forall fields n,
         json_body r = Some (JObj fields) ->
         Py.lookup "total_count" fields = Some (JInt n) ->
         _search_total_count cfg server owner repo terms w = (Normal n, w1))
      /\ (json_body r = None ->
          fst (_search_total_count cfg server owner repo terms w) = Normal 0)
      /\ (forall fields,
            json_body r = Some (JObj fields) ->
            Py.lookup "total_count" fields = None ->
            _search_total_count cfg server owner repo terms w = (Normal 0, w1))
  end.
Proof.
  intros H. unfold _search_total_count, bind. rewrite H.
  destruct ro as [r|]; [|reflexivity].
  intros Hst. cbn [not_resp]. rewrite (response_ok_below_400 r Hst). cbn [negb].
  split; [|split].
  - intros fields n Hb Hf. unfold try_except, lift, resp_json. rewrite Hb.
    cbn [rbind Py.get]. rewrite Hf. reflexivity.
  - intros Hb. unfold try_except, lift, resp_json. rewrite Hb. reflexivity.
  - intros fields Hb Hf. unfold try_except, lift, resp_json. rewrite Hb.
    cbn [rbind Py.get]. rewrite Hf. reflexivity.
Qed.

Lemma search_total_count_spec cfg server owner repo terms query :
  PyStr.join " " (terms ++ ["repo:" ++ owner ++ "/" ++ repo]) = query ->
  search_spec cfg server (_search_total_count cfg server owner repo terms) query.
Proof.
  intros Hq w. unfold search_request.
  split.
  { intros ro w1 Hr. rewrite <- Hq in Hr.
    assert (Hst : match ro with Some r => status_code r < 400 | None => True end).
    { destruct (request_result cfg server (API_BASE ++ "/search/issues")
                  (Some [("q", PyStr.join " " (terms ++ ["repo:" ++ owner ++ "/" ++ repo]))])
                  w) as (ro' & w' & Hr' & Hro').
      rewrite Hr in Hr'. inversion Hr'; subst ro'.
      destruct ro as [r|]; [exact (proj2 Hro')|exact I]. }
    apply search_total_count_after_request in Hr.
    destruct ro as [r|]; [|exact Hr].
    destruct (Hr Hst) as (H1 & H2 & H3). split; [exact H2|]. split; [exact H1|exact H3]. }
  repeat split.
  - intros r fields n Htok Hsrv H202 H400 Hb Hf.
    pose proof (request_answered cfg server _ _ w r Htok Hsrv H202) as Hr.
    replace (400 <=? status_code r) with false in Hr
      by (symmetry; apply Z.leb_gt; exact H400).
    rewrite <- Hq in Hr.
    apply search_total_count_after_request in Hr.
    destruct (Hr H400) as [Hr1 _]. rewrite <- Hq. exact (Hr1 fields n Hb Hf).
  - intros Htok Hsrv.
    pose proof (request_network_failure cfg server _ _ w Htok Hsrv) as Hr.
    rewrite <- Hq in Hr.
    destruct (_request cfg server _ _ w) as [ro w1] eqn:E. simpl in Hr. subst ro.
    apply search_total_count_after_request in E. rewrite E. reflexivity.
  - intros r Htok Hsrv H202 Hbad.
    pose proof (request_answered cfg server _ _ w r Htok Hsrv H202) as Hr.
    rewrite <- Hq in Hr.
    destruct (400 <=? status_code r) eqn:Es.
    + apply search_total_count_after_request in Hr. rewrite Hr. reflexivity.
    + apply Z.leb_gt in Es. destruct Hbad as [Hbad|Hbad]; [lia|].
      apply search_total_count_after_request in Hr.
      destruct (Hr Es) as [_ [Hr2 _]]. exact (Hr2 Hbad).
  - pose proof (request_without_token cfg server (API_BASE ++ "/search/issues")
                  (Some [("q", query)]) w H) as Hr.
    rewrite <- Hq in Hr.
    apply search_total_count_after_request in Hr. rewrite Hr. reflexivity.
  - pose proof (request_without_token cfg server (API_BASE ++ "/search/issues")
                  (Some [("q", query)]) w H) as Hr.
    rewrite <- Hq in Hr.
    apply search_total_count_after_request in Hr. rewrite Hr. reflexivity.
Qed.

(** C6: for every username the three search-based counts issue one GET
    of [/search/issues] whose [q] is "is:pr author:U repo:O/R",
    "is:pr author:U is:merged repo:O/R" and "is:pr reviewed-by:U repo:O/R"
    respectively; each returns the [total_count] the response reports,
    and 0 when the wrapper yields no response (a network failure, a
    status of 400 or more, no token), when the body is not JSON or when
    it has no [total_count]; and with the response
    [{"total_count": 12}] to the PRs-opened query, alice's snapshot has
    [prs_opened = 12]. *)
Theorem search_based_counts cfg server owner repo username :
  search_spec cfg server (fetch_prs_opened cfg server owner repo username)
    ("is:pr author:" ++ username ++ " repo:" ++ owner ++ "/" ++ repo)
  /\ search_spec cfg server (fetch_prs_merged cfg server owner repo username)
       ("is:pr author:" ++ username ++ " is:merged repo:" ++ owner ++ "/" ++ repo)
  /\ search_spec cfg server (fetch_reviews cfg server owner repo username)
       ("is:pr reviewed-by:" ++ username ++ " repo:" ++ owner ++ "/" ++ repo)
  /\ (github 1%nat (search_request cfg0 "is:pr author:alice repo:acme/trail")
        = Got (ok (JObj [("total_count", JInt 12)]))
      /\ exists m,
           fst (update_metrics_for_employee cfg0 github alice w0) = Normal (Some m)
           /\ Metric.prs_opened m = Some 12).
Proof.
  split; [|split; [|split]].
  - apply search_total_count_spec. reflexivity.
  - apply search_total_count_spec. reflexivity.
  - apply search_total_count_spec. reflexivity.
  - split; [reflexivity|]. eexists. split; [vm_compute; reflexivity|reflexivity].
Qed.

(** ** Contributor totals *)

Lemma key_eqb_eq a b : key_eqb a b = true <-> a = b.
Proof.
  destruct a, b; simpl; split; intros H; try discriminate; try reflexivity.
  - apply Z.eqb_eq in H. congruence.
  - inversion H. apply Z.eqb_refl.
  - apply String.eqb_eq in H. congruence.
  - inversion H. apply String.eqb_refl.
Qed.

Lemma key_eqb_refl a : key_eqb a a = true.
Proof. apply key_eqb_eq. reflexivity. Qed.

Lemma key_eqb_neq a b : a <> b -> key_eqb a b = false.
Proof.
  intros H. destruct (key_eqb a b) eqn:E; [|reflexivity].
  apply key_eqb_eq in E. contradiction.
Qed.

Lemma dict_get_set_same {V} (k : key) (v default : V) (d : dict V) :
  dict_get k default (dict_set k v d) = v.
Proof.
  induction d as [|[k' v'] d IH]; simpl.
  - rewrite key_eqb_refl. reflexivity.
  - destruct (key_eqb k' k) eqn:E; simpl; rewrite E; [reflexivity|exact IH].
Qed.

Lemma dict_get_set_other {V} (k k2 : key) (v default : V) (d : dict V) :
  k <> k2 -> dict_get k2 default (dict_set k v d) = dict_get k2 default d.
Proof.
  intros Hne. induction d as [|[k' v'] d IH]; simpl.
  - rewrite (key_eqb_neq _ _ Hne). reflexivity.
  - destruct (key_eqb k' k) eqn:E; simpl.
    + apply key_eqb_eq in E. subst k'. rewrite (key_eqb_neq _ _ Hne). reflexivity.
    + destruct (key_eqb k' k2); [reflexivity|exact IH].
Qed.

Lemma sum_weeks_of_counts counts weeks :
  Forall2 is_week counts weeks ->
  forall acc, sum_weeks acc weeks = Normal (acc + sum_counts counts).
Proof.
  induction 1 as [|c week counts weeks (fields & Hw & Hc) _ IH]; intros acc; simpl.
  - rewrite Z.add_0_r. reflexivity.
  - subst week. cbn [Py.get rbind]. rewrite Hc. cbn [Py.add_int rbind].
    rewrite IH. f_equal. lia.
Qed.

Lemma aggregate_step_of_contributor login counts j totals :
  is_contributor login counts j ->
  login <> "" ->
  aggregate_step totals j =
    Normal (dict_set (KStr login) [("commits", sum_counts counts)] totals).
Proof.
  intros (fields & author & weeks & Hj & Ha & Hl & Hw & Hc) Hne.
  subst j. unfold aggregate_step. cbn [Py.get rbind]. rewrite Ha.
  assert (Ht : Py.truthy (JObj author) = true).
  { destruct author; [discriminate Hl|reflexivity]. }
  rewrite Ht. cbn [Py.get rbind]. rewrite Hl.
  assert (Ht' : Py.truthy (JStr login) = true).
  { destruct login; [contradiction Hne; reflexivity|reflexivity]. }
  rewrite Ht'. cbn [negb]. rewrite Hw. cbn [Py.iter rbind].
  rewrite (sum_weeks_of_counts _ _ Hc). reflexivity.
Qed.

Lemma aggregate_loop_of_stats entries items :
  is_stats entries items ->
  Forall (fun e => fst e <> "") entries ->
  forall totals,
    aggregate_loop totals items = Normal (totals_of entries totals).
Proof.
  induction 1 as [|e j entries items He _ IH]; intros Hne totals; simpl.
  - reflexivity.
  - inversion Hne as [|? ? Hne1 Hne2]; subst.
    rewrite (aggregate_step_of_contributor _ _ _ _ He Hne1). cbn [rbind].
    apply IH. exact Hne2.
Qed.

Lemma totals_of_absent username entries :
  ~ In username (map fst entries) ->
  forall default totals,
    dict_get (KStr username) default (totals_of entries totals)
    = dict_get (KStr username) default totals.
Proof.
  induction entries as [|e entries IH]; intros Hni default totals; simpl.
  - reflexivity.
  - unfold totals_of in *. simpl. rewrite IH.
    + apply dict_get_set_other. intros Heq. apply Hni. left. congruence.
    + intros Hin. apply Hni. right. exact Hin.
Qed.

Lemma entry_eq_dec (a b : string * list Z) : {a = b} + {a <> b}.
Proof.
  decide equality; [apply (list_eq_dec Z.eq_dec)|apply string_dec].
Qed.

Lemma totals_of_present username counts entries :
  In (username, counts) entries ->
  (forall counts', In (username, counts') entries -> counts' = counts) ->
  forall default totals,
    dict_get (KStr username) default (totals_of entries totals)
    = [("commits", sum_counts counts)].
Proof.
  induction entries as [|e entries IH]; intros Hin Huniq default totals;
    [contradiction|].
  destruct (in_dec entry_eq_dec (username, counts) entries) as [Hrest|Hrest].
  - unfold totals_of. simpl. apply (IH Hrest).
    intros counts' Hc. apply Huniq. right. exact Hc.
  - destruct Hin as [Hin|Hin]; [|contradiction].
    subst e. unfold totals_of. simpl. fold (totals_of entries).
    rewrite totals_of_absent; [apply dict_get_set_same|].
    intros Hu. apply in_map_iff in Hu. destruct Hu as ([u c] & Hfst & Hc).
    simpl in Hfst. subst u. apply Hrest.
    rewrite <- (Huniq c (or_intror Hc)). exact Hc.
Qed.

(** C5: for a statistics payload of the documented shape (a list of
    entries, each with a non-empty author login and weekly counts [c])
    and any username, the commit total is the sum of the weekly [c]
    counts of the entry whose login is the username, and 0 when no
    entry has that login; the sample payload gives 8 for "alice" and 0
    for "bob", both as [commit_total] and as the [commits] column of
    the snapshot. *)
Theorem commit_total_is_sum_of_weekly_counts entries items username :
  is_stats entries items ->
  Forall (fun e => fst e <> "") entries ->
  (forall counts,
     In (username, counts) entries ->
     (forall counts', In (username, counts') entries -> counts' = counts) ->
     commit_total (JArr items) username = Normal (sum_counts counts))
  /\ (~ In username (map fst entries) ->
      commit_total (JArr items) username = Normal 0)
  /\ commit_total sample_stats "alice" = Normal 8
  /\ commit_total sample_stats "bob" = Normal 0
  /\ (exists m, fst (update_metrics_for_employee cfg0 github alice w0) = Normal (Some m)
                /\ Metric.commits m = Some 8)
  /\ (exists m, fst (update_metrics_for_employee cfg0 github bob w0) = Normal (Some m)
                /\ Metric.commits m = Some 0).
Proof.
  intros Hs Hne.
  assert (Hagg : _aggregate_contributor_totals (JArr items)
                 = Normal (totals_of entries [])).
  { unfold _aggregate_contributor_totals. cbn [Py.iter rbind].
    apply aggregate_loop_of_stats; assumption. }
  split; [|split].
  - intros counts Hin Huniq. unfold commit_total. rewrite Hagg. cbn [rbind].
    rewrite (totals_of_present username counts entries Hin Huniq). reflexivity.
  - intros Hni. unfold commit_total. rewrite Hagg. cbn [rbind].
    rewrite (totals_of_absent username entries Hni). reflexivity.
  - split; [reflexivity|]. split; [reflexivity|].
    split; eexists; (split; [vm_compute; reflexivity|reflexivity]).
Qed.

Lemma commit_total_is_sum_of_weekly_counts_witness :
  commit_total sample_stats "alice" = Normal (sum_counts [3; 5]).
Proof.
  destruct (commit_total_is_sum_of_weekly_counts
              [("alice", [3; 5])]
              [JObj [("author", JObj [("login", JStr "alice")]);
                     ("weeks", JArr [JObj [("c", JInt 3)]; JObj [("c", JInt 5)]])]]
              "alice") as [H _].
  - constructor; [|constructor].
    exists [("author", JObj [("login", JStr "alice")]);
            ("weeks", JArr [JObj [("c", JInt 3)]; JObj [("c", JInt 5)]])],
           [("login", JStr "alice")],
           [JObj [("c", JInt 3)]; JObj [("c", JInt 5)]].
    repeat split; try reflexivity.
    constructor; [eexists; split; reflexivity|].
    constructor; [eexists; split; reflexivity|constructor].
  - constructor; [simpl; discriminate|constructor].
  - apply H; [left; reflexivity|].
    intros counts' [Hc|[]]. inversion Hc. reflexivity.
Defined.

(** ** The counters of a snapshot *)



















(** C2: the batch on two concrete servers.  With
    [{"total_count": null}] as the answer to bob's PRs-opened search,
    [int(None)] raises [TypeError]; with a JSON array as the answer,
    [.get] raises [AttributeError].  Neither is caught: the exception
    leaves [update_metrics_for_all_employees], alice has her snapshot,
    bob has none and dave, still to come, is never processed. *)
Theorem batch_aborts_on_unexpected_body :
  (fst (update_metrics_for_all_employees cfg0 github_null_count w0) = Raised TypeError
   /\ map Metric.employee_id
          (metrics (snd (update_metrics_for_all_employees cfg0 github_null_count w0)))
      = [1])
  /\ (fst (update_metrics_for_all_employees cfg0 github_array_body w0)
      = Raised AttributeError
      /\ map Metric.employee_id
             (metrics (snd (update_metrics_for_all_employees cfg0 github_array_body w0)))
         = [1])
  /\ map Employee.id (filter Employee.active (employees w0)) = [1; 2; 4].
Proof.
  repeat split; vm_compute; reflexivity.
Qed.

(** ** The employee views *)

Lemma find_is_some {A} (f : A -> bool) (l : list A) (x : A) :
  In x l -> f x = true -> is_some (find f l) = true.
Proof.
  intros Hin Hf. destruct (find f l) eqn:E; [reflexivity|].
  rewrite (find_none f l E x Hin) in Hf. discriminate.
Qed.

Lemma query_by_username_none username w :
  query_by_username username w = None ->
  ~ In username (map Employee.github_username (employees w)).
Proof.
  intros Hq Hin. apply in_map_iff in Hin. destruct Hin as (e & He & Hin).
  unfold query_by_username in Hq.
  pose proof (find_none _ _ Hq e Hin) as Hf. simpl in Hf.
  rewrite He, String.eqb_refl in Hf. discriminate.
Qed.

Lemma get_or_404_some employee_id w e :
  get_or_404 employee_id w = Some e ->
  In e (employees w) /\ Employee.id e = employee_id.
Proof.
  intros H. apply find_some in H. destruct H as [H1 H2].
  split; [exact H1|]. apply Z.eqb_eq. exact H2.
Qed.

Lemma next_id_fresh ids : forall i, In i ids -> i < next_id ids.
Proof.
  unfold next_id. induction ids as [|a ids IH]; cbn [fold_right In]; intros i Hi;
    [contradiction|].
  destruct Hi as [Hi|Hi]; [subst; lia|]. specialize (IH i Hi). lia.
Qed.

Lemma NoDup_snoc {A} (l : list A) (x : A) :
  NoDup l -> ~ In x l -> NoDup (l ++ [x]).
Proof.
  induction 1 as [|a l Ha Hl IH]; intros Hx; simpl.
  - constructor; [intros []|constructor].
  - constructor.
    + intros Hin. apply in_app_or in Hin. destruct Hin as [Hin|[Hin|[]]].
      * contradiction.
      * subst. apply Hx. left. reflexivity.
    + apply IH. intros Hin. apply Hx. right. exact Hin.
Qed.

Lemma updated_rows_ids i name u active l :
  map Employee.id (map (updated_row i name u active) l) = map Employee.id l.
Proof.
  induction l as [|a l IH]; simpl; [reflexivity|]. rewrite IH. f_equal.
  unfold updated_row. destruct (Employee.id a =? i); reflexivity.
Qed.

Lemma updated_rows_same_username i name u active l :
  (forall x, In x l -> Employee.id x = i -> Employee.github_username x = u) ->
  map Employee.github_username (map (updated_row i name u active) l)
  = map Employee.github_username l.
Proof.
  induction l as [|a l IH]; simpl; intros H; [reflexivity|].
  rewrite IH by (intros x Hx; apply H; right; exact Hx). f_equal.
  unfold updated_row. destruct (Employee.id a =? i) eqn:E; [|reflexivity].
  simpl. symmetry. apply H; [left; reflexivity|]. apply Z.eqb_eq. exact E.
Qed.

Lemma updated_rows_usernames i name u active l v :
  In v (map Employee.github_username (map (updated_row i name u active) l)) ->
  v = u \/ In v (map Employee.github_username l).
Proof.
  induction l as [|a l IH]; simpl; intros H; [contradiction|].
  destruct H as [H|H].
  - unfold updated_row in H. destruct (Employee.id a =? i); simpl in H.
    + left. congruence.
    + right. left. exact H.
  - destruct (IH H) as [H1|H1]; [left; exact H1|right; right; exact H1].
Qed.

Lemma updated_rows_absent i name u active l :
  ~ In i (map Employee.id l) -> map (updated_row i name u active) l = l.
Proof.
  induction l as [|a l IH]; simpl; intros H; [reflexivity|].
  rewrite IH by (intros Hin; apply H; right; exact Hin). f_equal.
  unfold updated_row. destruct (Employee.id a =? i) eqn:E; [|reflexivity].
  exfalso. apply H. left. apply Z.eqb_eq. exact E.
Qed.

Lemma updated_rows_fresh_username i name u active l :
  NoDup (map Employee.id l) ->
  NoDup (map Employee.github_username l) ->
  ~ In u (map Employee.github_username l) ->
  NoDup (map Employee.github_username (map (updated_row i name u active) l)).
Proof.
  induction l as [|a l IH]; simpl; intros Hid Hun Hu; [constructor|].
  inversion Hid as [|? ? Hid1 Hid2]; inversion Hun as [|? ? Hun1 Hun2]; subst.
  unfold updated_row at 1. destruct (Employee.id a =? i) eqn:E; simpl.
  - apply Z.eqb_eq in E. subst i.
    rewrite (updated_rows_absent _ _ _ _ _ Hid1).
    constructor; [|exact Hun2]. intros Hin. apply Hu. right. exact Hin.
  - constructor.
    + intros Hin. apply updated_rows_usernames in Hin. destruct Hin as [Hin|Hin].
      * apply Hu. left. exact Hin.
      * contradiction.
    + apply IH; try assumption. intros Hin. apply Hu. right. exact Hin.
Qed.

Lemma add_employee_store_ok req w :
  store_ok w -> store_ok (snd (add_employee req w)).
Proof.
  intros [Hid Hun]. unfold add_employee.
  destruct (method req); [exact (conj Hid Hun)|].
  destruct (PyStr.is_empty _ || PyStr.is_empty _); [exact (conj Hid Hun)|].
  destruct (query_by_username _ w) eqn:Hq; cbn [is_some]; [exact (conj Hid Hun)|].
  apply query_by_username_none in Hq.
  unfold store_ok, db_add_employee. cbn [snd employees]. rewrite !map_app. simpl.
  split.
  - apply NoDup_snoc; [exact Hid|]. intros Hin.
    apply next_id_fresh in Hin. unfold next_id in Hin. lia.
  - apply NoDup_snoc; [exact Hun|exact Hq].
Qed.

Lemma edit_employee_store_ok employee_id req w :
  store_ok w -> store_ok (snd (edit_employee employee_id req w)).
Proof.
  intros [Hid Hun]. unfold edit_employee.
  destruct (get_or_404 employee_id w) as [employee|] eqn:Hg; [|exact (conj Hid Hun)].
  destruct (method req); [exact (conj Hid Hun)|].
  destruct (PyStr.is_empty _ || PyStr.is_empty _); [exact (conj Hid Hun)|].
  destruct (negb _ && is_some _) eqn:Hc; [exact (conj Hid Hun)|].
  apply get_or_404_some in Hg. destruct Hg as [Hin Hemp].
  unfold store_ok, db_update_employee. cbn [snd employees].
  rewrite updated_rows_ids. split; [exact Hid|].
  apply andb_false_iff in Hc. destruct Hc as [Hc|Hc].
  - apply negb_false_iff, String.eqb_eq in Hc.
    rewrite updated_rows_same_username; [exact Hun|].
    intros x Hx Hxi. rewrite Hc. f_equal.
    apply (NoDup_map_injective Employee.id (employees w) Hid); assumption.
  - apply updated_rows_fresh_username; try assumption.
    apply query_by_username_none.
    destruct (query_by_username _ w); [discriminate Hc|reflexivity].
Qed.

(** C8: in a store that honours the table's constraints and where some
    employee [e] has the submitted username, a POST to the registration
    view is rejected (the form is shown again, the store is unchanged),
    and a POST editing an employee other than [e] to that username is
    rejected the same way; and every request to the create and edit
    views preserves the uniqueness of ids and of usernames. *)
Theorem duplicate_username_is_rejected w req e :
  store_ok w ->
  method req = POST ->
  In e (employees w) ->
  submitted_username req = Employee.github_username e ->
  (snd (add_employee req w) = w
   /\ body (fst (add_employee req w)) = Template "employee_form.html" None
   /\ (submitted_name req <> "" -> submitted_username req <> "" ->
       flashed (fst (add_employee req w)) = [("danger", "GitHub username already exists.")]))
  /\ (forall employee_id e2,
        get_or_404 employee_id w = Some e2 ->
        Employee.id e2 <> Employee.id e ->
        snd (edit_employee employee_id req w) = w
        /\ body (fst (edit_employee employee_id req w))
           = Template "employee_form.html" (Some e2))
  /\ (forall req', store_ok (snd (add_employee req' w)))
  /\ (forall employee_id req', store_ok (snd (edit_employee employee_id req' w))).
Proof.
  intros Hok Hpost Hin Hu.
  assert (Hq : is_some (query_by_username (submitted_username req) w) = true).
  { unfold query_by_username. apply (find_is_some _ _ e Hin).
    rewrite Hu. apply String.eqb_refl. }
  split; [|split; [|split]].
  - unfold add_employee. rewrite Hpost.
    fold (submitted_name req) (submitted_username req). rewrite Hq.
    destruct (PyStr.is_empty (submitted_name req)) eqn:En;
      destruct (PyStr.is_empty (submitted_username req)) eqn:Eu; cbn;
      repeat split; try reflexivity; intros Hn Hun.
    + destruct (submitted_name req); [contradiction Hn; reflexivity|discriminate En].
    + destruct (submitted_name req); [contradiction Hn; reflexivity|discriminate En].
    + destruct (submitted_username req); [contradiction Hun; reflexivity|discriminate Eu].
  - intros employee_id e2 Hg Hne. unfold edit_employee. rewrite Hg, Hpost.
    fold (submitted_name req) (submitted_username req). rewrite Hq.
    destruct (PyStr.is_empty (submitted_name req) || PyStr.is_empty (submitted_username req));
      [split; reflexivity|].
    assert (Hdiff : String.eqb (submitted_username req) (Employee.github_username e2)
                    = false).
    { apply String.eqb_neq. intros Heq. apply Hne.
      apply get_or_404_some in Hg. destruct Hg as [Hin2 _].
      f_equal. destruct Hok as [_ Hun].
      apply (NoDup_map_injective Employee.github_username (employees w) Hun);
        try assumption. congruence. }
    rewrite Hdiff. cbn. split; reflexivity.
  - intros req'. apply add_employee_store_ok. exact Hok.
  - intros employee_id req'. apply edit_employee_store_ok. exact Hok.
Qed.

Lemma store_ok_w0 : store_ok w0.
Proof.
  split; simpl; repeat constructor; simpl; intuition (lia || discriminate).
Qed.

Lemma duplicate_username_is_rejected_witness :
  snd (add_employee (post [("name", "Al"); ("github_username", " alice ")]) w0) = w0
  /\ snd (edit_employee 2 (post [("name", "Bob"); ("github_username", " alice ")]) w0) = w0.
Proof.
  destruct (duplicate_username_is_rejected w0
              (post [("name", "Al"); ("github_username", " alice ")]) alice)
    as [[H1 _] _].
  - exact store_ok_w0.
  - reflexivity.
  - simpl. left. reflexivity.
  - reflexivity.
  - split; [exact H1|].
    destruct (duplicate_username_is_rejected w0
                (post [("name", "Bob"); ("github_username", " alice ")]) alice)
      as [_ [H2 _]].
    + exact store_ok_w0.
    + reflexivity.
    + simpl. left. reflexivity.
    + reflexivity.
    + destruct (H2 2 bob) as [H3 _]; [reflexivity|simpl; lia|exact H3].
Defined.

Lemma filter_filter_implied {A} (p q : A -> bool) (l : list A) :
  (forall x, p x = true -> q x = true) ->
  filter p (filter q l) = filter p l.
Proof.
  intros H. induction l as [|a l IH]; simpl; [reflexivity|].
  destruct (q a) eqn:Eq; simpl.
  - rewrite IH. reflexivity.
  - destruct (p a) eqn:Ep; [|exact IH].
    rewrite (H a Ep) in Eq. discriminate.
Qed.

(** C9: a POST to the delete view for an existing employee removes the
    employee's row and every Metric row of that employee; the rows and
    the snapshots of every other employee are as before, in the same
    order; and if no Metric row was orphaned before, none is after. *)
Theorem delete_employee_cascades employee_id req w e :
  method req = POST ->
  get_or_404 employee_id w = Some e ->
  let w' := snd (delete_employee employee_id req w) in
  (forall e', In e' (employees w') -> Employee.id e' <> employee_id)
  /\ (forall m, In m (metrics w') -> Metric.employee_id m <> employee_id)
  /\ (forall i, i <> employee_id ->
        filter (fun e' => Employee.id e' =? i) (employees w')
        = filter (fun e' => Employee.id e' =? i) (employees w))
  /\ (forall i, i <> employee_id ->
        filter (fun m => Metric.employee_id m =? i) (metrics w')
        = filter (fun m => Metric.employee_id m =? i) (metrics w))
  /\ (no_orphan_metric w -> no_orphan_metric w').
Proof.
  intros Hpost Hg w'. subst w'. unfold delete_employee. rewrite Hpost, Hg.
  apply get_or_404_some in Hg. destruct Hg as [Hin Hid]. rewrite Hid.
  unfold db_delete_employee. cbn [snd employees metrics].
  split; [|split; [|split; [|split]]].
  - intros e' He'. apply filter_In in He'. destruct He' as [_ He'].
    apply negb_true_iff, Z.eqb_neq in He'. exact He'.
  - intros m Hm. apply filter_In in Hm. destruct Hm as [_ Hm].
    apply negb_true_iff, Z.eqb_neq in Hm. exact Hm.
  - intros i Hi. apply filter_filter_implied. intros x Hx.
    apply Z.eqb_eq in Hx. apply negb_true_iff, Z.eqb_neq. congruence.
  - intros i Hi. apply filter_filter_implied. intros x Hx.
    apply Z.eqb_eq in Hx. apply negb_true_iff, Z.eqb_neq. congruence.
  - intros Hno m Hm. unfold no_orphan_metric in Hno. cbn [metrics employees] in *.
    apply filter_In in Hm. destruct Hm as [Hm1 Hm2].
    destruct (Hno m Hm1) as (e' & He1 & He2).
    exists e'. split; [|exact He2].
    apply filter_In. split; [exact He1|]. rewrite He2. exact Hm2.
Qed.

Lemma delete_employee_cascades_witness :
  map Employee.id (employees (snd (delete_employee 1 (post []) w1))) = [2; 3; 4]
  /\ map Metric.employee_id (metrics (snd (delete_employee 1 (post []) w1))) = [2]
  /\ forall m, In m (metrics (snd (delete_employee 1 (post []) w1))) ->
               Metric.employee_id m <> 1.
Proof.
  destruct (delete_employee_cascades 1 (post []) w1 alice) as (_ & H & _).
  - reflexivity.
  - reflexivity.
  - split; [reflexivity|]. split; [reflexivity|exact H].
Defined.

(** ** Blank names and usernames *)

Lemma rstrip_cons_nonspace c s :
  PyStr.is_space c = false -> PyStr.rstrip (String c s) = String c (PyStr.rstrip s).
Proof.
  intros Hc. simpl. destruct (PyStr.rstrip s); [rewrite Hc|]; reflexivity.
Qed.

Lemma rstrip_idempotent s : PyStr.rstrip (PyStr.rstrip s) = PyStr.rstrip s.
Proof.
  induction s as [|c s IH]; [reflexivity|].
  simpl. destruct (PyStr.rstrip s) as [|d r] eqn:E.
  - destruct (PyStr.is_space c) eqn:Ec; [reflexivity|].
    simpl. rewrite Ec. reflexivity.
  - change (PyStr.rstrip (String c (String d r)))
      with (match PyStr.rstrip (String d r) with
            | EmptyString =>
                if PyStr.is_space c then EmptyString else String c EmptyString
            | r' => String c r'
            end).
    rewrite IH. reflexivity.
Qed.

Lemma lstrip_head s :
  PyStr.lstrip s = "" \/
  exists c t, PyStr.lstrip s = String c t /\ PyStr.is_space c = false.
Proof.
  induction s as [|c s IH]; [left; reflexivity|].
  simpl. destruct (PyStr.is_space c) eqn:Ec; [exact IH|].
  right. exists c, s. split; [reflexivity|exact Ec].
Qed.

Lemma strip_idempotent s : PyStr.strip (PyStr.strip s) = PyStr.strip s.
Proof.
  unfold PyStr.strip. destruct (lstrip_head s) as [H|(c & t & H & Hc)]; rewrite H.
  - reflexivity.
  - rewrite (rstrip_cons_nonspace c t Hc). simpl PyStr.lstrip. rewrite Hc.
    rewrite <- (rstrip_cons_nonspace c t Hc). apply rstrip_idempotent.
Qed.

Lemma is_empty_false s : PyStr.is_empty s = false -> s <> "".
Proof. destruct s; [discriminate|]. intros _ H. discriminate H. Qed.

Lemma add_employee_no_blank req w :
  no_blank_employee w -> no_blank_employee (snd (add_employee req w)).
Proof.
  intros Hw. unfold add_employee.
  destruct (method req); [exact Hw|].
  destruct (PyStr.is_empty (PyStr.strip (form_get "name" (form req)))) eqn:En;
    [exact Hw|].
  destruct (PyStr.is_empty (PyStr.strip (form_get "github_username" (form req)))) eqn:Eu;
    [exact Hw|].
  cbn [orb]. destruct (is_some _); [exact Hw|].
  unfold no_blank_employee, db_add_employee. cbn [snd employees].
  apply Forall_app. split; [exact Hw|]. constructor; [|constructor].
  cbn [Employee.name Employee.github_username]. rewrite !strip_idempotent.
  split; apply is_empty_false; assumption.
Qed.

Lemma edit_employee_no_blank employee_id req w :
  no_blank_employee w -> no_blank_employee (snd (edit_employee employee_id req w)).
Proof.
  intros Hw. unfold edit_employee.
  destruct (get_or_404 employee_id w); [|exact Hw].
  destruct (method req); [exact Hw|].
  destruct (PyStr.is_empty (PyStr.strip (form_get "name" (form req)))) eqn:En;
    [exact Hw|].
  destruct (PyStr.is_empty (PyStr.strip (form_get "github_username" (form req)))) eqn:Eu;
    [exact Hw|].
  cbn [orb]. destruct (negb _ && is_some _); [exact Hw|].
  unfold no_blank_employee, db_update_employee. cbn [snd employees].
  apply Forall_forall. intros x Hx. apply in_map_iff in Hx.
  destruct Hx as (y & Hy & Hin). subst x. unfold updated_row.
  destruct (Employee.id y =? _).
  - cbn [Employee.name Employee.github_username]. rewrite !strip_idempotent.
    split; apply is_empty_false; assumption.
  - unfold no_blank_employee in Hw. rewrite Forall_forall in Hw. apply Hw. exact Hin.
Qed.

(** C10: a POST to the registration view or to the edit view whose name
    or username is empty once stripped is rejected: the form is shown
    again with 'Name and GitHub username are required.' and the store
    is unchanged (for the edit view, an unknown employee gets the 404
    instead); and no request to the two views ever stores an employee
    with a blank name or a blank username. *)
Theorem blank_fields_are_rejected req w :
  method req = POST ->
  submitted_name req = "" \/ submitted_username req = "" ->
  add_employee req w =
    (mkView (Template "employee_form.html" None)
            [("danger", "Name and GitHub username are required.")], w)
  /\ (forall employee_id,
        edit_employee employee_id req w =
          match get_or_404 employee_id w with
          | Some employee =>
              (mkView (Template "employee_form.html" (Some employee))
                      [("danger", "Name and GitHub username are required.")], w)
          | None => (mkView NotFound [], w)
          end)
  /\ (forall req', no_blank_employee w -> no_blank_employee (snd (add_employee req' w)))
  /\ (forall employee_id req',
        no_blank_employee w ->
        no_blank_employee (snd (edit_employee employee_id req' w))).
Proof.
  intros Hpost Hblank.
  assert (Hb : PyStr.is_empty (submitted_name req)
               || PyStr.is_empty (submitted_username req) = true).
  { destruct Hblank as [H|H]; rewrite H; [reflexivity|apply orb_true_r]. }
  split; [|split; [|split]].
  - unfold add_employee. rewrite Hpost.
    fold (submitted_name req) (submitted_username req). rewrite Hb. reflexivity.
  - intros employee_id. unfold edit_employee.
    destruct (get_or_404 employee_id w); [|reflexivity].
    rewrite Hpost. fold (submitted_name req) (submitted_username req).
    rewrite Hb. reflexivity.
  - intros req'. apply add_employee_no_blank.
  - intros employee_id req'. apply edit_employee_no_blank.
Qed.

Lemma blank_fields_are_rejected_witness :
  snd (add_employee (post [("name", "   "); ("github_username", "erin")]) w0) = w0
  /\ snd (edit_employee 1 (post [("name", "Alice"); ("github_username", " ")]) w0) = w0.
Proof.
  split.
  - destruct (blank_fields_are_rejected
                (post [("name", "   "); ("github_username", "erin")]) w0) as [H _].
    + reflexivity.
    + left. reflexivity.
    + rewrite H. reflexivity.
  - destruct (blank_fields_are_rejected
                (post [("name", "Alice"); ("github_username", " ")]) w0) as [_ [H _]].
    + reflexivity.
    + right. reflexivity.
    + rewrite (H 1). reflexivity.
Defined.

Lemma ids_w0_distinct : NoDup (map Employee.id (employees w0)).
Proof. exact (proj1 store_ok_w0). Qed.

Lemma batch_updates_active_employees_only_witness :
  exists created,
    metrics (snd (update_metrics_for_all_employees cfg0 github w0)) = created
    /\ map Metric.employee_id created = [1; 2; 4]
    /\ Forall (fun m => Metric.employee_id m <> Employee.id carol) created.
Proof.
  destruct (batch_updates_active_employees_only cfg0 github w0
              (fst (update_metrics_for_all_employees cfg0 github w0))
              (snd (update_metrics_for_all_employees cfg0 github w0))
              ids_w0_distinct (surjective_pairing _))
    as (_ & created & H1 & _ & H2 & _).
  change (metrics (snd (update_metrics_for_all_employees cfg0 github w0)) = created)
    in H1.
  exists created. split; [exact H1|]. split.
  - rewrite <- H1. vm_compute. reflexivity.
  - apply (H2 carol); [right; right; left; reflexivity|reflexivity].
Defined.

Lemma search_based_counts_witness :
  fetch_prs_opened cfg0 github "acme" "trail" "alice" w0
  = (Normal 12, after_get (search_request cfg0 "is:pr author:alice repo:acme/trail") w0).
Proof.
  destruct (search_based_counts cfg0 github "acme" "trail" "alice") as [H _].
  destruct (H w0) as [_ [H1 _]].
  apply (H1 (ok (total_count 12)) [("total_count", JInt 12)] 12).
  - reflexivity.
  - reflexivity.
  - simpl. lia.
  - simpl. lia.
  - reflexivity.
  - reflexivity.
Defined.

(** * Further properties *)

(** ** The wrapper on every server *)

Lemma within_weaken {A} (g g' : nat) (s s' : Z) (m : M A) :
  (g <= g')%nat -> s <= s' -> within g s m -> within g' s' m.
Proof.
  intros Hg Hs H w. destruct (H w) as [[H1 H2] [H3 H4]].
  repeat split; lia.
Qed.

Lemma within_ret {A} (v : A) : within 0 0 (ret v).
Proof. intros w. simpl. repeat split; lia. Qed.

Lemma within_lift {A} (r : result A) : within 0 0 (lift r).
Proof. intros w. simpl. repeat split; lia. Qed.

Lemma within_logger lvl msg : within 0 0 (logger lvl msg).
Proof. intros w. simpl. repeat split; lia. Qed.

Lemma within_sleep s : 0 <= s -> within 0 s (sleep s).
Proof. intros Hs w. simpl. repeat split; lia. Qed.

Lemma within_requests_get server u h p : within 1 0 (requests_get server u h p).
Proof.
  intros w. unfold requests_get. destruct (server _ _); simpl; repeat split; lia.
Qed.

Lemma within_bind {A B} g1 s1 g2 s2 (m : M A) (k : A -> M B) :
  within g1 s1 m -> (forall v, within g2 s2 (k v)) -> 0 <= s2 ->
  within (g1 + g2) (s1 + s2) (bind m k).
Proof.
  intros Hm Hk Hs w. unfold bind. specialize (Hm w).
  destruct (m w) as [[v|e] w1]; simpl in *.
  - destruct (Hk v w1) as [[H1 H2] [H3 H4]]. destruct Hm as [[H5 H6] [H7 H8]].
    repeat split; lia.
  - destruct Hm as [[H5 H6] [H7 H8]]. repeat split; lia.
Qed.

Lemma within_try_except {A} g1 s1 g2 s2 (m : M A) e (h : M A) :
  within g1 s1 m -> within g2 s2 h -> 0 <= s2 ->
  within (g1 + g2) (s1 + s2) (try_except m e h).
Proof.
  intros Hm Hh Hs w. unfold try_except. specialize (Hm w).
  destruct (m w) as [[v|e'] w1]; simpl in *.
  - destruct Hm as [[H5 H6] [H7 H8]]. repeat split; lia.
  - destruct (exn_eqb e' e); simpl.
    + destruct (Hh w1) as [[H1 H2] [H3 H4]]. destruct Hm as [[H5 H6] [H7 H8]].
      repeat split; lia.
    + destruct Hm as [[H5 H6] [H7 H8]]. repeat split; lia.
Qed.

Lemma backoff_seconds_nonneg n : forall retries, 0 <= retries -> 0 <= backoff_seconds retries n.
Proof.
  induction n as [|n IH]; intros retries Hr; simpl; [lia|].
  specialize (IH (retries + 1) ltac:(lia)).
  pose proof (Z.pow_nonneg 2 retries ltac:(lia)). lia.
Qed.

Lemma backoff_seconds_closed n :
  forall retries, 0 <= retries ->
    backoff_seconds retries n = 2 ^ retries * (2 ^ Z.of_nat n - 1).
Proof.
  induction n as [|n IH]; intros retries Hr.
  - simpl. lia.
  - cbn [backoff_seconds]. rewrite IH by lia.
    rewrite Nat2Z.inj_succ, Z.pow_succ_r by lia.
    rewrite Z.pow_add_r by lia. change (2 ^ 1) with 2. ring.
Qed.

Lemma within_poll server u h p :
  forall budget retries resp,
    0 <= retries ->
    within budget (backoff_seconds retries budget)
           (poll server budget u h p retries resp).
Proof.
  induction budget as [|b IH]; intros retries resp Hr.
  - simpl. apply within_ret.
  - cbn [poll backoff_seconds].
    pose proof (Z.pow_nonneg 2 retries ltac:(lia)) as Hp.
    pose proof (backoff_seconds_nonneg b (retries + 1) ltac:(lia)) as Hb.
    destruct ((status_code resp =? 202) && (retries <? 5)).
    + change (S b) with (0 + (1 + b))%nat.
      apply within_bind; [apply within_sleep; exact Hp| |exact Hb].
      intros _. replace (backoff_seconds (retries + 1) b)
        with (0 + backoff_seconds (retries + 1) b) by lia.
      apply within_bind; [apply within_requests_get| |exact Hb].
      intros resp'. apply IH. lia.
    + eapply within_weaken; [| |apply within_ret]; lia.
Qed.

Lemma within_request cfg server u p : within 6 31 (_request cfg server u p).
Proof.
  unfold _request. destruct (GITHUB_TOKEN cfg) as [token|].
  2:{ eapply within_weaken; [| |apply (within_bind 0 0 0 0)];
      [lia|lia|apply within_logger|intros; apply within_ret|lia]. }
  destruct (PyStr.is_empty token).
  { eapply within_weaken; [| |apply (within_bind 0 0 0 0)];
      [lia|lia|apply within_logger|intros; apply within_ret|lia]. }
  change 6%nat with ((1 + (5 + 0)) + 0)%nat. change 31 with ((0 + (31 + 0)) + 0).
  apply within_try_except; [| |lia].
  - apply within_bind; [apply within_requests_get| |lia].
    intros r0. apply within_bind; [apply (within_poll server u _ p 5 0 r0); lia| |lia].
    intros r1. destruct (400 <=? status_code r1); [|apply within_ret].
    apply (within_bind 0 0 0 0); [apply within_logger|intros; apply within_ret|lia].
  - apply (within_bind 0 0 0 0); [apply within_logger|intros; apply within_ret|lia].
Qed.

Lemma poll_answered server u h p :
  forall budget retries resp w res w',
    poll server budget u h p retries resp w = (res, w') ->
    match res with
    | Normal r => r = resp \/ answered_by server (mkRequest u h p) r
    | Raised e => e = RequestException
    end.
Proof.
  induction budget as [|b IH]; intros retries resp w res w' H; simpl in H.
  - inversion H; subst. left. reflexivity.
  - destruct ((status_code resp =? 202) && (retries <? 5)).
    + unfold bind at 1 in H. unfold sleep at 1 in H.
      unfold bind at 1 in H. unfold requests_get at 1 in H.
      cbn [gets events clock employees metrics] in H.
      destruct (server (gets w) (mkRequest u h p)) as [r1|] eqn:E.
      * apply IH in H. destruct res as [r|e]; [|exact H].
        right. destruct H as [H|H]; [|exact H].
        subst r. exists (gets w). exact E.
      * inversion H; subst. reflexivity.
    + inversion H; subst. left. reflexivity.
Qed.

Lemma request_answered_by cfg server u p w ro w' :
  _request cfg server u p w = (Normal ro, w') ->
  match ro with
  | Some r =>
      answered_by server
        (mkRequest u (request_headers (setting (GITHUB_TOKEN cfg))) p) r
  | None => True
  end.
Proof.
  unfold _request. destruct (GITHUB_TOKEN cfg) as [token|].
  2:{ intros H. inversion H. exact I. }
  destruct (PyStr.is_empty token).
  { intros H. inversion H. exact I. }
  cbn [setting]. unfold try_except. unfold bind at 1. unfold requests_get at 1.
  set (req := mkRequest u (request_headers token) p).
  destruct (server (gets w) req) as [r0|] eqn:E0.
  2:{ intros H. inversion H. exact I. }
  unfold bind at 1.
  match goal with |- context [poll ?s ?b ?u ?h ?p ?n ?r ?w] =>
    destruct (poll s b u h p n r w) as [[rp|ep] w2] eqn:Ep; apply poll_answered in Ep
  end.
  - destruct (400 <=? status_code rp).
    + intros H. inversion H. exact I.
    + intros H. inversion H; subst.
      destruct Ep as [Ep|Ep]; [|exact Ep]. subst rp. exists (gets w). exact E0.
  - subst ep. intros H. inversion H. exact I.
Qed.

(** X1: whatever the server does, [_request] returns: it never raises
    and never touches the two tables.  It issues at most 6 GETs and
    sleeps at most 31 seconds; without a token it issues none and
    yields no response, with a token it issues at least one.  A
    response it yields has a status below 400 and is what one of its
    own GETs received. *)
Theorem request_is_total_and_bounded cfg server u p w :
  exists ro w',
    _request cfg server u p w = (Normal ro, w')
    /\ employees w' = employees w /\ metrics w' = metrics w
    /\ (gets w' <= gets w + 6)%nat
    /\ clock w <= clock w' <= clock w + 31
    /\ (Py.configured (GITHUB_TOKEN cfg) = false -> ro = None /\ gets w' = gets w)
    /\ (Py.configured (GITHUB_TOKEN cfg) = true -> (gets w < gets w')%nat)
    /\ match ro with
       | Some r =>
           status_code r < 400
           /\ answered_by server
                (mkRequest u (request_headers (setting (GITHUB_TOKEN cfg))) p) r
       | None => True
       end.
Proof.
  destruct (request_result cfg server u p w) as (ro & w' & Hr & Hro).
  exists ro, w'. split; [exact Hr|].
  pose proof (frames_request cfg server u p w) as [F1 F2].
  pose proof (within_request cfg server u p w) as [[G1 G2] [C1 C2]].
  rewrite Hr in F1, F2, G1, G2, C1, C2. cbn [snd] in *.
  split; [exact F1|]. split; [exact F2|]. split; [exact G2|].
  split; [split; assumption|]. split; [|split].
  - intros Htok. rewrite (request_without_token cfg server u p w Htok) in Hr.
    inversion Hr; subst. split; reflexivity.
  - intros Htok. revert Hr. unfold _request.
    destruct (GITHUB_TOKEN cfg) as [token|]; [|discriminate Htok].
    destruct token as [|c t]; [discriminate Htok|]. cbn [PyStr.is_empty].
    unfold try_except. unfold bind at 1. unfold requests_get at 1.
    destruct (server (gets w) _).
    + unfold bind at 1.
      match goal with |- context [poll ?s ?b ?u ?h ?p ?n ?r ?w] =>
        pose proof (within_poll s u h p b n r ltac:(lia) w) as [[P1 _] _];
        destruct (poll s b u h p n r w) as [[rp|ep] w2]
      end; cbn [snd gets] in P1.
      * destruct (400 <=? status_code rp); intros H; inversion H; subst;
          cbn [gets]; lia.
      * destruct (exn_eqb ep RequestException); intros H; inversion H; subst;
          cbn [gets]; lia.
    + intros H; inversion H; subst; cbn [gets]; lia.
  - destruct ro as [r|]; [|exact I]. split; [exact (proj2 Hro)|].
    exact (request_answered_by cfg server u p w (Some r) w' Hr).
Qed.

Lemma bind_assoc {A B C} (m : M A) (f : A -> M B) (g : B -> M C) w :
  bind (bind m f) g w = bind m (fun x => bind (f x) g) w.
Proof.
  unfold bind. destruct (m w) as [[v|e] w1]; reflexivity.
Qed.

(** A GET followed by the polling loop, when the next [k] answers are
    202 and the one after them is not. *)
Lemma get_then_poll server u h p r :
  status_code r <> 202 ->
  forall k budget retries w,
    (k <= budget)%nat -> 0 <= retries -> retries + Z.of_nat k <= 5 ->
    (forall i, (i < k)%nat ->
       exists ri, server (gets w + i)%nat (mkRequest u h p) = Got ri
                  /\ status_code ri = 202) ->
    server (gets w + k)%nat (mkRequest u h p) = Got r ->
    bind (requests_get server u h p) (poll server budget u h p retries) w =
      (Normal r,
       mkWorld (employees w) (metrics w) (clock w + backoff_seconds retries k)
               (gets w + k + 1)%nat
               (events w ++ EvGet (mkRequest u h p) :: backoff (mkRequest u h p) retries k)).
Proof.
  intros Hr. induction k as [|k IH]; intros budget retries w Hb H0 H5 H202 Hk.
  - unfold bind at 1. unfold requests_get at 1.
    rewrite Nat.add_0_r in Hk. rewrite Hk.
    assert (Hp : forall w1, poll server budget u h p retries r w1 = (Normal r, w1)).
    { intros w1. destruct budget as [|b]; [reflexivity|]. simpl.
      replace (status_code r =? 202) with false
        by (symmetry; apply Z.eqb_neq; exact Hr).
      reflexivity. }
    rewrite Hp. simpl. f_equal. f_equal; lia.
  - destruct budget as [|b]; [lia|].
    unfold bind at 1. unfold requests_get at 1.
    destruct (H202 0%nat ltac:(lia)) as (r0 & E0 & S0).
    rewrite Nat.add_0_r in E0. rewrite E0.
    cbn [poll]. rewrite S0.
    replace (retries <? 5) with true by (symmetry; apply Z.ltb_lt; lia).
    change (202 =? 202) with true. cbn [andb].
    unfold bind at 1. unfold sleep at 1.
    cbn [gets events clock employees metrics].
    match goal with |- bind ?m ?f ?w1 = _ =>
      change (bind m f w1)
        with (bind (requests_get server u h p)
                   (poll server b u h p (retries + 1)) w1);
      rewrite (IH b (retries + 1) w1)
    end; cbn [gets events clock employees metrics]; try lia.
    + cbn [backoff_seconds backoff]. f_equal. f_equal; [lia|lia|].
      rewrite <- !app_assoc. reflexivity.
    + intros i Hi. destruct (H202 (S i) ltac:(lia)) as (ri & Ei & Si).
      exists ri. split; [|exact Si]. rewrite <- Ei. f_equal. lia.
    + rewrite <- Hk. f_equal. lia.
Qed.

(** X2: [_request] stops polling at the first answer that is not 202.
    If the first [k] GETs (k <= 5) receive 202 and the next one
    receives [r], the wrapper issues exactly [k + 1] GETs, sleeps
    1, 2, ..., 2^(k-1) seconds between them (2^k - 1 in all) and
    decides on [r] alone: [r] itself below status 400, no response and
    a warning from 400 on. *)
Theorem request_polls_until_ready cfg server u p w k r :
  Py.configured (GITHUB_TOKEN cfg) = true ->
  (k <= 5)%nat ->
  let req := mkRequest u (request_headers (setting (GITHUB_TOKEN cfg))) p in
  (forall i, (i < k)%nat ->
     exists ri, server (gets w + i)%nat req = Got ri /\ status_code ri = 202) ->
  server (gets w + k)%nat req = Got r ->
  status_code r <> 202 ->
  let w' := mkWorld (employees w) (metrics w) (clock w + (2 ^ Z.of_nat k - 1))
                    (gets w + k + 1)%nat
                    (events w ++ EvGet req :: backoff req 0 k) in
  _request cfg server u p w =
    if 400 <=? status_code r
    then (Normal None,
          mkWorld (employees w') (metrics w') (clock w') (gets w')
                  (events w'
                   ++ [EvLog WARNING "GitHub API request to %s failed with status %s: %s"]))
    else (Normal (Some r), w').
Proof.
  intros Htok Hk req H202 Hr Hst w'. subst req w'.
  unfold _request. destruct (GITHUB_TOKEN cfg) as [token|]; [|discriminate Htok].
  destruct token as [|c t]; [discriminate Htok|]. cbn [PyStr.is_empty setting] in *.
  unfold try_except.
  match goal with |- context [bind ?m (fun resp => bind (@?f resp) ?g) w] =>
    rewrite <- (bind_assoc m f g w)
  end.
  unfold bind at 1.
  match goal with |- context [bind ?m ?f w] =>
    change (bind m f w)
      with (bind (requests_get server u (request_headers (String c t)) p)
                 (poll server 5 u (request_headers (String c t)) p 0) w)
  end.
  rewrite (get_then_poll server u (request_headers (String c t)) p r Hst k 5 0 w
             Hk ltac:(lia) ltac:(lia) H202 Hr).
  rewrite (backoff_seconds_closed k 0 ltac:(lia)).
  rewrite Z.pow_0_r, Z.mul_1_l.
  destruct (400 <=? status_code r); reflexivity.
Qed.

Lemma request_polls_until_ready_witness :
  fst (_request cfg0
         (fun n _ => if (n <? 2)%nat then Got processing else Got (ok sample_stats))
         stats_url None w0)
  = Normal (Some (ok sample_stats))
  /\ gets (snd (_request cfg0
         (fun n _ => if (n <? 2)%nat then Got processing else Got (ok sample_stats))
         stats_url None w0)) = 3%nat.
Proof.
  rewrite (request_polls_until_ready cfg0
             (fun n _ => if (n <? 2)%nat then Got processing else Got (ok sample_stats))
             stats_url None w0 2 (ok sample_stats)).
  - split; reflexivity.
  - reflexivity.
  - lia.
  - intros i Hi. exists processing. simpl.
    destruct i as [|[|i]]; [split; reflexivity|split; reflexivity|lia].
  - reflexivity.
  - simpl. lia.
Defined.

(** ** How many GETs an update costs *)

Lemma within_fetch_contributor_stats cfg server owner repo :
  within 6 31 (fetch_contributor_stats cfg server owner repo).
Proof.
  unfold fetch_contributor_stats.
  change 6%nat with (6 + 0)%nat. change 31 with (31 + 0).
  apply within_bind; [apply within_request| |lia].
  intros resp. destruct (not_resp resp); [apply within_ret|].
  destruct resp; [|apply within_ret].
  apply (within_try_except 0 0 0 0); [apply within_lift| |lia].
  apply (within_bind 0 0 0 0); [apply within_logger|intros; apply within_ret|lia].
Qed.

Lemma within_search_total_count cfg server owner repo terms :
  within 6 31 (_search_total_count cfg server owner repo terms).
Proof.
  unfold _search_total_count.
  change 6%nat with (6 + 0)%nat. change 31 with (31 + 0).
  apply within_bind; [apply within_request| |lia].
  intros resp. destruct (not_resp resp); [apply within_ret|].
  destruct resp; [|apply within_ret].
  apply (within_try_except 0 0 0 0); [apply within_lift| |lia].
  apply (within_bind 0 0 0 0); [apply within_logger|intros; apply within_ret|lia].
Qed.

Lemma within_db_add_metric e c po pm rv : within 0 0 (db_add_metric e c po pm rv).
Proof. intros w. simpl. repeat split; lia. Qed.

Lemma within_update_metrics_for_employee cfg server emp :
  within 24 124 (update_metrics_for_employee cfg server emp).
Proof.
  unfold update_metrics_for_employee.
  destruct (negb (config_complete cfg)).
  { eapply within_weaken; [| |apply (within_bind 0 0 0 0)];
      [lia|lia|apply within_logger|intros; apply within_ret|lia]. }
  change 24%nat with (6 + (0 + (6 + (6 + (6 + (0 + (0 + 0)))))))%nat.
  change 124 with (31 + (0 + (31 + (31 + (31 + (0 + (0 + 0))))))).
  apply within_bind; [apply within_fetch_contributor_stats| |lia]. intros stats.
  apply within_bind; [apply within_lift| |lia]. intros tm.
  apply within_bind; [apply within_search_total_count| |lia]. intros po.
  apply within_bind; [apply within_search_total_count| |lia]. intros pm.
  apply within_bind; [apply within_search_total_count| |lia]. intros rv.
  apply within_bind; [apply within_db_add_metric| |lia]. intros m.
  apply within_bind; [apply within_logger| |lia]. intros _.
  apply within_ret.
Qed.

Lemma within_update_loop cfg server :
  forall emps new_records,
    within (24 * List.length emps) (124 * Z.of_nat (List.length emps))
           (update_loop cfg server emps new_records).
Proof.
  induction emps as [|emp rest IH]; intros new_records.
  - simpl. apply within_ret.
  - cbn [update_loop List.length].
    replace (24 * S (List.length rest))%nat with (24 + 24 * List.length rest)%nat by lia.
    replace (124 * Z.of_nat (S (List.length rest)))
      with (124 + 124 * Z.of_nat (List.length rest)) by lia.
    apply within_bind; [apply within_update_metrics_for_employee| |lia].
    intros [r|]; apply IH.
Qed.

(** X3: bounds on the traffic of the collector, for every server and
    every outcome (also when an exception ends the run): one
    single-employee update issues at most 24 GETs and sleeps at most
    124 seconds, and a batch at most 24 GETs and 124 seconds per active
    employee. *)
Theorem update_traffic_is_bounded cfg server w :
  (forall emp,
     (gets (snd (update_metrics_for_employee cfg server emp w)) <= gets w + 24)%nat
     /\ clock (snd (update_metrics_for_employee cfg server emp w)) <= clock w + 124)
  /\ (gets (snd (update_metrics_for_all_employees cfg server w))
      <= gets w + 24 * List.length (filter Employee.active (employees w)))%nat
  /\ clock (snd (update_metrics_for_all_employees cfg server w))
     <= clock w + 124 * Z.of_nat (List.length (filter Employee.active (employees w))).
Proof.
  split.
  - intros emp.
    destruct (within_update_metrics_for_employee cfg server emp w) as [[_ H1] [_ H2]].
    split; assumption.
  - unfold update_metrics_for_all_employees, bind, query_active_employees.
    destruct (within_update_loop cfg server
                (filter Employee.active (employees w)) [] w) as [[_ H1] [_ H2]].
    split; assumption.
Qed.

(** ** What the fetches can and cannot raise *)















(** ** Contributor totals on every well-formed payload *)

Lemma sum_weeks_of_opt_counts counts weeks :
  Forall2 is_week_opt counts weeks ->
  forall acc, sum_weeks acc weeks = Normal (acc + sum_opt_counts counts).
Proof.
  induction 1 as [|c week counts weeks (fields & Hw & Hc) _ IH]; intros acc; simpl.
  - rewrite Z.add_0_r. reflexivity.
  - subst week. cbn [Py.get rbind]. rewrite Hc.
    destruct c as [n|]; cbn [option_map Py.add_int rbind count_or_zero];
      rewrite IH; f_equal; lia.
Qed.

Lemma aggregate_step_anonymous totals j :
  is_anonymous j -> aggregate_step totals j = Normal totals.
Proof.
  intros (fields & Hj & Ha). subst j. unfold aggregate_step. cbn [Py.get rbind].
  destruct (Py.lookup "author" fields) as [a|].
  - destruct Ha as [Ha|(author & Ha & Hl)].
    + rewrite Ha. reflexivity.
    + subst a. destruct (Py.truthy (JObj author)); cbn [Py.get rbind].
      * destruct (Py.lookup "login" author) as [l|]; [rewrite Hl|]; reflexivity.
      * reflexivity.
  - reflexivity.
Qed.

Lemma aggregate_step_named login counts j totals :
  is_named login counts j ->
  aggregate_step totals j =
    Normal (dict_set (KStr login) [("commits", sum_opt_counts counts)] totals).
Proof.
  intros (Hne & fields & author & Hj & Ha & Hl & Hw).
  subst j. unfold aggregate_step. cbn [Py.get rbind]. rewrite Ha.
  assert (Ht : Py.truthy (JObj author) = true).
  { destruct author; [discriminate Hl|reflexivity]. }
  rewrite Ht. cbn [Py.get rbind]. rewrite Hl.
  assert (Ht' : Py.truthy (JStr login) = true).
  { destruct login; [contradiction Hne; reflexivity|reflexivity]. }
  rewrite Ht'. cbn [negb].
  destruct (Py.lookup "weeks" fields) as [wv|].
  - destruct wv; try contradiction. cbn [Py.iter rbind].
    rewrite (sum_weeks_of_opt_counts _ _ Hw). reflexivity.
  - subst counts. reflexivity.
Qed.

Lemma dict_get_last_total username default items entries :
  Forall2 is_entry entries items ->
  forall totals,
    exists totals',
      aggregate_loop totals items = Normal totals'
      /\ dict_get (KStr username) default totals'
         = match last_total username entries with
           | Some c => [("commits", c)]
           | None => dict_get (KStr username) default totals
           end.
Proof.
  induction 1 as [|e j entries items He _ IH]; intros totals.
  - exists totals. split; reflexivity.
  - cbn [aggregate_loop last_total]. unfold is_entry in He.
    destruct (fst e) as [login|] eqn:Hf.
    + rewrite (aggregate_step_named _ _ _ totals He). cbn [rbind].
      destruct (IH (dict_set (KStr login) [("commits", sum_opt_counts (snd e))] totals))
        as (totals' & H1 & H2).
      exists totals'. split; [exact H1|]. rewrite H2.
      destruct (last_total username entries); [reflexivity|].
      destruct (String.eqb login username) eqn:E.
      * apply String.eqb_eq in E. subst login. apply dict_get_set_same.
      * apply String.eqb_neq in E. apply dict_get_set_other. congruence.
    + rewrite (aggregate_step_anonymous totals j He). cbn [rbind].
      destruct (IH totals) as (totals' & H1 & H2).
      exists totals'. split; [exact H1|]. rewrite H2.
      destruct (last_total username entries); reflexivity.
Qed.

(** X7: on every payload made of anonymous entries (author missing,
    null or empty, or login missing, null or empty) and named entries
    (weekly entries with or without a count [c], [weeks] possibly
    missing), [_aggregate_contributor_totals] does not raise, anonymous
    entries are ignored, a week without [c] counts 0, and when a login
    occurs more than once its last entry replaces the earlier ones: the
    commit total of a username is the sum of the last entry with that
    login, and 0 when there is none. *)
Theorem commit_total_last_entry_wins entries items username :
  Forall2 is_entry entries items ->
  commit_total (JArr items) username =
    Normal (match last_total username entries with Some c => c | None => 0 end).
Proof.
  intros Hs. unfold commit_total, _aggregate_contributor_totals.
  cbn [Py.iter rbind].
  destruct (dict_get_last_total username [("commits", 0)] items entries Hs [])
    as (totals' & H1 & H2).
  rewrite H1. cbn [rbind]. rewrite H2.
  destruct (last_total username entries); reflexivity.
Qed.

Lemma commit_total_last_entry_wins_witness :
  commit_total (JArr mixed_stats) "alice" = Normal 4.
Proof.
  apply (commit_total_last_entry_wins
           [(Some "alice", [Some 3]); (None, []); (Some "alice", [Some 4; None])]
           mixed_stats "alice").
  repeat constructor.
  - discriminate.
  - eexists _, _. repeat split; try reflexivity.
    repeat constructor. eexists. split; reflexivity.
  - eexists. split; [reflexivity|]. left. reflexivity.
  - discriminate.
  - eexists _, _. repeat split; try reflexivity.
    repeat constructor; eexists; split; reflexivity.
Defined.

(** ** The batch on well-formed answers *)








(** ** The constraints of the tables are kept *)

Lemma update_metrics_for_employee_new_id cfg server emp w m w' :
  update_metrics_for_employee cfg server emp w = (Normal (Some m), w') ->
  Metric.id m = next_id (map Metric.id (metrics w)).
Proof.
  unfold update_metrics_for_employee.
  destruct (config_complete cfg); cbn [negb]; [|discriminate].
  run_framed (frames_fetch_contributor_stats cfg server
                (setting (REPO_OWNER cfg)) (setting (REPO_NAME cfg)));
    [|discriminate].
  unfold bind at 1. unfold lift at 1.
  destruct (_aggregate_contributor_totals v) as [tm|e]; cbn iota beta; [|discriminate].
  run_framed (frames_search_total_count cfg server
                (setting (REPO_OWNER cfg)) (setting (REPO_NAME cfg))
                ["is:pr"; "author:" ++ Employee.github_username emp]);
    [|discriminate].
  run_framed (frames_search_total_count cfg server
                (setting (REPO_OWNER cfg)) (setting (REPO_NAME cfg))
                ["is:pr"; "author:" ++ Employee.github_username emp; "is:merged"]);
    [|discriminate].
  run_framed (frames_search_total_count cfg server
                (setting (REPO_OWNER cfg)) (setting (REPO_NAME cfg))
                ["is:pr"; "reviewed-by:" ++ Employee.github_username emp]);
    [|discriminate].
  destruct F as [Fa Fb], F0 as [Fc Fd], F1 as [Fe Ff], F2 as [Fg Fh].
  unfold bind, db_add_metric, logger, emit, ret. simpl.
  intros Heq; inversion Heq; subst; simpl. congruence.
Qed.

Lemma update_keeps_metric_constraints cfg server emp w :
  In emp (employees w) ->
  NoDup (map Metric.id (metrics w)) -> no_orphan_metric w ->
  NoDup (map Metric.id (metrics (snd (update_metrics_for_employee cfg server emp w))))
  /\ no_orphan_metric (snd (update_metrics_for_employee cfg server emp w)).
Proof.
  intros Hin Hnd Hno.
  destruct (update_metrics_for_employee cfg server emp w) as [res w'] eqn:E.
  pose proof (update_metrics_for_employee_store _ _ _ _ _ _ E) as [He Hm].
  cbn [snd]. unfold no_orphan_metric. rewrite He.
  destruct res as [[m|]|e].
  - destruct Hm as (Hm & Hid & _).
    pose proof (update_metrics_for_employee_new_id _ _ _ _ _ _ E) as Hnew.
    rewrite Hm. split.
    + rewrite map_app. apply NoDup_snoc; [exact Hnd|].
      simpl. rewrite Hnew. intros Hi. apply next_id_fresh in Hi. lia.
    + intros x Hx. apply in_app_or in Hx. destruct Hx as [Hx|[Hx|[]]].
      * exact (Hno x Hx).
      * subst x. exists emp. split; [exact Hin|]. symmetry. exact Hid.
  - destruct Hm as [Hm _]. rewrite Hm. split; [exact Hnd|exact Hno].
  - rewrite Hm. split; [exact Hnd|exact Hno].
Qed.

Lemma update_loop_keeps_metric_constraints cfg server :
  forall emps new_records w,
    (forall emp, In emp emps -> In emp (employees w)) ->
    NoDup (map Metric.id (metrics w)) -> no_orphan_metric w ->
    NoDup (map Metric.id (metrics (snd (update_loop cfg server emps new_records w))))
    /\ no_orphan_metric (snd (update_loop cfg server emps new_records w)).
Proof.
  induction emps as [|emp rest IH]; intros new_records w Hsub Hnd Hno.
  - simpl. split; assumption.
  - cbn [update_loop]. unfold bind.
    destruct (update_keeps_metric_constraints cfg server emp w
                (Hsub emp (or_introl eq_refl)) Hnd Hno) as [H1 H2].
    destruct (update_metrics_for_employee cfg server emp w) as [res w1] eqn:E.
    pose proof (update_metrics_for_employee_store _ _ _ _ _ _ E) as [He _].
    cbn [snd] in H1, H2.
    assert (Hsub' : forall x, In x rest -> In x (employees w1)).
    { intros x Hx. rewrite He. apply Hsub. right. exact Hx. }
    destruct res as [[m|]|e].
    + apply IH; assumption.
    + apply IH; assumption.
    + cbn [snd]. split; assumption.
Qed.

Lemma unique_column_after_delete {Row Col} (column : Row -> Col)
    (kept : Row -> bool) (table : list Row) :
  NoDup (map column table) -> NoDup (map column (filter kept table)).
Proof.
  induction table as [|row table IH]; cbn [filter map]; intros Huniq.
  - constructor.
  - apply NoDup_cons_iff in Huniq. destruct Huniq as [Hfresh Hrest].
    destruct (kept row); cbn [map]; [|exact (IH Hrest)].
    apply NoDup_cons; [|exact (IH Hrest)].
    intros Hin. apply Hfresh. apply in_map_iff in Hin.
    destruct Hin as (other & Hcol & Hother). apply filter_In in Hother.
    rewrite <- Hcol. apply in_map. exact (proj1 Hother).
Qed.

Lemma delete_keeps_store_ok employee_id req w :
  store_ok w -> store_ok (snd (delete_employee employee_id req w)).
Proof.
  intros [Hid Hun]. unfold delete_employee.
  destruct (method req); [exact (conj Hid Hun)|].
  destruct (get_or_404 employee_id w); [|exact (conj Hid Hun)].
  unfold store_ok, db_delete_employee. cbn [snd employees].
  split; apply unique_column_after_delete; assumption.
Qed.

Lemma no_orphan_after_add req w :
  no_orphan_metric w -> no_orphan_metric (snd (add_employee req w)).
Proof.
  intros Hno. unfold add_employee.
  destruct (method req); [exact Hno|].
  destruct (PyStr.is_empty _ || PyStr.is_empty _); [exact Hno|].
  destruct (is_some _); [exact Hno|].
  intros m Hm. cbn in Hm. destruct (Hno m Hm) as (e & He & Hid).
  exists e. split; [|exact Hid]. cbn. apply in_or_app. left. exact He.
Qed.

Lemma no_orphan_after_edit employee_id req w :
  no_orphan_metric w -> no_orphan_metric (snd (edit_employee employee_id req w)).
Proof.
  intros Hno. unfold edit_employee.
  destruct (get_or_404 employee_id w) as [employee|]; [|exact Hno].
  destruct (method req); [exact Hno|].
  destruct (PyStr.is_empty _ || PyStr.is_empty _); [exact Hno|].
  destruct (negb _ && is_some _); [exact Hno|].
  intros m Hm. cbn in Hm. destruct (Hno m Hm) as (e & He & Hid).
  eexists. split; [cbn; apply in_map; exact He|].
  rewrite <- Hid. unfold updated_row. destruct (Employee.id e =? _); reflexivity.
Qed.

Lemma metrics_after_add req w : metrics (snd (add_employee req w)) = metrics w.
Proof.
  unfold add_employee. destruct (method req); [reflexivity|].
  destruct (PyStr.is_empty _ || PyStr.is_empty _); [reflexivity|].
  destruct (is_some _); reflexivity.
Qed.

Lemma metrics_after_edit employee_id req w :
  metrics (snd (edit_employee employee_id req w)) = metrics w.
Proof.
  unfold edit_employee. destruct (get_or_404 employee_id w); [|reflexivity].
  destruct (method req); [reflexivity|].
  destruct (PyStr.is_empty _ || PyStr.is_empty _); [reflexivity|].
  destruct (negb _ && is_some _); reflexivity.
Qed.

(** X9: every operation that writes keeps the constraints of the two
    tables.  If employee ids and Metric ids are distinct, usernames are
    unique and every Metric row has its employee, the same holds after
    any request to the registration, edit and delete views and after a
    batch update on any server, however it ends. *)
Theorem writes_keep_db_constraints w :
  db_ok w ->
  (forall req, db_ok (snd (add_employee req w)))
  /\ (forall employee_id req, db_ok (snd (edit_employee employee_id req w)))
  /\ (forall employee_id req, db_ok (snd (delete_employee employee_id req w)))
  /\ (forall cfg server, db_ok (snd (update_metrics_for_all_employees cfg server w))).
Proof.
  intros (Hs & Hm & Hno). split; [|split; [|split]].
  - intros req. split; [apply add_employee_store_ok; exact Hs|].
    split; [rewrite metrics_after_add; exact Hm|apply no_orphan_after_add; exact Hno].
  - intros employee_id req. split; [apply edit_employee_store_ok; exact Hs|].
    split; [rewrite metrics_after_edit; exact Hm|apply no_orphan_after_edit; exact Hno].
  - intros employee_id req. split; [apply delete_keeps_store_ok; exact Hs|].
    unfold delete_employee. destruct (method req) eqn:Hmeth; [split; assumption|].
    destruct (get_or_404 employee_id w) as [e|] eqn:Hg; [|split; assumption].
    cbn [snd]. split.
    + unfold db_delete_employee. cbn [metrics]. apply unique_column_after_delete. exact Hm.
    + intros m Hx. unfold db_delete_employee in *. cbn [metrics employees] in *.
      apply filter_In in Hx. destruct Hx as [Hx1 Hx2].
      destruct (Hno m Hx1) as (e' & He1 & He2).
      exists e'. split; [|exact He2].
      apply filter_In. split; [exact He1|]. rewrite He2. exact Hx2.
  - intros cfg server.
    unfold update_metrics_for_all_employees, bind, query_active_employees.
    destruct (update_loop_keeps_metric_constraints cfg server
                (filter Employee.active (employees w)) [] w) as [H1 H2];
      try assumption.
    { intros emp He. apply filter_In in He. exact (proj1 He). }
    split; [|split; assumption].
    destruct (update_loop cfg server (filter Employee.active (employees w)) [] w)
      as [res w'] eqn:E.
    apply update_loop_store in E. destruct E as [He _].
    unfold store_ok. cbn [snd]. rewrite He. exact Hs.
Qed.

Lemma db_ok_w1 : db_ok w1.
Proof.
  split; [exact store_ok_w0|]. split.
  - simpl. repeat constructor; simpl; lia.
  - intros m [H|[H|[H|[]]]]; subst m; simpl.
    + exists alice. split; [left; reflexivity|reflexivity].
    + exists bob. split; [right; left; reflexivity|reflexivity].
    + exists alice. split; [left; reflexivity|reflexivity].
Qed.

Lemma writes_keep_db_constraints_witness :
  db_ok (snd (delete_employee 1 (post []) w1))
  /\ db_ok (snd (update_metrics_for_all_employees cfg0 github w1)).
Proof.
  destruct (writes_keep_db_constraints w1 db_ok_w1) as (_ & _ & H3 & H4).
  split; [apply H3|apply H4].
Defined.

(** ** Registering, editing and deleting *)

Lemma find_app_none {A} (f : A -> bool) (l l' : list A) :
  find f l = None -> find f (l ++ l') = find f l'.
Proof.
  induction l as [|a l IH]; simpl; intros H; [reflexivity|].
  destruct (f a); [discriminate H|]. apply IH. exact H.
Qed.

Lemma query_by_username_absent username w :
  ~ In username (map Employee.github_username (employees w)) ->
  query_by_username username w = None.
Proof.
  intros Hni. unfold query_by_username.
  destruct (find _ (employees w)) as [e|] eqn:E; [|reflexivity].
  apply find_some in E. destruct E as [E1 E2]. apply String.eqb_eq in E2.
  exfalso. apply Hni. rewrite <- E2. apply in_map. exact E1.
Qed.

Lemma get_or_404_fresh w :
  get_or_404 (next_id (map Employee.id (employees w))) w = None.
Proof.
  unfold get_or_404. destruct (find _ (employees w)) as [e|] eqn:E; [|reflexivity].
  apply find_some in E. destruct E as [E1 E2]. apply Z.eqb_eq in E2.
  pose proof (next_id_fresh _ _ (in_map Employee.id _ _ E1)) as H. lia.
Qed.

Lemma add_employee_registers_core req w :
  method req = POST ->
  submitted_name req <> "" ->
  submitted_username req <> "" ->
  ~ In (submitted_username req) (map Employee.github_username (employees w)) ->
  let e := Employee.mk (next_id (map Employee.id (employees w)))
                       (submitted_name req) (submitted_username req)
                       (submitted_active req) in
  let w' := snd (add_employee req w) in
  fst (add_employee req w)
    = mkView (Redirect "main.index") [("success", "Employee registered successfully.")]
  /\ employees w' = (employees w ++ [e])%list
  /\ metrics w' = metrics w
  /\ (forall x, In x (employees w) -> Employee.id x < Employee.id e)
  /\ query_by_username (submitted_username req) w' = Some e
  /\ get_or_404 (Employee.id e) w' = Some e.
Proof.
  intros Hpost Hn Hu Hfresh e w'. subst e w'.
  pose proof (query_by_username_absent _ _ Hfresh) as Hq.
  unfold add_employee. rewrite Hpost.
  fold (submitted_name req) (submitted_username req) (submitted_active req).
  rewrite Hq.
  destruct (submitted_name req) as [|c1 s1] eqn:En; [contradiction Hn; reflexivity|].
  destruct (submitted_username req) as [|c2 s2] eqn:Eu; [contradiction Hu; reflexivity|].
  cbn [PyStr.is_empty orb is_some fst snd].
  unfold db_add_employee. cbn [employees metrics Employee.id].
  repeat split.
  - intros x Hx. apply next_id_fresh. apply in_map. exact Hx.
  - unfold query_by_username in *. cbn [employees].
    rewrite find_app_none by exact Hq. cbn [find Employee.github_username].
    rewrite String.eqb_refl. reflexivity.
  - pose proof (get_or_404_fresh w) as Hg. unfold get_or_404 in *. cbn [employees].
    rewrite find_app_none by exact Hg. cbn [find Employee.id].
    rewrite Z.eqb_refl. reflexivity.
Qed.

(** X10: a POST to the registration view with a non-blank name and a
    non-blank username that nobody has redirects to the index and
    appends exactly one employee: a fresh id, the stripped name and
    username, active if and only if the [active] field is filled.  The
    Metric table is untouched, and the new row is what a lookup by its
    username and by its id then finds. *)
Theorem add_employee_registers req w :
  method req = POST ->
  submitted_name req <> "" ->
  submitted_username req <> "" ->
  ~ In (submitted_username req) (map Employee.github_username (employees w)) ->
  let e := Employee.mk (next_id (map Employee.id (employees w)))
                       (submitted_name req) (submitted_username req)
                       (submitted_active req) in
  let w' := snd (add_employee req w) in
  fst (add_employee req w)
    = mkView (Redirect "main.index") [("success", "Employee registered successfully.")]
  /\ employees w' = (employees w ++ [e])%list
  /\ metrics w' = metrics w
  /\ (forall x, In x (employees w) -> Employee.id x < Employee.id e)
  /\ query_by_username (submitted_username req) w' = Some e
  /\ get_or_404 (Employee.id e) w' = Some e.
Proof. exact (add_employee_registers_core req w). Qed.

Lemma add_employee_registers_witness :
  employees (snd (add_employee
                    (post [("name", " Erin "); ("github_username", "erin"); ("active", "on")])
                    w0))
  = (employees w0 ++ [Employee.mk 5 "Erin" "erin" true])%list.
Proof.
  destruct (add_employee_registers
              (post [("name", " Erin "); ("github_username", "erin"); ("active", "on")]) w0)
    as (_ & H & _).
  - reflexivity.
  - discriminate.
  - discriminate.
  - simpl. intuition discriminate.
  - exact H.
Defined.

Lemma find_updated_row i name u active l e :
  find (fun x => Employee.id x =? i) l = Some e ->
  find (fun x => Employee.id x =? i) (map (updated_row i name u active) l)
  = Some (Employee.mk i name u active).
Proof.
  induction l as [|a l IH]; cbn [find map]; intros H; [discriminate H|].
  unfold updated_row at 1 2. destruct (Employee.id a =? i) eqn:E.
  - cbn [Employee.id]. rewrite E. apply Z.eqb_eq in E. rewrite E. reflexivity.
  - rewrite E. apply IH. exact H.
Qed.

Lemma find_other_row i j name u active l :
  j <> i ->
  find (fun x => Employee.id x =? j) (map (updated_row i name u active) l)
  = find (fun x => Employee.id x =? j) l.
Proof.
  intros Hne. induction l as [|a l IH]; cbn [find map]; [reflexivity|].
  unfold updated_row at 1 2. destruct (Employee.id a =? i) eqn:E.
  - cbn [Employee.id]. apply Z.eqb_eq in E.
    replace (Employee.id a =? j) with false by (symmetry; apply Z.eqb_neq; lia).
    exact IH.
  - destruct (Employee.id a =? j); [reflexivity|exact IH].
Qed.

(** X11: a POST to the edit view of an existing employee with a
    non-blank name and a non-blank username that is the employee's own
    or that nobody has redirects to the employee's page and rewrites
    that row alone: the id is kept, the name, username and active flag
    are the submitted ones, every other employee is found as before,
    the number of employees and the Metric table do not change. *)
Theorem edit_employee_updates employee_id req w e :
  get_or_404 employee_id w = Some e ->
  method req = POST ->
  submitted_name req <> "" ->
  submitted_username req <> "" ->
  submitted_username req = Employee.github_username e
  \/ ~ In (submitted_username req) (map Employee.github_username (employees w)) ->
  let w' := snd (edit_employee employee_id req w) in
  fst (edit_employee employee_id req w)
    = mkView (Redirect "main.employee_detail")
             [("success", "Employee updated successfully.")]
  /\ get_or_404 employee_id w'
     = Some (Employee.mk employee_id (submitted_name req) (submitted_username req)
                         (submitted_active req))
  /\ (forall j, j <> employee_id -> get_or_404 j w' = get_or_404 j w)
  /\ map Employee.id (employees w') = map Employee.id (employees w)
  /\ metrics w' = metrics w.
Proof.
  intros Hg Hpost Hn Hu Hok w'. subst w'.
  pose proof (get_or_404_some _ _ _ Hg) as [Hin Hid].
  unfold edit_employee. rewrite Hg, Hpost.
  fold (submitted_name req) (submitted_username req) (submitted_active req).
  assert (Hc : negb (String.eqb (submitted_username req) (Employee.github_username e))
               && is_some (query_by_username (submitted_username req) w) = false).
  { destruct Hok as [Hok|Hok].
    - rewrite Hok, String.eqb_refl. reflexivity.
    - rewrite (query_by_username_absent _ _ Hok). apply andb_false_r. }
  rewrite Hc.
  destruct (submitted_name req) as [|c1 s1] eqn:En; [contradiction Hn; reflexivity|].
  destruct (submitted_username req) as [|c2 s2] eqn:Eu; [contradiction Hu; reflexivity|].
  cbn [PyStr.is_empty orb fst snd]. unfold db_update_employee, get_or_404.
  cbn [employees metrics]. rewrite Hid.
  split; [reflexivity|]. split; [|split; [|split]].
  - apply (find_updated_row _ _ _ _ _ e). exact Hg.
  - intros j Hj. apply find_other_row. exact Hj.
  - apply updated_rows_ids.
  - reflexivity.
Qed.

Lemma edit_employee_updates_witness :
  get_or_404 2 (snd (edit_employee 2
                       (post [("name", "Robert"); ("github_username", "bob")]) w0))
  = Some (Employee.mk 2 "Robert" "bob" false).
Proof.
  destruct (edit_employee_updates 2
              (post [("name", "Robert"); ("github_username", "bob")]) w0 bob)
    as (_ & H & _).
  - reflexivity.
  - reflexivity.
  - discriminate.
  - discriminate.
  - left. reflexivity.
  - exact H.
Defined.




Lemma filter_all {A} (p : A -> bool) (l : list A) :
  (forall x, In x l -> p x = true) -> filter p l = l.
Proof.
  induction l as [|a l IH]; simpl; intros H; [reflexivity|].
  rewrite (H a (or_introl eq_refl)). f_equal. apply IH.
  intros x Hx. apply H. right. exact Hx.
Qed.

(** X13: registering an employee and deleting it again is a round
    trip.  When every Metric row has its employee, a successful
    registration followed by a POST to the delete view for the new id
    leaves both tables exactly as they were. *)
Theorem register_then_delete req req' w :
  no_orphan_metric w ->
  method req = POST -> method req' = POST ->
  submitted_name req <> "" ->
  submitted_username req <> "" ->
  ~ In (submitted_username req) (map Employee.github_username (employees w)) ->
  let new_id := next_id (map Employee.id (employees w)) in
  let w' := snd (delete_employee new_id req' (snd (add_employee req w))) in
  employees w' = employees w /\ metrics w' = metrics w.
Proof.
  intros Hno Hpost Hpost' Hn Hu Hfresh new_id w'. subst new_id w'.
  destruct (add_employee_registers_core req w Hpost Hn Hu Hfresh)
    as (_ & He & Hm & Hlt & _ & Hg).
  cbn [Employee.id] in Hg, Hlt.
  unfold delete_employee. rewrite Hpost', Hg. cbn [snd Employee.id].
  unfold db_delete_employee. cbn [employees metrics]. rewrite He, Hm.
  split.
  - rewrite filter_app. simpl. rewrite Z.eqb_refl. simpl. rewrite app_nil_r.
    apply filter_all. intros x Hx. apply negb_true_iff, Z.eqb_neq.
    specialize (Hlt x Hx). lia.
  - apply filter_all. intros m Hx. apply negb_true_iff, Z.eqb_neq.
    destruct (Hno m Hx) as (e & He1 & He2). specialize (Hlt e He1). lia.
Qed.

Lemma no_orphan_w1 : no_orphan_metric w1.
Proof. exact (proj2 (proj2 db_ok_w1)). Qed.

Lemma register_then_delete_witness :
  employees (snd (delete_employee 5 (post [])
                    (snd (add_employee
                            (post [("name", "Erin"); ("github_username", "erin")]) w1))))
  = employees w1.
Proof.
  destruct (register_then_delete
              (post [("name", "Erin"); ("github_username", "erin")]) (post []) w1)
    as [H _].
  - exact no_orphan_w1.
  - reflexivity.
  - reflexivity.
  - discriminate.
  - discriminate.
  - simpl. intuition discriminate.
  - exact H.
Defined.

Lemma filter_none {A} (p : A -> bool) (l : list A) :
  (forall x, In x l -> p x = false) -> filter p l = [].
Proof.
  induction l as [|a l IH]; simpl; intros H; [reflexivity|].
  rewrite (H a (or_introl eq_refl)). apply IH.
  intros x Hx. apply H. right. exact Hx.
Qed.

(** X14: unticking [active] in the edit view takes the employee out of
    the updates.  After an accepted edit that submits no [active]
    field, a batch update on any server and with any configuration,
    however it ends, adds no Metric row for that employee: the
    employee's snapshots are the ones from before the edit. *)
Theorem deactivated_employee_gets_no_snapshot employee_id req w e cfg server :
  get_or_404 employee_id w = Some e ->
  method req = POST ->
  submitted_name req <> "" ->
  submitted_username req <> "" ->
  submitted_username req = Employee.github_username e
  \/ ~ In (submitted_username req) (map Employee.github_username (employees w)) ->
  submitted_active req = false ->
  let w1 := snd (edit_employee employee_id req w) in
  let w2 := snd (update_metrics_for_all_employees cfg server w1) in
  metrics_of employee_id w2 = metrics_of employee_id w.
Proof.
  intros Hg Hpost Hn Hu Hok Hact w1 w2. subst w2.
  assert (Hm1 : metrics w1 = metrics w) by apply metrics_after_edit.
  assert (Hrows : forall x, In x (employees w1) -> Employee.id x = employee_id ->
                            Employee.active x = false).
  { subst w1. revert Hn Hu. unfold edit_employee. rewrite Hg, Hpost.
    fold (submitted_name req) (submitted_username req) (submitted_active req).
    assert (Hc : negb (String.eqb (submitted_username req) (Employee.github_username e))
                 && is_some (query_by_username (submitted_username req) w) = false).
    { destruct Hok as [Hok|Hok].
      - rewrite Hok, String.eqb_refl. reflexivity.
      - rewrite (query_by_username_absent _ _ Hok). apply andb_false_r. }
    rewrite Hc, Hact.
    destruct (submitted_name req); [intros Hn; contradiction Hn; reflexivity|].
    destruct (submitted_username req); [intros _ Hu; contradiction Hu; reflexivity|].
    intros _ _ x Hx Hid. cbn in Hx. apply in_map_iff in Hx.
    destruct Hx as (y & Hy & _). subst x. unfold updated_row in *.
    apply get_or_404_some in Hg. destruct Hg as [_ Hg]. rewrite Hg in *.
    destruct (Employee.id y =? employee_id) eqn:E; [reflexivity|].
    apply Z.eqb_neq in E. contradiction. }
  unfold update_metrics_for_all_employees, bind, query_active_employees.
  destruct (update_loop cfg server (filter Employee.active (employees w1)) [] w1)
    as [res w2] eqn:E.
  apply update_loop_store in E. destruct E as (_ & created & H2 & H3 & _).
  cbn [snd]. unfold metrics_of. rewrite H2, Hm1, filter_app.
  rewrite (filter_none _ created); [apply app_nil_r|].
  intros m Hm. apply Z.eqb_neq. intros Heq.
  rewrite Forall_forall in H3. specialize (H3 m Hm).
  apply in_map_iff in H3. destruct H3 as (x & Hx1 & Hx2).
  apply filter_In in Hx2. destruct Hx2 as [Hx2 Hx3].
  rewrite (Hrows x Hx2 ltac:(congruence)) in Hx3. discriminate Hx3.
Qed.

Lemma deactivated_employee_gets_no_snapshot_witness :
  metrics_of 1
    (snd (update_metrics_for_all_employees cfg0 github
            (snd (edit_employee 1
                    (post [("name", "Alice"); ("github_username", "alice")]) w1))))
  = metrics_of 1 w1.
Proof.
  apply (deactivated_employee_gets_no_snapshot 1
           (post [("name", "Alice"); ("github_username", "alice")]) w1 alice cfg0 github).
  - reflexivity.
  - reflexivity.
  - discriminate.
  - discriminate.
  - left. reflexivity.
  - reflexivity.
Defined.

(** ** The dashboards *)

Lemma newest_spec rows :
  match newest rows with
  | None => rows = []
  | Some m =>
      In m rows /\ forall x, In x rows -> Metric.timestamp x <= Metric.timestamp m
  end.
Proof.
  induction rows as [|a rows IH]; simpl; [reflexivity|].
  destruct (newest rows) as [m'|].
  - destruct IH as [Hin Hmax].
    destruct (Metric.timestamp a <? Metric.timestamp m') eqn:E.
    + apply Z.ltb_lt in E. split; [right; exact Hin|].
      intros x [Hx|Hx]; [subst; lia|exact (Hmax x Hx)].
    + apply Z.ltb_ge in E. split; [left; reflexivity|].
      intros x [Hx|Hx]; [subst; lia|]. specialize (Hmax x Hx). lia.
  - subst rows. split; [left; reflexivity|].
    intros x [Hx|[]]. subst. lia.
Qed.

Lemma latest_metric_is_newest_aux employee w :
  match _latest_metric employee w with
  | Some latest => In latest (metrics w)
  | None => True
  end.
Proof.
  unfold _latest_metric, metrics_of.
  pose proof (newest_spec (filter (fun m => Metric.employee_id m =? Employee.id employee)
                                  (metrics w))) as H.
  destruct (newest _) as [latest|]; [|exact I].
  destruct H as [Hin _]. apply filter_In in Hin. exact (proj1 Hin).
Qed.

(** X15: [_latest_metric] returns nothing exactly when the employee has
    no snapshot; otherwise it returns one of the employee's own rows,
    and no row of that employee has a later timestamp. *)
Theorem latest_metric_is_newest employee w :
  match _latest_metric employee w with
  | None => forall m, In m (metrics w) -> Metric.employee_id m <> Employee.id employee
  | Some latest =>
      In latest (metrics w)
      /\ Metric.employee_id latest = Employee.id employee
      /\ forall m, In m (metrics w) ->
                   Metric.employee_id m = Employee.id employee ->
                   Metric.timestamp m <= Metric.timestamp latest
  end.
Proof.
  unfold _latest_metric, metrics_of.
  pose proof (newest_spec (filter (fun m => Metric.employee_id m =? Employee.id employee)
                                  (metrics w))) as H.
  destruct (newest _) as [latest|].
  - destruct H as [Hin Hmax]. apply filter_In in Hin. destruct Hin as [Hin Hid].
    split; [exact Hin|]. split; [apply Z.eqb_eq; exact Hid|].
    intros m Hm Hmid. apply Hmax. apply filter_In. split; [exact Hm|].
    apply Z.eqb_eq. exact Hmid.
  - intros m Hm Hid.
    assert (Hf : In m (filter (fun m => Metric.employee_id m =? Employee.id employee)
                              (metrics w))).
    { apply filter_In. split; [exact Hm|]. apply Z.eqb_eq. exact Hid. }
    rewrite H in Hf. contradiction.
Qed.

(** *** Sorting *)

Lemma insert_by_timestamp_perm m l : Permutation (m :: l) (insert_by_timestamp m l).
Proof.
  induction l as [|x l IH]; simpl; [apply Permutation_refl|].
  destruct (Metric.timestamp m <=? Metric.timestamp x); [apply Permutation_refl|].
  eapply Permutation_trans; [apply perm_swap|]. apply perm_skip. exact IH.
Qed.

Lemma order_by_timestamp_perm rows : Permutation rows (order_by_timestamp rows).
Proof.
  induction rows as [|m rows IH]; simpl; [apply Permutation_refl|].
  eapply Permutation_trans; [apply perm_skip; exact IH|].
  apply insert_by_timestamp_perm.
Qed.



Lemma insert_string_perm s l : Permutation (s :: l) (insert_string s l).
Proof.
  induction l as [|x l IH]; simpl; [apply Permutation_refl|].
  destruct (String.leb s x); [apply Permutation_refl|].
  eapply Permutation_trans; [apply perm_swap|]. apply perm_skip. exact IH.
Qed.

Lemma sorted_strings_perm keys : Permutation keys (sorted_strings keys).
Proof.
  induction keys as [|s keys IH]; simpl; [apply Permutation_refl|].
  eapply Permutation_trans; [apply perm_skip; exact IH|].
  apply insert_string_perm.
Qed.

Lemma leb_false_flip s x : String.leb s x = false -> String.leb x s = true.
Proof.
  intros H. destruct (String.leb_total s x) as [H1|H1]; [congruence|exact H1].
Qed.

Lemma insert_string_sorted s l :
  Sorted (fun a b => String.leb a b = true) l ->
  Sorted (fun a b => String.leb a b = true) (insert_string s l).
Proof.
  induction 1 as [|x l Hl IH Hhd]; simpl; [repeat constructor|].
  destruct (String.leb s x) eqn:E.
  - constructor; [constructor; assumption|constructor; exact E].
  - constructor; [exact IH|].
    destruct l as [|y l]; simpl.
    + constructor. apply leb_false_flip. exact E.
    + destruct (String.leb s y); constructor;
        [apply leb_false_flip; exact E|inversion Hhd; assumption].
Qed.

Lemma sorted_strings_sorted keys :
  Sorted (fun a b => String.leb a b = true) (sorted_strings keys).
Proof.
  induction keys as [|s keys IH]; simpl; [constructor|].
  apply insert_string_sorted. exact IH.
Qed.

Lemma insert_by_name_perm e l : Permutation (e :: l) (insert_by_name e l).
Proof.
  induction l as [|x l IH]; simpl; [apply Permutation_refl|].
  destruct (String.leb (Employee.name e) (Employee.name x)); [apply Permutation_refl|].
  eapply Permutation_trans; [apply perm_swap|]. apply perm_skip. exact IH.
Qed.

Lemma order_by_name_perm rows : Permutation rows (order_by_name rows).
Proof.
  induction rows as [|e rows IH]; simpl; [apply Permutation_refl|].
  eapply Permutation_trans; [apply perm_skip; exact IH|].
  apply insert_by_name_perm.
Qed.

Lemma insert_by_name_sorted e l :
  Sorted (fun a b => String.leb (Employee.name a) (Employee.name b) = true) l ->
  Sorted (fun a b => String.leb (Employee.name a) (Employee.name b) = true)
         (insert_by_name e l).
Proof.
  induction 1 as [|x l Hl IH Hhd]; simpl; [repeat constructor|].
  destruct (String.leb (Employee.name e) (Employee.name x)) eqn:E.
  - constructor; [constructor; assumption|constructor; exact E].
  - constructor; [exact IH|].
    destruct l as [|y l]; simpl.
    + constructor. apply leb_false_flip. exact E.
    + destruct (String.leb (Employee.name e) (Employee.name y)); constructor;
        [apply leb_false_flip; exact E|inversion Hhd; assumption].
Qed.

Lemma order_by_name_sorted rows :
  Sorted (fun a b => String.leb (Employee.name a) (Employee.name b) = true)
         (order_by_name rows).
Proof.
  induction rows as [|e rows IH]; simpl; [constructor|].
  apply insert_by_name_sorted. exact IH.
Qed.

(** *** Totals *)

Lemma counts_eq (a b : Counts.t) :
  Counts.commits a = Counts.commits b ->
  Counts.prs_opened a = Counts.prs_opened b ->
  Counts.prs_merged a = Counts.prs_merged b ->
  Counts.reviews a = Counts.reviews b ->
  a = b.
Proof. destruct a, b; simpl; intros; subst; reflexivity. Qed.

Ltac counts_lia := apply counts_eq; simpl; lia.

Lemma add_counts_assoc a b c :
  add_counts (add_counts a b) c = add_counts a (add_counts b c).
Proof. counts_lia. Qed.

Lemma add_counts_comm a b : add_counts a b = add_counts b a.
Proof. counts_lia. Qed.

Lemma add_counts_zero_r a : add_counts a zero_counts = a.
Proof. counts_lia. Qed.

Lemma add_counts_zero_l a : add_counts zero_counts a = a.
Proof. counts_lia. Qed.

Lemma total_of_app l l' : total_of (l ++ l') = add_counts (total_of l) (total_of l').
Proof.
  induction l as [|m l IH]; simpl.
  - rewrite add_counts_zero_l. reflexivity.
  - unfold total_of in *. simpl. rewrite IH. rewrite add_counts_assoc. reflexivity.
Qed.

Lemma total_of_perm l l' : Permutation l l' -> total_of l = total_of l'.
Proof.
  induction 1 as [|x l l' _ IH|x y l|l l' l'' _ IH1 _ IH2].
  - reflexivity.
  - unfold total_of in *. simpl. rewrite IH. reflexivity.
  - unfold total_of. simpl. rewrite <- !add_counts_assoc.
    rewrite (add_counts_comm (counts_of y)). reflexivity.
  - congruence.
Qed.

Lemma filter_perm {A} (p : A -> bool) l l' :
  Permutation l l' -> Permutation (filter p l) (filter p l').
Proof.
  induction 1 as [|x l l' _ IH|x y l|l l' l'' _ IH1 _ IH2]; simpl.
  - constructor.
  - destruct (p x); [apply perm_skip|]; exact IH.
  - destruct (p x), (p y); try apply Permutation_refl. apply perm_swap.
  - eapply Permutation_trans; eassumption.
Qed.

Lemma add_row_counted totals m :
  counted m -> add_row totals m = Normal (add_counts totals (counts_of m)).
Proof.
  intros (H1 & H2 & H3 & H4). unfold add_row, counts_of, add_counts.
  destruct (Metric.commits m); [|contradiction H1; reflexivity].
  destruct (Metric.prs_opened m); [|contradiction H2; reflexivity].
  destruct (Metric.prs_merged m); [|contradiction H3; reflexivity].
  destruct (Metric.reviews m); [|contradiction H4; reflexivity].
  reflexivity.
Qed.

Lemma add_row_result totals m :
  (exists totals', add_row totals m = Normal totals' /\ counted m)
  \/ (add_row totals m = Raised TypeError /\ ~ counted m).
Proof.
  unfold add_row, counted.
  destruct (Metric.commits m); cbn [add_column rbind];
    [|right; split; [reflexivity|intros (H & _); contradiction H; reflexivity]].
  destruct (Metric.prs_opened m); cbn [add_column rbind];
    [|right; split; [reflexivity|intros (_ & H & _); contradiction H; reflexivity]].
  destruct (Metric.prs_merged m); cbn [add_column rbind];
    [|right; split; [reflexivity|intros (_ & _ & H & _); contradiction H; reflexivity]].
  destruct (Metric.reviews m); cbn [add_column rbind];
    [|right; split; [reflexivity|intros (_ & _ & _ & H); contradiction H; reflexivity]].
  left. eexists. split; [reflexivity|]. repeat split; discriminate.
Qed.

(** *** The time series *)

Lemma lookup_store {V} (k d : string) (v : V) (items : list (string * V)) :
  Py.lookup d (store k v items)
  = if String.eqb k d then Some v else Py.lookup d items.
Proof.
  induction items as [|[k' x] items IH]; simpl.
  - reflexivity.
  - destruct (String.eqb k' k) eqn:E; simpl.
    + apply String.eqb_eq in E. subst k'.
      destruct (String.eqb k d); reflexivity.
    + destruct (String.eqb k' d) eqn:E'.
      * apply String.eqb_eq in E'. subst k'.
        rewrite String.eqb_sym, E. reflexivity.
      * exact IH.
Qed.

Lemma keys_store {V} (k : string) (v : V) (items : list (string * V)) d :
  In d (map fst (store k v items)) <-> d = k \/ In d (map fst items).
Proof.
  induction items as [|[k' x] items IH]; simpl.
  - intuition congruence.
  - destruct (String.eqb k' k) eqn:E; simpl.
    + apply String.eqb_eq in E. subst k'. intuition congruence.
    + rewrite IH. intuition congruence.
Qed.

Lemma keys_store_nodup {V} (k : string) (v : V) (items : list (string * V)) :
  NoDup (map fst items) -> NoDup (map fst (store k v items)).
Proof.
  induction items as [|[k' x] items IH]; simpl; intros H.
  - constructor; [intros []|constructor].
  - inversion H as [|? ? Hni Hnd]; subst.
    destruct (String.eqb k' k) eqn:E; simpl.
    + constructor; assumption.
    + constructor; [|apply IH; exact Hnd].
      intros Hin. apply keys_store in Hin. destruct Hin as [Hin|Hin].
      * subst k'. rewrite String.eqb_refl in E. discriminate E.
      * contradiction.
Qed.

Lemma lookup_none_not_key {V} (d : string) (items : list (string * V)) :
  Py.lookup d items = None <-> ~ In d (map fst items).
Proof.
  induction items as [|[k x] items IH]; simpl.
  - intuition.
  - destruct (String.eqb k d) eqn:E.
    + apply String.eqb_eq in E. subst k. split; [discriminate|]. intros H.
      exfalso. apply H. left. reflexivity.
    + apply String.eqb_neq in E. rewrite IH. intuition.
Qed.

Section SeriesFacts.

Variable local_date : Z -> string.

Lemma series_step_counted series m :
  counted m ->
  exists series',
    series_step local_date series m = Normal series'
    /\ (forall d,
          series_at series' d
          = if String.eqb (local_date (Metric.timestamp m)) d
            then add_counts (series_at series d) (counts_of m)
            else series_at series d)
    /\ (forall d, In d (map fst series')
                  <-> d = local_date (Metric.timestamp m) \/ In d (map fst series))
    /\ (NoDup (map fst series) -> NoDup (map fst series')).
Proof.
  intros Hc. unfold series_step.
  set (date_str := local_date (Metric.timestamp m)).
  set (series1 := match Py.lookup date_str series with
                  | Some _ => series
                  | None => store date_str zero_counts series
                  end).
  assert (H1 : forall d, series_at series1 d = series_at series d).
  { intros d. subst series1. destruct (Py.lookup date_str series) eqn:E; [reflexivity|].
    unfold series_at. rewrite lookup_store.
    destruct (String.eqb date_str d) eqn:E'; [|reflexivity].
    apply String.eqb_eq in E'. subst d. rewrite E. reflexivity. }
  assert (H2 : forall d, In d (map fst series1) <-> d = date_str \/ In d (map fst series)).
  { intros d. subst series1. destruct (Py.lookup date_str series) eqn:E.
    - split; [intros H; right; exact H|]. intros [H|H]; [|exact H]. subst d.
      destruct (in_dec string_dec date_str (map fst series)) as [Hi|Hi]; [exact Hi|].
      apply lookup_none_not_key in Hi. congruence.
    - apply keys_store. }
  assert (H3 : NoDup (map fst series) -> NoDup (map fst series1)).
  { subst series1. destruct (Py.lookup date_str series); [tauto|].
    apply keys_store_nodup. }
  fold (series_at series1 date_str).
  rewrite (add_row_counted _ _ Hc). cbn [rbind].
  eexists. split; [reflexivity|]. split; [|split].
  - intros d. unfold series_at at 1. rewrite lookup_store.
    destruct (String.eqb date_str d) eqn:E.
    + apply String.eqb_eq in E. rewrite <- E, H1. reflexivity.
    + fold (series_at series1 d). apply H1.
  - intros d. rewrite keys_store, H2. tauto.
  - intros H. apply keys_store_nodup, H3, H.
Qed.

Lemma series_loop_counted rows :
  Forall counted rows ->
  forall series,
    exists series',
      series_loop local_date rows series = Normal series'
      /\ (forall d,
            series_at series' d
            = add_counts (series_at series d) (total_of (rows_on local_date d rows)))
      /\ (forall d, In d (map fst series')
                    <-> In d (map fst series)
                        \/ exists m, In m rows /\ local_date (Metric.timestamp m) = d)
      /\ (NoDup (map fst series) -> NoDup (map fst series')).
Proof.
  induction 1 as [|m rows Hm _ IH]; intros series.
  - exists series. split; [reflexivity|]. split; [|split].
    + intros d. simpl. rewrite add_counts_zero_r. reflexivity.
    + intros d. split; [tauto|]. intros [H|(m & [] & _)]. exact H.
    + tauto.
  - cbn [series_loop].
    destruct (series_step_counted series m Hm) as (s1 & E1 & A1 & K1 & N1).
    rewrite E1. cbn [rbind].
    destruct (IH s1) as (s2 & E2 & A2 & K2 & N2).
    exists s2. split; [exact E2|]. split; [|split].
    + intros d. rewrite A2, A1. unfold rows_on. simpl.
      destruct (String.eqb (local_date (Metric.timestamp m)) d).
      * unfold total_of. simpl. fold (total_of (rows_on local_date d rows)).
        rewrite add_counts_assoc. reflexivity.
      * reflexivity.
    + intros d. rewrite K2, K1. split.
      * intros [[H|H]|(x & Hx & Hd)].
        -- right. exists m. split; [left; reflexivity|symmetry; exact H].
        -- left. exact H.
        -- right. exists x. split; [right; exact Hx|exact Hd].
      * intros [H|(x & [Hx|Hx] & Hd)].
        -- left. right. exact H.
        -- subst x. left. left. symmetry. exact Hd.
        -- right. exists x. split; assumption.
    + intros H. apply N2, N1, H.
Qed.

Lemma series_loop_result rows series :
  (Forall counted rows /\ exists series', series_loop local_date rows series = Normal series')
  \/ (~ Forall counted rows /\ series_loop local_date rows series = Raised TypeError).
Proof.
  revert series. induction rows as [|m rows IH]; intros series.
  - left. split; [constructor|]. exists series. reflexivity.
  - cbn [series_loop]. unfold series_step.
    match goal with |- context [add_row ?t m] =>
      destruct (add_row_result t m) as [(t' & E & Hc)|[E Hc]]; rewrite E
    end; cbn [rbind].
    + match goal with |- context [series_loop local_date rows ?s] =>
        destruct (IH s) as [[Hall (s' & E')]|[Hall E']]
      end.
      * left. split; [constructor; assumption|]. exists s'. exact E'.
      * right. split; [|exact E']. intros H. inversion H. contradiction.
    + right. split; [|reflexivity]. intros H. inversion H. contradiction.
Qed.

Lemma summary_loop_result emps summary w :
  (Forall counted (flat_map (fun e => match _latest_metric e w with
                                      | Some m => [m] | None => [] end) emps)
   /\ summary_loop emps summary w
      = Normal (add_counts summary
                  (total_of (flat_map (fun e => match _latest_metric e w with
                                                | Some m => [m] | None => [] end) emps))))
  \/ (~ Forall counted (flat_map (fun e => match _latest_metric e w with
                                           | Some m => [m] | None => [] end) emps)
      /\ summary_loop emps summary w = Raised TypeError).
Proof.
  revert summary. induction emps as [|e emps IH]; intros summary.
  - left. split; [constructor|]. simpl. rewrite add_counts_zero_r. reflexivity.
  - cbn [summary_loop flat_map].
    destruct (_latest_metric e w) as [latest|]; [|exact (IH summary)].
    destruct (add_row_result summary latest) as [(t' & E & Hc)|[E Hc]]; rewrite E;
      cbn [rbind app].
    + rewrite (add_row_counted _ _ Hc) in E. inversion E; subst t'.
      destruct (IH (add_counts summary (counts_of latest))) as [[Hall E']|[Hall E']].
      * left. split; [constructor; assumption|]. rewrite E'.
        unfold total_of. simpl. rewrite add_counts_assoc. reflexivity.
      * right. split; [|exact E']. intros H. inversion H. contradiction.
    + right. split; [|reflexivity]. intros H. inversion H. contradiction.
Qed.

Lemma latest_rows_in_table w :
  forall m, In m (latest_rows w) -> In m (metrics w).
Proof.
  intros m Hm. unfold latest_rows in Hm. apply in_flat_map in Hm.
  destruct Hm as (e & _ & Hm).
  pose proof (latest_metric_is_newest_aux e w) as H.
  destruct (_latest_metric e w) as [latest|]; [|contradiction].
  destruct Hm as [Hm|[]]. subst. exact H.
Qed.

End SeriesFacts.

Section DashboardFacts.

Variable local_date : Z -> string.

Lemma forall_counted_sorted rows :
  Forall counted rows <-> Forall counted (order_by_timestamp rows).
Proof.
  rewrite !Forall_forall. split; intros H x Hx; apply H.
  - eapply Permutation_in; [apply Permutation_sym, order_by_timestamp_perm|exact Hx].
  - eapply Permutation_in; [apply order_by_timestamp_perm|exact Hx].
Qed.

Lemma forall_counted_latest w :
  all_counted w -> Forall counted (latest_rows w).
Proof.
  unfold all_counted. rewrite !Forall_forall. intros H m Hm.
  apply H. apply latest_rows_in_table. exact Hm.
Qed.

(** What [_aggregate_group_metrics] returns, when it returns. *)
Lemma group_metrics_inv w summary chart :
  _aggregate_group_metrics local_date w = Normal (summary, chart) ->
  all_counted w
  /\ summary = total_of (latest_rows w)
  /\ exists series,
       labels chart = sorted_strings (map fst series)
       /\ NoDup (map fst series)
       /\ (forall d, In d (map fst series)
                     <-> exists m, In m (metrics w) /\ local_date (Metric.timestamp m) = d)
       /\ (forall d, series_at series d = total_of (rows_on local_date d (metrics w)))
       /\ chart_commits chart
          = map (fun d => Counts.commits (series_at series d)) (labels chart)
       /\ chart_prs_opened chart
          = map (fun d => Counts.prs_opened (series_at series d)) (labels chart)
       /\ chart_prs_merged chart
          = map (fun d => Counts.prs_merged (series_at series d)) (labels chart)
       /\ chart_reviews chart
          = map (fun d => Counts.reviews (series_at series d)) (labels chart).
Proof.
  unfold _aggregate_group_metrics. intros H.
  destruct (summary_loop_result (employees w) zero_counts w) as [[_ Es]|[_ Es]];
    rewrite Es in H; cbn [rbind] in H; [|discriminate H].
  destruct (series_loop_result local_date (order_by_timestamp (metrics w)) [])
    as [[Hall _]|[_ El]]; [|rewrite El in H; discriminate H].
  destruct (series_loop_counted local_date _ Hall []) as (series & El & A & K & N).
  rewrite El in H. cbn [rbind] in H. inversion H; subst summary chart. clear H.
  split; [exact (proj2 (forall_counted_sorted (metrics w)) Hall)|].
  split; [apply add_counts_zero_l|].
  exists series. cbn [labels chart_commits chart_prs_opened chart_prs_merged chart_reviews].
  split; [reflexivity|]. split; [apply N; constructor|]. split; [|split].
  - intros d. rewrite K. split.
    + intros [[]|(m & Hm & Hd)]. exists m. split; [|exact Hd].
      eapply Permutation_in; [apply Permutation_sym, order_by_timestamp_perm|exact Hm].
    + intros (m & Hm & Hd). right. exists m. split; [|exact Hd].
      eapply Permutation_in; [apply order_by_timestamp_perm|exact Hm].
  - intros d. rewrite A. cbn [series_at Py.lookup]. rewrite add_counts_zero_l.
    apply total_of_perm. apply filter_perm.
    apply Permutation_sym, order_by_timestamp_perm.
  - repeat split; reflexivity.
Qed.

Lemma group_metrics_need_every_counter_aux w :
  (all_counted w ->
   exists summary chart, _aggregate_group_metrics local_date w = Normal (summary, chart))
  /\ (~ all_counted w -> _aggregate_group_metrics local_date w = Raised TypeError).
Proof.
  unfold _aggregate_group_metrics. split.
  - intros Hall.
    destruct (summary_loop_result (employees w) zero_counts w) as [[_ Es]|[Hn _]].
    2:{ exfalso. apply Hn. apply forall_counted_latest. exact Hall. }
    rewrite Es. cbn [rbind].
    destruct (series_loop_result local_date (order_by_timestamp (metrics w)) [])
      as [[_ (s & El)]|[Hn _]].
    2:{ exfalso. apply Hn. exact (proj1 (forall_counted_sorted (metrics w)) Hall). }
    rewrite El. cbn [rbind]. eexists _, _. reflexivity.
  - intros Hn.
    destruct (summary_loop_result (employees w) zero_counts w) as [[_ Es]|[_ Es]];
      rewrite Es; cbn [rbind]; [|reflexivity].
    destruct (series_loop_result local_date (order_by_timestamp (metrics w)) [])
      as [[Hall _]|[_ El]].
    + exfalso. apply Hn. exact (proj2 (forall_counted_sorted (metrics w)) Hall).
    + rewrite El. reflexivity.
Qed.

(** X16: [_aggregate_group_metrics] needs every counter.  It returns
    when no counter of any Metric row is null, and raises [TypeError]
    as soon as one is, whichever row and column it is. *)
Theorem group_metrics_need_every_counter w :
  (all_counted w ->
   exists summary chart, _aggregate_group_metrics local_date w = Normal (summary, chart))
  /\ (~ all_counted w -> _aggregate_group_metrics local_date w = Raised TypeError).
Proof. exact (group_metrics_need_every_counter_aux w). Qed.

(** X17: what the group dashboard shows.  The summary is the total of
    the latest row of every employee that has one.  The labels of the
    chart are the dates on which there is a Metric row, each once, in
    ascending order; under each label every series carries the total of
    that counter over all rows of that date, whatever the order of the
    rows in the table. *)
Theorem group_metrics_content w summary chart :
  _aggregate_group_metrics local_date w = Normal (summary, chart) ->
  summary = total_of (latest_rows w)
  /\ Sorted (fun a b => String.leb a b = true) (labels chart)
  /\ NoDup (labels chart)
  /\ (forall d, In d (labels chart)
                <-> exists m, In m (metrics w) /\ local_date (Metric.timestamp m) = d)
  /\ chart_commits chart
     = map (fun d => Counts.commits (total_of (rows_on local_date d (metrics w))))
           (labels chart)
  /\ chart_prs_opened chart
     = map (fun d => Counts.prs_opened (total_of (rows_on local_date d (metrics w))))
           (labels chart)
  /\ chart_prs_merged chart
     = map (fun d => Counts.prs_merged (total_of (rows_on local_date d (metrics w))))
           (labels chart)
  /\ chart_reviews chart
     = map (fun d => Counts.reviews (total_of (rows_on local_date d (metrics w))))
           (labels chart).
Proof.
  intros H. apply group_metrics_inv in H.
  destruct H as (_ & Hs & series & Hl & Hnd & Hk & Ha & H1 & H2 & H3 & H4).
  split; [exact Hs|]. split; [rewrite Hl; apply sorted_strings_sorted|].
  split; [rewrite Hl; eapply Permutation_NoDup;
          [apply sorted_strings_perm|exact Hnd]|].
  split.
  - intros d. rewrite <- Hk, Hl. split; intros Hd.
    + eapply Permutation_in; [apply Permutation_sym, sorted_strings_perm|exact Hd].
    + eapply Permutation_in; [apply sorted_strings_perm|exact Hd].
  - rewrite H1, H2, H3, H4.
    repeat split; apply map_ext; intros d; rewrite Ha; reflexivity.
Qed.

Lemma total_over_zero dates : total_over (fun _ => zero_counts) dates = zero_counts.
Proof.
  induction dates as [|d dates IH]; simpl; [reflexivity|].
  unfold total_over in *. simpl. rewrite IH. reflexivity.
Qed.

Lemma total_over_bump k c g dates :
  NoDup dates -> In k dates ->
  total_over (fun d => if String.eqb k d then add_counts c (g d) else g d) dates
  = add_counts c (total_over g dates).
Proof.
  induction 1 as [|d dates Hni Hnd IH]; intros Hin; [contradiction|].
  unfold total_over in *. simpl. destruct Hin as [Hin|Hin].
  - subst d. rewrite String.eqb_refl.
    assert (Hrest : forall l, ~ In k l ->
              fold_right (fun d acc =>
                add_counts (if String.eqb k d then add_counts c (g d) else g d) acc)
                zero_counts l
              = fold_right (fun d acc => add_counts (g d) acc) zero_counts l).
    { induction l as [|x l IHl]; simpl; intros Hx; [reflexivity|].
      destruct (String.eqb k x) eqn:E.
      - apply String.eqb_eq in E. exfalso. apply Hx. left. symmetry. exact E.
      - rewrite IHl; [reflexivity|]. intros H. apply Hx. right. exact H. }
    rewrite (Hrest dates Hni). apply add_counts_assoc.
  - rewrite (IH Hin). destruct (String.eqb k d) eqn:E.
    + apply String.eqb_eq in E. subst d. contradiction.
    + rewrite <- !add_counts_assoc. rewrite (add_counts_comm (g d) c). reflexivity.
Qed.

Lemma total_over_ext f g dates :
  (forall d, f d = g d) -> total_over f dates = total_over g dates.
Proof.
  intros H. induction dates as [|d dates IH]; simpl; [reflexivity|].
  unfold total_over in *. simpl. rewrite IH, H. reflexivity.
Qed.

Lemma total_over_dates rows :
  forall dates,
    NoDup dates ->
    (forall m, In m rows -> In (local_date (Metric.timestamp m)) dates) ->
    total_over (fun d => total_of (rows_on local_date d rows)) dates = total_of rows.
Proof.
  induction rows as [|m rows IH]; intros dates Hnd Hcov.
  - simpl. apply total_over_zero.
  - unfold total_of at 2. simpl. fold (total_of rows).
    rewrite <- (IH dates Hnd) by (intros x Hx; apply Hcov; right; exact Hx).
    rewrite <- (total_over_bump (local_date (Metric.timestamp m)) (counts_of m)
                  (fun d => total_of (rows_on local_date d rows)) dates Hnd)
      by (apply Hcov; left; reflexivity).
    apply total_over_ext. intros d. unfold rows_on. simpl.
    destruct (String.eqb (local_date (Metric.timestamp m)) d); reflexivity.
Qed.

Lemma total_over_component (proj : Counts.t -> Z) f dates :
  proj zero_counts = 0 ->
  (forall a b, proj (add_counts a b) = proj a + proj b) ->
  proj (total_over f dates) = sum_counts (map (fun d => proj (f d)) dates).
Proof.
  intros H0 Hadd. induction dates as [|d dates IH]; simpl; [exact H0|].
  unfold total_over in *. simpl. rewrite Hadd, IH. reflexivity.
Qed.

(** X18: the time series loses and invents nothing.  Summed over the
    labels, each series of the group chart equals the total of that
    counter over all Metric rows. *)
Theorem time_series_conserves_totals w summary chart :
  _aggregate_group_metrics local_date w = Normal (summary, chart) ->
  sum_counts (chart_commits chart) = Counts.commits (total_of (metrics w))
  /\ sum_counts (chart_prs_opened chart) = Counts.prs_opened (total_of (metrics w))
  /\ sum_counts (chart_prs_merged chart) = Counts.prs_merged (total_of (metrics w))
  /\ sum_counts (chart_reviews chart) = Counts.reviews (total_of (metrics w)).
Proof.
  intros H. apply group_metrics_inv in H.
  destruct H as (_ & _ & series & Hl & Hnd & Hk & Ha & H1 & H2 & H3 & H4).
  assert (Hnd' : NoDup (labels chart)).
  { rewrite Hl. eapply Permutation_NoDup; [apply sorted_strings_perm|exact Hnd]. }
  assert (Hcov : forall m, In m (metrics w) ->
                           In (local_date (Metric.timestamp m)) (labels chart)).
  { intros m Hm. rewrite Hl.
    eapply Permutation_in; [apply sorted_strings_perm|].
    apply Hk. exists m. split; [exact Hm|reflexivity]. }
  pose proof (total_over_dates (metrics w) (labels chart) Hnd' Hcov) as Ht.
  rewrite H1, H2, H3, H4, <- Ht.
  repeat split;
    (erewrite map_ext; [symmetry; apply total_over_component|
                        intros d; cbv beta; rewrite Ha; reflexivity];
     [reflexivity|intros a b; reflexivity]).
Qed.

End DashboardFacts.

Lemma group_metrics_need_every_counter_witness :
  (exists summary chart, _aggregate_group_metrics day_number w2 = Normal (summary, chart))
  /\ _aggregate_group_metrics day_number w2_null = Raised TypeError.
Proof.
  destruct (group_metrics_need_every_counter day_number w2) as [H1 _].
  destruct (group_metrics_need_every_counter day_number w2_null) as [_ H2].
  split.
  - apply H1. repeat constructor; discriminate.
  - apply H2. intros H. inversion H as [|? ? _ H']. inversion H' as [|? ? Hc _].
    destruct Hc as (_ & _ & _ & Hc). apply Hc. reflexivity.
Defined.

Lemma group_metrics_content_witness :
  _aggregate_group_metrics day_number w2
  = Normal (Counts.mk 10 12 8 5, mkChart ["1"; "2"] [9; 9] [12; 12] [7; 8] [5; 3])
  /\ Counts.mk 10 12 8 5 = total_of (latest_rows w2)
  /\ (forall d, In d ["1"; "2"]
                <-> exists m, In m (metrics w2) /\ day_number (Metric.timestamp m) = d).
Proof.
  assert (E : _aggregate_group_metrics day_number w2
              = Normal (Counts.mk 10 12 8 5,
                        mkChart ["1"; "2"] [9; 9] [12; 12] [7; 8] [5; 3]))
    by (vm_compute; reflexivity).
  destruct (group_metrics_content day_number w2 _ _ E) as (H1 & _ & _ & H2 & _).
  split; [exact E|]. split; [exact H1|exact H2].
Defined.

Lemma time_series_conserves_totals_witness :
  sum_counts [9; 9] = Counts.commits (total_of (metrics w2)).
Proof.
  destruct (time_series_conserves_totals day_number w2 (Counts.mk 10 12 8 5)
              (mkChart ["1"; "2"] [9; 9] [12; 12] [7; 8] [5; 3])) as (H & _).
  - vm_compute. reflexivity.
  - exact H.
Defined.


(** X20: the index page.  When it is rendered the page lists every
    employee of the table exactly once, in ascending order of name,
    together with what [_aggregate_group_metrics] returns; it is
    rendered exactly when no counter is null, and raises [TypeError]
    otherwise. *)
Theorem index_page local_date w :
  (forall page,
     index local_date w = Normal page ->
     Permutation (employees w) (index_employees page)
     /\ Sorted (fun a b => String.leb (Employee.name a) (Employee.name b) = true)
               (index_employees page)
     /\ _aggregate_group_metrics local_date w
        = Normal (index_summary page, index_chart page))
  /\ (all_counted w -> exists page, index local_date w = Normal page)
  /\ (~ all_counted w -> index local_date w = Raised TypeError).
Proof.
  unfold index. split; [|split].
  - intros page H.
    destruct (_aggregate_group_metrics local_date w) as [[s c]|e]; cbn [rbind] in H;
      [|discriminate H].
    inversion H; subst page. cbn [index_employees index_summary index_chart fst snd].
    split; [apply order_by_name_perm|]. split; [apply order_by_name_sorted|reflexivity].
  - intros Hall.
    destruct (group_metrics_need_every_counter_aux local_date w) as [H _].
    destruct (H Hall) as (s & c & E). rewrite E. cbn [rbind]. eexists. reflexivity.
  - intros Hn.
    destruct (group_metrics_need_every_counter_aux local_date w) as [_ H].
    rewrite (H Hn). reflexivity.
Qed.

Lemma index_page_witness :
  exists page,
    index day_number w2 = Normal page
    /\ map Employee.name (index_employees page) = ["Alice"; "Bob"; "Carol"; "Dave"].
Proof.
  destruct (index_page day_number w2) as (_ & H & _).
  destruct H as (page & E).
  - repeat constructor; discriminate.
  - exists page. split; [exact E|].
    assert (E' : index day_number w2
                 = Normal (mkIndexPage [alice; bob; carol; dave] (Counts.mk 10 12 8 5)
                             (mkChart ["1"; "2"] [9; 9] [12; 12] [7; 8] [5; 3])))
      by (vm_compute; reflexivity).
    rewrite E' in E. inversion E. reflexivity.
Defined.

(** ** The callers of the batch *)




(** X22: the two callers of the batch report what was written.  A GET
    of the update view shows the confirmation page and runs nothing.  A
    POST, and likewise [update_metrics.main], runs the batch once;
    when the batch returns, the number in the flashed message, and in
    the printed line, is the number of Metric rows the run has added to
    the table, which is at most the number of active employees; when
    the batch raises, so does the caller. *)
Theorem batch_callers_report_rows_written cfg server req w :
  (method req = GET ->
   update cfg server req w
   = (Normal (mkView (Template "update_confirm.html" None) []), w))
  /\ (forall res w',
        update_metrics_for_all_employees cfg server w = (res, w') ->
        match res with
        | Normal records =>
            let count := (List.length (metrics w') - List.length (metrics w))%nat in
            (count <= List.length (filter Employee.active (employees w)))%nat
            /\ (method req = POST ->
                update cfg server req w
                = (Normal (mkView (Redirect "main.index")
                             [("success",
                               "Metrics updated for " ++ str_of_nat count
                               ++ " active employee(s).")]), w'))
            /\ main cfg server w
               = (Normal ("Updated metrics for " ++ str_of_nat count ++ " employee(s)."),
                  w')
        | Raised e =>
            (method req = POST -> update cfg server req w = (Raised e, w'))
            /\ main cfg server w = (Raised e, w')
        end).
Proof.
  split.
  - intros Hget. unfold update. rewrite Hget. reflexivity.
  - intros res w' E. destruct res as [records|e].
    + assert (Hcount : (List.length (metrics w') - List.length (metrics w))%nat
                       = List.length records
                       /\ (List.length records
                           <= List.length (filter Employee.active (employees w)))%nat).
      { pose proof E as E'.
        unfold update_metrics_for_all_employees, bind, query_active_employees in E'.
        apply update_loop_store in E'. destruct E' as (_ & created & H2 & H3 & H4).
        destruct (H4 records eq_refl) as [H5 _]. simpl in H5. subst created.
        split; [rewrite H2, length_app; lia|].
        clear - E. revert E.
        unfold update_metrics_for_all_employees, bind, query_active_employees.
        generalize (filter Employee.active (employees w)) as emps.
        intros emps.
        assert (G : forall emps acc w0 records w',
                  update_loop cfg server emps acc w0 = (Normal records, w') ->
                  (List.length records <= List.length acc + List.length emps)%nat).
        { clear. induction emps as [|emp rest IH]; intros acc w0 records w' H;
            cbn [update_loop] in H.
          - inversion H; subst. simpl. lia.
          - unfold bind in H.
            destruct (update_metrics_for_employee cfg server emp w0) as [[[m|]|e] w1];
              [| |discriminate H].
            + apply IH in H. rewrite length_app in H. simpl in *. lia.
            + apply IH in H. simpl. lia. }
        intros H. apply G in H. simpl in H. exact H. }
      destruct Hcount as [Hc Hle]. cbv zeta. rewrite Hc.
      split; [exact Hle|]. split.
      * intros Hpost. unfold update. rewrite Hpost. unfold bind. rewrite E. reflexivity.
      * unfold main, bind. rewrite E. reflexivity.
    + split.
      * intros Hpost. unfold update. rewrite Hpost. unfold bind. rewrite E. reflexivity.
      * unfold main, bind. rewrite E. reflexivity.
Qed.

Lemma batch_callers_report_rows_written_witness :
  fst (update cfg0 github (post []) w0)
  = Normal (mkView (Redirect "main.index")
              [("success", "Metrics updated for 3 active employee(s).")])
  /\ fst (main cfg0 github w0) = Normal "Updated metrics for 3 employee(s).".
Proof.
  destruct (batch_callers_report_rows_written cfg0 github (post []) w0) as [_ H].
  specialize (H (fst (update_metrics_for_all_employees cfg0 github w0))
                (snd (update_metrics_for_all_employees cfg0 github w0))
                (surjective_pairing _)).
  destruct (fst (update_metrics_for_all_employees cfg0 github w0)) as [records|e] eqn:Er.
  - destruct H as (_ & H1 & H2).
    rewrite (H1 eq_refl), H2. split; vm_compute; reflexivity.
  - exfalso. vm_compute in Er. discriminate Er.
Defined.

(** ** The requests the collector sends *)

Lemma emits_weaken {A} (P Q : event -> Prop) (m : M A) :
  (forall ev, P ev -> Q ev) -> emits P m -> emits Q m.
Proof.
  intros H Hm w. destruct (Hm w) as (new & E & F).
  exists new. split; [exact E|]. eapply Forall_impl; [exact H|exact F].
Qed.

Lemma emits_ret {A} P (v : A) : emits P (ret v).
Proof. intros w. exists []. split; [symmetry; apply app_nil_r|constructor]. Qed.

Lemma emits_lift {A} P (r : result A) : emits P (lift r).
Proof. intros w. exists []. split; [symmetry; apply app_nil_r|constructor]. Qed.

Lemma emits_logger (P : event -> Prop) lvl msg :
  P (EvLog lvl msg) -> emits P (logger lvl msg).
Proof. intros H w. exists [EvLog lvl msg]. split; [reflexivity|repeat constructor; exact H]. Qed.

Lemma emits_sleep (P : event -> Prop) s : P (EvSleep s) -> emits P (sleep s).
Proof. intros H w. exists [EvSleep s]. split; [reflexivity|repeat constructor; exact H]. Qed.

Lemma emits_requests_get (P : event -> Prop) server u h p :
  P (EvGet (mkRequest u h p)) -> emits P (requests_get server u h p).
Proof.
  intros H w. exists [EvGet (mkRequest u h p)]. unfold requests_get.
  split; [destruct (server _ _); reflexivity|repeat constructor; exact H].
Qed.

Lemma emits_bind {A B} P (m : M A) (k : A -> M B) :
  emits P m -> (forall v, emits P (k v)) -> emits P (bind m k).
Proof.
  intros Hm Hk w. unfold bind. destruct (Hm w) as (n1 & E1 & F1).
  destruct (m w) as [[v|e] w1]; cbn [snd] in *.
  - destruct (Hk v w1) as (n2 & E2 & F2). exists (n1 ++ n2)%list.
    split; [rewrite E2, E1, app_assoc; reflexivity|].
    apply Forall_app. split; assumption.
  - exists n1. split; assumption.
Qed.

Lemma emits_try_except {A} P (m : M A) e (h : M A) :
  emits P m -> emits P h -> emits P (try_except m e h).
Proof.
  intros Hm Hh w. unfold try_except. destruct (Hm w) as (n1 & E1 & F1).
  destruct (m w) as [[v|e'] w1]; cbn [snd] in *.
  - exists n1. split; assumption.
  - destruct (exn_eqb e' e); cbn [snd].
    + destruct (Hh w1) as (n2 & E2 & F2). exists (n1 ++ n2)%list.
      split; [rewrite E2, E1, app_assoc; reflexivity|].
      apply Forall_app. split; assumption.
    + exists n1. split; assumption.
Qed.

Lemma emits_poll (P : event -> Prop) server u h p :
  P (EvGet (mkRequest u h p)) ->
  (forall s, 1 <= s <= 16 -> P (EvSleep s)) ->
  forall budget retries resp,
    0 <= retries ->
    emits P (poll server budget u h p retries resp).
Proof.
  intros Hg Hs. induction budget as [|b IH]; intros retries resp Hr; cbn [poll].
  - apply emits_ret.
  - destruct ((status_code resp =? 202) && (retries <? 5)) eqn:E; [|apply emits_ret].
    apply andb_true_iff in E. destruct E as [_ E]. apply Z.ltb_lt in E.
    apply emits_bind.
    + apply emits_sleep. apply Hs.
      assert (H4 : retries = 0 \/ retries = 1 \/ retries = 2 \/ retries = 3 \/ retries = 4)
        by lia.
      destruct H4 as [H4|[H4|[H4|[H4|H4]]]]; subst retries; simpl; lia.
    + intros _. apply emits_bind; [apply emits_requests_get; exact Hg|].
      intros resp'. apply IH. lia.
Qed.

Lemma emits_request cfg server u p :
  emits (request_event cfg (mkRequest u (request_headers (setting (GITHUB_TOKEN cfg))) p))
        (_request cfg server u p).
Proof.
  unfold _request. destruct (GITHUB_TOKEN cfg) as [token|] eqn:Htok.
  2:{ apply emits_bind; [apply emits_logger; exact I|intros; apply emits_ret]. }
  destruct (PyStr.is_empty token) eqn:He.
  { apply emits_bind; [apply emits_logger; exact I|intros; apply emits_ret]. }
  cbn [setting].
  assert (Hg : request_event cfg (mkRequest u (request_headers token) p)
                 (EvGet (mkRequest u (request_headers token) p))).
  { split; [|reflexivity]. rewrite Htok. cbn. rewrite He. reflexivity. }
  apply emits_try_except.
  - apply emits_bind; [apply emits_requests_get; exact Hg|]. intros r0.
    apply emits_bind.
    + apply emits_poll; [exact Hg|intros s Hs; exact Hs|lia].
    + intros r1. destruct (400 <=? status_code r1); [|apply emits_ret].
      apply emits_bind; [apply emits_logger; exact I|intros; apply emits_ret].
  - apply emits_bind; [apply emits_logger; exact I|intros; apply emits_ret].
Qed.

Lemma emits_fetch_contributor_stats cfg server :
  emits (collector_event cfg)
        (fetch_contributor_stats cfg server
           (setting (REPO_OWNER cfg)) (setting (REPO_NAME cfg))).
Proof.
  unfold fetch_contributor_stats. apply emits_bind.
  - eapply emits_weaken; [|apply emits_request].
    intros [r|s|lvl msg]; cbn; [|tauto|tauto].
    intros [H1 H2]. split; [exact H1|]. left. exact H2.
  - intros resp. destruct (not_resp resp); [apply emits_ret|].
    destruct resp; [|apply emits_ret].
    apply emits_try_except; [apply emits_lift|].
    apply emits_bind; [apply emits_logger; exact I|intros; apply emits_ret].
Qed.

Lemma emits_search_total_count cfg server owner repo terms :
  emits (collector_event cfg) (_search_total_count cfg server owner repo terms).
Proof.
  unfold _search_total_count. apply emits_bind.
  - eapply emits_weaken; [|apply emits_request].
    intros [r|s|lvl msg]; cbn; [|tauto|tauto].
    intros [H1 H2]. split; [exact H1|]. right. eexists. exact H2.
  - intros resp. destruct (not_resp resp); [apply emits_ret|].
    destruct resp; [|apply emits_ret].
    apply emits_try_except; [apply emits_lift|].
    apply emits_bind; [apply emits_logger; exact I|intros; apply emits_ret].
Qed.

Lemma emits_update_metrics_for_employee cfg server emp :
  emits (collector_event cfg) (update_metrics_for_employee cfg server emp).
Proof.
  unfold update_metrics_for_employee.
  destruct (negb (config_complete cfg)).
  { apply emits_bind; [apply emits_logger; exact I|intros; apply emits_ret]. }
  apply emits_bind; [apply emits_fetch_contributor_stats|]. intros stats.
  apply emits_bind; [apply emits_lift|]. intros tm.
  apply emits_bind; [apply emits_search_total_count|]. intros po.
  apply emits_bind; [apply emits_search_total_count|]. intros pm.
  apply emits_bind; [apply emits_search_total_count|]. intros rv.
  apply emits_bind.
  { intros w. exists []. split; [symmetry; apply app_nil_r|constructor]. }
  intros m. apply emits_bind; [apply emits_logger; exact I|intros; apply emits_ret].
Qed.

(** X23: where the token goes.  On any server a batch update only
    appends to the event log, and every GET it issues is sent with a
    configured token, carries that token in its [Authorization] header
    and is either the GET of [/repos/O/R/stats/contributors] for the
    configured repository or a GET of [/search/issues] with a single
    parameter [q], both on [https://api.github.com]; every sleep lasts
    between 1 and 16 seconds. *)
Theorem batch_sends_only_github_requests cfg server w :
  exists new,
    events (snd (update_metrics_for_all_employees cfg server w))
    = (events w ++ new)%list
    /\ Forall (collector_event cfg) new.
Proof.
  unfold update_metrics_for_all_employees.
  assert (H : forall emps acc, emits (collector_event cfg)
                                     (update_loop cfg server emps acc)).
  { induction emps as [|emp rest IH]; intros acc; cbn [update_loop].
    - apply emits_ret.
    - apply emits_bind; [apply emits_update_metrics_for_employee|].
      intros [r|]; apply IH. }
  apply (emits_bind (collector_event cfg) query_active_employees).
  - intros w0. exists []. split; [symmetry; apply app_nil_r|constructor].
  - intros emps. apply H.
Qed.

(** ** Stored names *)

(** X24: names and usernames are stored stripped.  If no stored name
    or username has leading or trailing whitespace, the same holds
    after any request to the registration and edit views: whatever the
    form sends, what is stored is its stripped value. *)
Theorem stored_names_are_stripped w :
  stored_stripped w ->
  (forall req, stored_stripped (snd (add_employee req w)))
  /\ (forall employee_id req, stored_stripped (snd (edit_employee employee_id req w))).
Proof.
  intros Hw. split.
  - intros req. unfold add_employee.
    destruct (method req); [exact Hw|].
    destruct (PyStr.is_empty _ || PyStr.is_empty _); [exact Hw|].
    destruct (is_some _); [exact Hw|].
    unfold stored_stripped, db_add_employee. cbn [snd employees].
    apply Forall_app. split; [exact Hw|]. constructor; [|constructor].
    cbn [Employee.name Employee.github_username]. rewrite !strip_idempotent.
    split; reflexivity.
  - intros employee_id req. unfold edit_employee.
    destruct (get_or_404 employee_id w); [|exact Hw].
    destruct (method req); [exact Hw|].
    destruct (PyStr.is_empty _ || PyStr.is_empty _); [exact Hw|].
    destruct (negb _ && is_some _); [exact Hw|].
    unfold stored_stripped, db_update_employee. cbn [snd employees].
    apply Forall_forall. intros x Hx. apply in_map_iff in Hx.
    destruct Hx as (y & Hy & Hin). subst x. unfold updated_row.
    destruct (Employee.id y =? _).
    + cbn [Employee.name Employee.github_username]. rewrite !strip_idempotent.
      split; reflexivity.
    + unfold stored_stripped in Hw. rewrite Forall_forall in Hw. apply Hw. exact Hin.
Qed.

Lemma stored_names_are_stripped_witness :
  stored_stripped
    (snd (add_employee (post [("name", "  Erin  "); ("github_username", " erin ")]) w0)).
Proof.
  destruct (stored_names_are_stripped w0) as [H _].
  - repeat constructor.
  - apply H.
Defined.
